(** * screamer: the local development server, [server.py]

    [server.py] is a script of three parts: a request handler class
    [MyHTTPRequestHandler] that overrides one method, [end_headers], of the
    platform's [http.server.SimpleHTTPRequestHandler]; a change of working
    directory; and a [socketserver.TCPServer] on port 8000 that serves until
    a [KeyboardInterrupt].

    The script's behaviour is the behaviour of the classes it instantiates.
    The development therefore embeds
    - [server.py] itself: [PORT], [MyHTTPRequestHandler.end_headers], the
      top-level statements ([Server.main]);
    - the methods the handler inherits from CPython's [http/server.py]
      ([BaseHTTPRequestHandler], [SimpleHTTPRequestHandler]), in module
      [HttpServer], each under the name it has there;
    - the server loop it runs, from CPython's [socketserver.py]
      ([BaseServer], [TCPServer]), in module [SocketServer].

    Strings are byte strings: a [str] decoded as iso-8859-1 has one
    character per byte.  Pure library helpers whose detail no statement
    depends on (URL unquoting, MIME type guessing, [repr], the clock, the
    file system) are the fields of a [platform] record over which every
    definition and theorem is parametrised.

    The theorems come in two parts: the statements C1 to C10 about the
    script, then further properties X1 to X23 of the replies to GET and
    HEAD, of the parsing of request lines, of the connections and of the
    start and the end of the process. *)

From Stdlib Require Import String Ascii List ZArith NArith Bool Lia.
From Stdlib Require Import DecimalString Permutation.
Import ListNotations.

#[local] Open Scope list_scope.
#[local] Open Scope string_scope.

(** Reverse application, to write a method body as the sequence of
    statements it is. *)
Notation "h |> f" := (f h) (at level 45, left associativity, only parsing).

(* ================================================================== *)
(** ** Python string operations used by the handler *)
(* ================================================================== *)

Module Str.

Definition CR : ascii := "013"%char.
Definition LF : ascii := "010"%char.
Definition CRLF : string := String CR (String LF "").
Definition dquote : string := String "034"%char "".

Definition code (c : ascii) : N := N_of_ascii c.

(** [str(n)] and [%d] for an integer. *)
Definition str (z : Z) : string := NilZero.string_of_int (Z.to_int z).

(** [len(s)] *)
Definition len (s : string) : Z := Z.of_nat (String.length s).

(** [s.startswith(p)] and [s.endswith(p)] *)
Definition startswith (p s : string) : bool := String.prefix p s.

Fixpoint rev_string (s : string) (acc : string) : string :=
  match s with
  | "" => acc
  | String c s' => rev_string s' (String c acc)
  end.

Definition endswith (p s : string) : bool :=
  String.prefix (rev_string p "") (rev_string s "").

(** [c.isspace()] for a character below 256. *)
Definition isspace (c : ascii) : bool :=
  let n := code c in
  ((9 <=? n) && (n <=? 13) || (28 <=? n) && (n <=? 32)
   || (n =? 133) || (n =? 160))%N.

(** [s.lower()] for a string of characters below 256: the ASCII capitals
    and the Latin-1 capitals 0xC0..0xDE, the multiplication sign apart. *)
Definition lower_char (c : ascii) : ascii :=
  let n := code c in
  if ((65 <=? n) && (n <=? 90)
      || (192 <=? n) && (n <=? 222) && negb (n =? 215))%N
  then ascii_of_N (n + 32) else c.

Fixpoint lower (s : string) : string :=
  match s with
  | "" => ""
  | String c s' => String (lower_char c) (lower s')
  end.

(** [s.lstrip(c)] for a single character [c]. *)
Fixpoint lstrip (c : ascii) (s : string) : string :=
  match s with
  | String d s' => if Ascii.eqb c d then lstrip c s' else s
  | "" => ""
  end.

(** [s.rstrip('\r\n')]: drops every trailing CR and LF. *)
Fixpoint rstrip_crlf (s : string) : string :=
  match s with
  | "" => ""
  | String c s' =>
      match rstrip_crlf s' with
      | "" => if Ascii.eqb c CR || Ascii.eqb c LF then "" else String c ""
      | r => String c r
      end
  end.

(** [s.split()]: the maximal runs of non-space characters. [cur] is the
    run being read, [None] between runs. *)
Fixpoint split_ws (s : string) (cur : option string) : list string :=
  match s with
  | "" => match cur with Some w => [rev_string w ""] | None => [] end
  | String c s' =>
      if isspace c then
        match cur with
        | Some w => rev_string w "" :: split_ws s' None
        | None => split_ws s' None
        end
      else
        split_ws s'
          (Some (String c (match cur with Some w => w | None => "" end)))
  end.

Definition split (s : string) : list string := split_ws s None.

(** [s.split(c)] for a one-character separator: never empty. *)
Fixpoint split_on (c : ascii) (s : string) : list string :=
  match s with
  | "" => [""]
  | String d s' =>
      match split_on c s' with
      | w :: ws => if Ascii.eqb c d then "" :: w :: ws else String d w :: ws
      | [] => [String d ""]
      end
  end.

(** [s.split(c, 1)]: at most one cut. *)
Fixpoint split_once (c : ascii) (s : string) : list string :=
  match s with
  | "" => [""]
  | String d s' =>
      if Ascii.eqb c d then [""; s']
      else match split_once c s' with
           | w :: ws => String d w :: ws
           | [] => [String d ""]
           end
  end.

(** [int(s)] for a string without white space: an optional sign, then
    decimal digits, single underscores allowed between digits; more than
    4300 digits are refused. [None] is [ValueError]. *)
Definition isdigit (c : ascii) : bool := ((48 <=? code c) && (code c <=? 57))%N.

Fixpoint digits (s : string) (acc : Z) (count : N) (after_digit : bool)
  : option (Z * N) :=
  match s with
  | "" => if after_digit then Some (acc, count) else None
  | String c s' =>
      if isdigit c then
        digits s' (10 * acc + Z.of_N (code c - 48)) (count + 1)%N true
      else if Ascii.eqb c "_" && after_digit then digits s' acc count false
      else None
  end.

Definition int (s : string) : option Z :=
  let '(sign, body) :=
    match s with
    | String "+" r => (1%Z, r)
    | String "-" r => ((-1)%Z, r)
    | _ => (1%Z, s)
    end in
  match digits body 0 0 false with
  | Some (v, n) => if (4300 <? n)%N then None else Some (sign * v)%Z
  | None => None
  end.

(** [html.escape(s, quote=False)] *)
Fixpoint html_escape (s : string) : string :=
  match s with
  | "" => ""
  | String c s' =>
      (if Ascii.eqb c "&" then "&amp;"
       else if Ascii.eqb c "<" then "&lt;"
       else if Ascii.eqb c ">" then "&gt;"
       else String c "") ++ html_escape s'
  end.

(** [s.encode('UTF-8')] of a string of characters below 256. *)
Fixpoint encode_utf8 (s : string) : string :=
  match s with
  | "" => ""
  | String c s' =>
      let n := code c in
      if (n <? 128)%N then String c (encode_utf8 s')
      else String (ascii_of_N (192 + n / 64))
             (String (ascii_of_N (128 + n mod 64)) (encode_utf8 s'))
  end.

(** [sep.join(l)] *)
Definition join (sep : string) (l : list string) : string :=
  String.concat sep l.

(** [s[:n]] and [s[n:]] *)
Fixpoint split_at (n : N) (s : string) : string * string :=
  match s with
  | "" => ("", "")
  | String c s' =>
      if (n =? 0)%N then ("", s)
      else let '(a, b) := split_at (N.pred n) s' in (String c a, b)
  end.

(** [posixpath.join(a, b)] *)
Definition path_join (a b : string) : string :=
  if startswith "/" b then b
  else if (a =? "") || endswith "/" a then a ++ b
  else a ++ "/" ++ b.

End Str.

(* ================================================================== *)
(** ** The request handler: [http/server.py] *)
(* ================================================================== *)

Module HttpServer.
Import Str.

(** The exceptions that leave a method of the handler or reach the
    server: [KeyboardInterrupt] derives from [BaseException] only, the
    others from [Exception]; [UnicodeEncodeError] is a [ValueError] and
    [TimeoutError] an [OSError], each named where the code tells it apart. *)
Inductive exception :=
| KeyboardInterrupt
| OSError (errno : Z)
| TimeoutError
| ValueError
| UnicodeEncodeError.

(** An open file: its bytes and its modification time. [os.fstat] reports
    the length of the bytes as [st_size]. *)
Record file := File { f_data : string; f_mtime : Z }.

(** What [open(path, 'rb')] does: it returns a file; or the operating
    system refuses (no such file, no permission, a directory) and it raises
    [OSError]; or the path cannot be given to the operating system at all:
    it is invalid, with a null byte, and [open] raises [ValueError], or the
    file system encoding has no bytes for it and [open] raises
    [UnicodeEncodeError]. *)
Inductive opened :=
| Opened (f : file)
| Refused
| Invalid
| Unencodable.

(** What the handler asks of the interpreter, the clock and the operating
    system. The modification time of a file is a date of the calendar, so
    that [date_time_string] returns. *)
Record platform := Platform {
  sys_version : string;                  (* self.sys_version *)
  date_time_string : option Z -> string; (* date_time_string(timestamp=None) *)
  repr : string -> string;               (* '%r' % s *)
  translate_path : string -> string -> string; (* self.directory, path *)
  (* urllib.parse.urlsplit(p).path; None: urlsplit raises ValueError *)
  urlsplit : string -> option string;
  redirect_url : string -> string;       (* urlunsplit, path + '/' *)
  unquote : string -> string;            (* urllib.parse.unquote *)
  quote : string -> string;              (* urllib.parse.quote *)
  guess_type : string -> string;         (* self.guess_type(path) *)
  name_lower : string -> string;         (* a.lower() on a file name *)
  getfilesystemencoding : string;        (* sys.getfilesystemencoding() *)
  isdir : string -> bool;                (* os.path.isdir *)
  isfile : string -> bool;               (* os.path.isfile *)
  islink : string -> bool;               (* os.path.islink *)
  open : string -> opened;               (* open(path, 'rb') *)
  (* text.encode(enc, 'surrogateescape') succeeds: the text has no lone
     surrogate, which only the path of a request can bring in *)
  encodable : string -> bool;
  listdir : string -> option (list string); (* os.listdir; None: OSError *)
  (* the If-Modified-Since value parses to a UTC date that is not before
     the file's modification time *)
  not_modified_since : string -> Z -> bool
}.

(** The file [open(p, 'rb')] returns, if it returns one. *)
Definition open_rb (P : platform) (p : string) : option file :=
  match open P p with
  | Opened f => Some f
  | Refused | Invalid | Unencodable => None
  end.

(** The path component [urlsplit(p)] finds; the empty string, which ends
    with no slash, where [urlsplit] raises. *)
Definition urlsplit_path (P : platform) (p : string) : string :=
  match urlsplit P p with
  | Some parts_path => parts_path
  | None => EmptyString
  end.

(** One request as it arrives on the connection: the request line as
    [rfile.readline(65537)] returns it, and what [http.client.parse_headers]
    makes of the lines that follow. *)
Inductive header_lines :=
| Fields (fields : list (string * string))
| LineTooLong (err : string)
| TooManyHeaders (err : string).

Record message := Message { m_line : string; m_headers : header_lines }.

(** A call of [wfile.write]: a flushed header buffer, kept as the list of
    its lines, or a piece of a body. *)
Inductive write :=
| Headers (lines : list string)
| Body (data : string).

Definition bytes_of (w : write) : string :=
  match w with
  | Headers lines => join "" lines
  | Body data => data
  end.

(** The attributes of a handler object. The empty [_headers_buffer] also
    stands for the attribute not created yet. [raised] is no attribute: it
    is the exception that has left a method of the handler and that nothing
    has caught, on its way out of the handler. *)
Record handler := Handler {
  directory : string;
  rfile : list message;
  raw_requestline : string;
  requestline : string;
  request_version : string;
  command : option string;
  path : string;
  headers : list (string * string);
  raised : option exception;
  close_connection : bool;
  _headers_buffer : list string;
  wfile : list write
}.

Definition set_rfile v h :=
  Handler (directory h) v (raw_requestline h) (requestline h)
    (request_version h) (command h) (path h) (headers h)
    (raised h) (close_connection h) (_headers_buffer h) (wfile h).
Definition set_raw_requestline v h :=
  Handler (directory h) (rfile h) v (requestline h)
    (request_version h) (command h) (path h) (headers h)
    (raised h) (close_connection h) (_headers_buffer h) (wfile h).
Definition set_requestline v h :=
  Handler (directory h) (rfile h) (raw_requestline h) v
    (request_version h) (command h) (path h) (headers h)
    (raised h) (close_connection h) (_headers_buffer h) (wfile h).
Definition set_request_version v h :=
  Handler (directory h) (rfile h) (raw_requestline h) (requestline h)
    v (command h) (path h) (headers h)
    (raised h) (close_connection h) (_headers_buffer h) (wfile h).
Definition set_command v h :=
  Handler (directory h) (rfile h) (raw_requestline h) (requestline h)
    (request_version h) v (path h) (headers h)
    (raised h) (close_connection h) (_headers_buffer h) (wfile h).
Definition set_path v h :=
  Handler (directory h) (rfile h) (raw_requestline h) (requestline h)
    (request_version h) (command h) v (headers h)
    (raised h) (close_connection h) (_headers_buffer h) (wfile h).
Definition set_headers v h :=
  Handler (directory h) (rfile h) (raw_requestline h) (requestline h)
    (request_version h) (command h) (path h) v
    (raised h) (close_connection h) (_headers_buffer h) (wfile h).
Definition set_close_connection v h :=
  Handler (directory h) (rfile h) (raw_requestline h) (requestline h)
    (request_version h) (command h) (path h) (headers h)
    (raised h) v (_headers_buffer h) (wfile h).
Definition set_headers_buffer v h :=
  Handler (directory h) (rfile h) (raw_requestline h) (requestline h)
    (request_version h) (command h) (path h) (headers h)
    (raised h) (close_connection h) v (wfile h).
Definition set_wfile v h :=
  Handler (directory h) (rfile h) (raw_requestline h) (requestline h)
    (request_version h) (command h) (path h) (headers h)
    (raised h) (close_connection h) (_headers_buffer h) v.

(** [raise e]: the exception leaves the method that raises it; the
    methods of the handler catch none of those raised here. *)
Definition raise (e : exception) (h : handler) : handler :=
  Handler (directory h) (rfile h) (raw_requestline h) (requestline h)
    (request_version h) (command h) (path h) (headers h)
    (Some e) (close_connection h) (_headers_buffer h) (wfile h).

(** [self.wfile.write(b)] *)
Definition wfile_write (w : write) (h : handler) : handler :=
  set_wfile (wfile h ++ [w])%list h.

(** [self._headers_buffer.append(line)] *)
Definition buffer_append (line : string) (h : handler) : handler :=
  set_headers_buffer (_headers_buffer h ++ [line])%list h.

(** Class attributes of [BaseHTTPRequestHandler] and
    [SimpleHTTPRequestHandler]; [server.py] overrides none of them. *)
Definition __version__ : string := "0.6".
Definition server_version : string := "SimpleHTTP/" ++ __version__.
Definition protocol_version : string := "HTTP/1.0".
Definition default_request_version : string := "HTTP/0.9".
Definition error_content_type : string := "text/html;charset=utf-8".

(** The entries of [responses] (phrase and description of an [HTTPStatus])
    for the codes the handler sends. *)
Definition responses (code : Z) : option (string * string) :=
  match code with
  | 100 => Some ("Continue", "Request received, please continue")
  | 200 => Some ("OK", "Request fulfilled, document follows")
  | 301 => Some ("Moved Permanently",
                 "Object moved permanently -- see URI list")
  | 304 => Some ("Not Modified", "Document has not changed since given time")
  | 400 => Some ("Bad Request", "Bad request syntax or unsupported method")
  | 404 => Some ("Not Found", "Nothing matches the given URI")
  | 414 => Some ("Request-URI Too Long", "URI is too long")
  | 431 => Some ("Request Header Fields Too Large",
                 "The server is unwilling to process the request because "
                 ++ "its header fields are too large")
  | 501 => Some ("Not Implemented", "Server does not support this operation")
  | 505 => Some ("HTTP Version Not Supported", "Cannot fulfill request")
  | _ => None
  end%Z.

(** [error_message_format % {'code': .., 'message': .., 'explain': ..}] *)
Definition error_message_format (code : Z) (message explain : string)
  : string :=
  join (String LF "")
    [ "<!DOCTYPE HTML>";
      "<html lang=" ++ dquote ++ "en" ++ dquote ++ ">";
      "    <head>";
      "        <meta charset=" ++ dquote ++ "utf-8" ++ dquote ++ ">";
      "        <title>Error response</title>";
      "    </head>";
      "    <body>";
      "        <h1>Error response</h1>";
      "        <p>Error code: " ++ str code ++ "</p>";
      "        <p>Message: " ++ message ++ ".</p>";
      "        <p>Error code explanation: " ++ str code ++ " - " ++ explain
        ++ ".</p>";
      "    </body>";
      "</html>";
      "" ].

(** The encoded lines of a header block:
    ["%s %d %s\r\n" % (self.protocol_version, code, message)] and
    ["%s: %s\r\n" % (keyword, value)]. *)
Definition status_line (code : Z) (message : string) : string :=
  protocol_version ++ " " ++ str code ++ " " ++ message ++ CRLF.

Definition header_line (keyword value : string) : string :=
  keyword ++ ": " ++ value ++ CRLF.

(** [self.headers.get(name, "")]: the first field of that name, names
    compared in lower case. *)
Definition headers_get (name : string) (hs : list (string * string))
  : string :=
  match find (fun kv => lower (fst kv) =? lower name) hs with
  | Some kv => snd kv
  | None => ""
  end.

(** [name in self.headers] *)
Definition headers_contains (name : string) (hs : list (string * string))
  : bool :=
  existsb (fun kv => lower (fst kv) =? lower name) hs.

Section Methods.

(** The platform, and the method [self.end_headers] resolves to: the one
    method of the handler that [server.py] overrides. The inherited methods
    call it through [self]. *)
Variable P : platform.
Variable end_headers : handler -> handler.

(** *** [BaseHTTPRequestHandler] *)

Definition version_string : string := server_version ++ " " ++ sys_version P.

(** [send_response_only(code, message=None)] *)
Definition send_response_only (code : Z) (message : option string)
  (h : handler) : handler :=
  if negb (request_version h =? "HTTP/0.9") then
    let message :=
      match message with
      | Some m => m
      | None => match responses code with Some r => fst r | None => "" end
      end in
    buffer_append (status_line code message) h
  else h.

(** [send_header(keyword, value)] *)
Definition send_header (keyword value : string) (h : handler) : handler :=
  let h :=
    if negb (request_version h =? "HTTP/0.9") then
      buffer_append (header_line keyword value) h
    else h in
  if lower keyword =? "connection" then
    if lower value =? "close" then set_close_connection true h
    else if lower value =? "keep-alive" then set_close_connection false h
    else h
  else h.

(** [flush_headers()] *)
Definition flush_headers (h : handler) : handler :=
  match _headers_buffer h with
  | [] => h
  | lines => h |> wfile_write (Headers lines) |> set_headers_buffer []
  end.

(** [BaseHTTPRequestHandler.end_headers()] *)
Definition BaseHTTPRequestHandler_end_headers (h : handler) : handler :=
  if negb (request_version h =? "HTTP/0.9") then
    h |> buffer_append CRLF |> flush_headers
  else h.

(** [send_response(code, message=None)]; [log_request] writes a line to
    [sys.stderr] and leaves the handler as it is. *)
Definition send_response (code : Z) (message : option string)
  (h : handler) : handler :=
  h |> send_response_only code message
    |> send_header "Server" version_string
    |> send_header "Date" (date_time_string P None).

(** [send_error(code, message=None, explain=None)]; [log_error] writes to
    [sys.stderr] only. *)
Definition send_error (code : Z) (message explain : option string)
  (h : handler) : handler :=
  let '(shortmsg, longmsg) :=
    match responses code with Some r => r | None => ("???", "???") end in
  let message := match message with Some m => m | None => shortmsg end in
  let explain := match explain with Some e => e | None => longmsg end in
  let h := h |> send_response code (Some message)
             |> send_header "Connection" "close" in
  let body :=
    if ((200 <=? code)
        && negb ((code =? 204) || (code =? 205) || (code =? 304)))%Z
    then Some (encode_utf8
                 (error_message_format code (html_escape message)
                    (html_escape explain)))
    else None in
  let h :=
    match body with
    | Some b => h |> send_header "Content-Type" error_content_type
                  |> send_header "Content-Length" (str (len b))
    | None => h
    end in
  let h := end_headers h in
  match body with
  | Some b =>
      if negb (match command h with Some c => c =? "HEAD" | None => false end)
         && negb (b =? "")
      then wfile_write (Body b) h
      else h
  | None => h
  end.

(** [handle_expect_100()] *)
Definition handle_expect_100 (h : handler) : bool * handler :=
  (true, h |> send_response_only 100 None |> end_headers).

(** The version block of [parse_request]: [Some (base_version_number,
    (major, minor))], or [None] where the source raises [ValueError]. *)
Definition version_number (version : string) : option (string * (Z * Z)) :=
  if negb (startswith "HTTP/" version) then None
  else
    match split_once "/" version with
    | _ :: base_version_number :: _ =>
        match split_on "." base_version_number with
        | [major; minor] =>
            match int major, int minor with
            | Some a, Some b => Some (base_version_number, (a, b))
            | _, _ => None
            end
        | _ => None
        end
    | _ => None
    end.

(** [(a, b) >= (c, d)] on pairs of integers. *)
Definition pair_ge (x y : Z * Z) : bool :=
  ((fst y <? fst x) || (fst x =? fst y) && (snd y <=? snd x))%Z.

(** [x >= y] on strings. *)
Definition str_ge (x y : string) : bool := String.leb y x.

(** [parse_request()], from the statement that reads the headers on. *)
Definition parse_request_headers (hl : header_lines) (h : handler)
  : bool * handler :=
  match hl with
  | LineTooLong err =>
      (false, send_error 431 (Some "Line too long") (Some err) h)
  | TooManyHeaders err =>
      (false, send_error 431 (Some "Too many headers") (Some err) h)
  | Fields fields =>
      let h := set_headers fields h in
      let conntype := headers_get "Connection" (headers h) in
      let h :=
        if lower conntype =? "close" then set_close_connection true h
        else if (lower conntype =? "keep-alive")
                && str_ge protocol_version "HTTP/1.1"
        then set_close_connection false h
        else h in
      let expect := headers_get "Expect" (headers h) in
      if (lower expect =? "100-continue")
         && str_ge protocol_version "HTTP/1.1"
         && str_ge (request_version h) "HTTP/1.1"
      then
        let '(ok, h) := handle_expect_100 h in
        if negb ok then (false, h) else (true, h)
      else (true, h)
  end.

(** [parse_request()], from the check of the number of words on. *)
Definition parse_request_words (words : list string) (hl : header_lines)
  (h : handler) : bool * handler :=
  match words with
  | command_ :: path_ :: rest =>
      if negb (Nat.leb (List.length words) 3) then
        (false,
         send_error 400
           (Some ("Bad request syntax (" ++ repr P (requestline h) ++ ")"))
           None h)
      else
        let h :=
          match rest with [] => set_close_connection true h | _ => h end in
        if match rest with [] => negb (command_ =? "GET") | _ => false end then
          (false,
           send_error 400
             (Some ("Bad HTTP/0.9 request type (" ++ repr P command_ ++ ")"))
             None h)
        else
          let h := h |> set_command (Some command_) |> set_path path_ in
          let h :=
            if startswith "//" (path h)
            then set_path ("/" ++ lstrip "/" (path h)) h
            else h in
          parse_request_headers hl h
  | _ =>
      (false, send_error 400
                (Some ("Bad request syntax (" ++ repr P (requestline h) ++ ")"))
                None h)
  end.

(** [parse_request()]: the request is in [raw_requestline], the lines that
    follow it on [rfile] are [hl]. *)
Definition parse_request (hl : header_lines) (h : handler) : bool * handler :=
  let h := h |> set_command None
             |> set_request_version default_request_version
             |> set_close_connection true in
  let requestline := rstrip_crlf (raw_requestline h) in
  let h := set_requestline requestline h in
  let words := split requestline in
  if Nat.eqb (List.length words) 0 then (false, h)
  else if Nat.leb 3 (List.length words) then
    let version := List.last words EmptyString in
    match version_number version with
    | None =>
        (false, send_error 400
                  (Some ("Bad request version (" ++ repr P version ++ ")"))
                  None h)
    | Some (base_version_number, vn) =>
        let h :=
          if pair_ge vn (1, 1)%Z && str_ge protocol_version "HTTP/1.1"
          then set_close_connection false h else h in
        if pair_ge vn (2, 0)%Z then
          (false,
           send_error 505
             (Some ("Invalid HTTP version (" ++ base_version_number ++ ")"))
             None h)
        else parse_request_words words hl (set_request_version version h)
    end
  else parse_request_words words hl h.

(** *** [SimpleHTTPRequestHandler] *)

(** [list.sort(key=lambda a: a.lower())]: a stable sort. *)
Fixpoint insert_sorted (x : string) (l : list string) : list string :=
  match l with
  | [] => [x]
  | y :: l' =>
      if String.leb (name_lower P x) (name_lower P y) then x :: y :: l'
      else y :: insert_sorted x l'
  end.

Fixpoint sort (l : list string) : list string :=
  match l with
  | [] => []
  | x :: l' => insert_sorted x (sort l')
  end.

(** The line of the listing for one name of the directory [path_]
    (a local called [path] in the source, as in the methods below). *)
Definition list_item (path_ name : string) : string :=
  let fullname := path_join path_ name in
  let '(displayname, linkname) :=
    if isdir P fullname then (name ++ "/", name ++ "/") else (name, name) in
  let displayname := if islink P fullname then name ++ "@" else displayname in
  "<li><a href=" ++ dquote ++ quote P linkname ++ dquote ++ ">"
    ++ html_escape displayname ++ "</a></li>".

(** The text [list_directory] generates for the sorted names [list_]. *)
Definition listing (url path_ : string) (list_ : list string) : string :=
  let displaypath := html_escape (unquote P url) in
  let enc := getfilesystemencoding P in
  let title := "Directory listing for " ++ displaypath in
  let nl := String LF EmptyString in
  let r :=
    [ "<!DOCTYPE HTML>";
      "<html lang=" ++ dquote ++ "en" ++ dquote ++ ">";
      "<head>";
      "<meta charset=" ++ dquote ++ enc ++ dquote ++ ">";
      "<title>" ++ title ++ "</title>" ++ nl ++ "</head>";
      "<body>" ++ nl ++ "<h1>" ++ title ++ "</h1>";
      "<hr>" ++ nl ++ "<ul>" ] in
  let r := List.app r (map (list_item path_) list_) in
  let r :=
    List.app r
      [ "</ul>" ++ nl ++ "<hr>" ++ nl ++ "</body>" ++ nl ++ "</html>" ++ nl ] in
  join nl r.

(** [list_directory(path)]: the file object returned is the in-memory
    listing. The text is encoded before anything is sent; where
    [encode] raises, the method is left with nothing sent. *)
Definition list_directory (path_ : string) (h : handler)
  : option string * handler :=
  match listdir P path_ with
  | None =>
      (None, send_error 404 (Some "No permission to list directory") None h)
  | Some list_ =>
      let encoded := listing (path h) path_ (sort list_) in
      if negb (encodable P encoded) then (None, raise UnicodeEncodeError h)
      else
        (Some encoded,
         h |> send_response 200 None
           |> send_header "Content-type"
                ("text/html; charset=" ++ getfilesystemencoding P)
           |> send_header "Content-Length" (str (len encoded))
           |> end_headers)
  end.

(** [send_head()], from [ctype = self.guess_type(path)] on. [open] is
    called in a [try] that catches [OSError] only. *)
Definition send_head_file (path_ : string) (h : handler)
  : option string * handler :=
  let ctype := guess_type P path_ in
  if endswith "/" path_ then
    (None, send_error 404 (Some "File not found") None h)
  else
    match open P path_ with
    | Refused => (None, send_error 404 (Some "File not found") None h)
    | Invalid => (None, raise ValueError h)
    | Unencodable => (None, raise UnicodeEncodeError h)
    | Opened f =>
        if headers_contains "If-Modified-Since" (headers h)
           && negb (headers_contains "If-None-Match" (headers h))
           && not_modified_since P
                (headers_get "If-Modified-Since" (headers h)) (f_mtime f)
        then (None, h |> send_response 304 None |> end_headers)
        else
          (Some (f_data f),
           h |> send_response 200 None
             |> send_header "Content-type" ctype
             |> send_header "Content-Length" (str (len (f_data f)))
             |> send_header "Last-Modified"
                  (date_time_string P (Some (f_mtime f)))
             |> end_headers)
    end.

(** [send_head()]: the bytes of the file object it returns, if any. A
    method that raises returns nothing: [None] stands for that too, with
    the exception in [raised]. *)
Definition send_head (h : handler) : option string * handler :=
  let path_ := translate_path P (directory h) (path h) in
  if isdir P path_ then
    match urlsplit P (path h) with
    | None => (None, raise ValueError h)
    | Some parts_path =>
        if negb (endswith "/" parts_path) then
          (None,
           h |> send_response 301 None
             |> send_header "Location" (redirect_url P (path h))
             |> send_header "Content-Length" "0"
             |> end_headers)
        else if isfile P (path_join path_ "index.html")
        then send_head_file (path_join path_ "index.html") h
        else if isfile P (path_join path_ "index.htm")
        then send_head_file (path_join path_ "index.htm") h
        else list_directory path_ h
    end
  else send_head_file path_ h.

(** [shutil.copyfileobj(source, outputfile)]: reads of [COPY_BUFSIZE]
    bytes, each written as it is read, until a read returns nothing. *)
Definition COPY_BUFSIZE : N := 64 * 1024.

Fixpoint copyfileobj (n : nat) (source : string) (h : handler) : handler :=
  match n with
  | O => h
  | S n' =>
      let '(buf, rest) := split_at COPY_BUFSIZE source in
      if buf =? EmptyString then h
      else copyfileobj n' rest (wfile_write (Body buf) h)
  end.

Definition copyfile (source : string) (h : handler) : handler :=
  copyfileobj (S (String.length source)) source h.

(** [do_GET()] and [do_HEAD()] *)
Definition do_GET (h : handler) : handler :=
  match send_head h with
  | (Some f, h) => copyfile f h
  | (None, h) => h
  end.

Definition do_HEAD (h : handler) : handler :=
  match send_head h with
  | (_, h) => h
  end.

(** *** The request loop of [BaseHTTPRequestHandler] *)

(** The end of [handle_one_request()]: [mname = 'do_' + self.command], and
    the method of that name or, if the handler has none, the 501 reply. The
    handler has the [do_] methods of [SimpleHTTPRequestHandler], [do_GET] and
    [do_HEAD]; [server.py] adds none. *)
Definition method (command_ : string) (h : handler) : handler :=
  if command_ =? "GET" then do_GET h
  else if command_ =? "HEAD" then do_HEAD h
  else send_error 501
         (Some ("Unsupported method (" ++ repr P command_ ++ ")")) None h.

(** [handle_one_request()] *)
Definition handle_one_request (h : handler) : handler :=
  match rfile h with
  | [] =>
      (* readline returned no byte *)
      h |> set_raw_requestline EmptyString |> set_close_connection true
  | m :: rest =>
      let h := h |> set_rfile rest |> set_raw_requestline (m_line m) in
      if (65536 <? len (raw_requestline h))%Z then
        h |> set_requestline EmptyString
          |> set_request_version EmptyString
          |> set_command (Some EmptyString)
          |> send_error 414 None None
      else if raw_requestline h =? EmptyString then
        set_close_connection true h
      else
        match parse_request (m_headers m) h with
        | (false, h) => h
        | (true, h) =>
            match command h with
            | Some c => method c h
            | None => h
            end
        end
  end.

(** [handle()]: the loop runs while [close_connection] is false, and an
    exception that leaves [handle_one_request] leaves the loop; every
    turn takes a message off [rfile] or finds it empty and closes, so
    [n] turns suffice for an [rfile] of [n] messages. *)
Fixpoint handle_loop (n : nat) (h : handler) : handler :=
  match n with
  | O => h
  | S n' =>
      match raised h with
      | Some _ => h
      | None =>
          if negb (close_connection h)
          then handle_loop n' (handle_one_request h)
          else h
      end
  end.

Definition handle (h : handler) : handler :=
  let h := h |> set_close_connection true |> handle_one_request in
  handle_loop (S (List.length (rfile h))) h.

End Methods.

(** [SimpleHTTPRequestHandler(request, client_address, server)] as
    [StreamRequestHandler.setup] leaves it: [directory] is [os.getcwd()],
    [rfile] the bytes the client sent, nothing written. *)
Definition setup (cwd : string) (request : list message) : handler :=
  Handler cwd request EmptyString EmptyString EmptyString None EmptyString
    [] None true [] [].

End HttpServer.

(* ================================================================== *)
(** ** The server loop: [socketserver.py] *)
(* ================================================================== *)

Module SocketServer.
Import HttpServer.

(** [isinstance(e, Exception)] *)
Definition is_Exception (e : exception) : bool :=
  match e with
  | KeyboardInterrupt => false
  | OSError _ | TimeoutError | ValueError | UnicodeEncodeError => true
  end.

Definition EADDRINUSE : Z := 98.
Definition ENOENT : Z := 2.

(** What the process does that can be seen from outside it, in order. *)
Inductive event :=
| Chdir (d : string)                      (* os.chdir(d) *)
| Socket                                  (* socket.socket(AF_INET, ..) *)
| Bind (host : string) (port : Z)         (* socket.bind succeeded *)
| BindError (host : string) (port : Z) (errno : Z) (* bind raised OSError *)
| Listen (backlog : Z)                    (* socket.listen(backlog) *)
| Close                                   (* the listening socket is closed *)
| Print (s : string)                      (* print(s) on stdout *)
| Traceback (e : exception)               (* a traceback of e on stderr *)
| Accept                                  (* accept() returned a connection *)
| Send (w : write)                        (* wfile.write(w) on it *)
| Shutdown                                (* shutdown_request(request) *)
| Exit (status : Z).                      (* the process ends *)

(** What reaches the listening socket while [serve_forever] runs. A
    connection carries the request messages the client sends and, if
    something cuts the handling short, which exception strikes the handler
    and when: once it has made [k] calls of [wfile.write], or once it has
    made them all if they are fewer, so that [(0, e)] also is [e] striking
    a handler that reads, or waits for a client that sends nothing. The
    exception comes from the socket or the disk ([OSError],
    [TimeoutError]) or from a signal ([KeyboardInterrupt]). [Interrupt] is
    the signal arriving while the loop waits in [select]. *)
Inductive incoming :=
| Connection (request : list message) (raises : option (nat * exception))
| AcceptError
| Interrupt.

Definition request_queue_size : Z := 5.

Section Server.

Variable P : platform.

(** [RequestHandlerClass]: the [end_headers] the class resolves. *)
Variable RequestHandlerClass : handler -> handler.

(** The directory [os.getcwd()] returns while the server runs. *)
Variable cwd : string.

(** [finish_request(request, client_address)]: instantiates the handler,
    whose constructor runs [setup], [handle] and [finish]. An exception
    unwinds the handler: the writes made before it stay made, none follows.
    An exception from outside strikes as soon as the handler has made its
    [k] writes, or its last one, before the handler does anything more.
    [handle_one_request] catches [TimeoutError] itself and returns. With
    nothing striking from outside, the exception that leaves is the one
    the handler raised, if it raised one. *)
Definition finish_request (request : list message)
  (raises : option (nat * exception)) : list event * option exception :=
  let h := handle P RequestHandlerClass (setup cwd request) in
  match raises with
  | Some (k, e) =>
      (map Send (firstn k (wfile h)),
       match e with TimeoutError => None | _ => Some e end)
  | None => (map Send (wfile h), raised h)
  end.

(** [process_request(request, client_address)] *)
Definition process_request (request : list message)
  (raises : option (nat * exception)) : list event * option exception :=
  match finish_request request raises with
  | (evs, None) => (List.app evs [Shutdown], None)
  | (evs, Some e) => (evs, Some e)
  end.

(** [_handle_request_noblock()] once [get_request] has returned a
    connection; [verify_request] returns [True]. *)
Definition _handle_request_noblock (request : list message)
  (raises : option (nat * exception)) : list event * option exception :=
  match process_request request raises with
  | (evs, None) => (Accept :: evs, None)
  | (evs, Some e) =>
      if is_Exception e then
        (* except Exception: handle_error; shutdown_request *)
        (Accept :: List.app evs [Traceback e; Shutdown], None)
      else
        (* except: shutdown_request; raise *)
        (Accept :: List.app evs [Shutdown], Some e)
  end.

(** [serve_forever()]: the loop leaves only by an exception; [None] is the
    loop waiting in [select] once everything that came in is served. *)
Fixpoint serve_forever (input : list incoming)
  : list event * option exception :=
  match input with
  | [] => ([], None)
  | Interrupt :: _ => ([], Some KeyboardInterrupt)
  | AcceptError :: rest => serve_forever rest
  | Connection request raises :: rest =>
      match _handle_request_noblock request raises with
      | (evs, Some e) => (evs, Some e)
      | (evs, None) =>
          let '(evs', r) := serve_forever rest in (List.app evs evs', r)
      end
  end.

End Server.

(** [socket.bind(address)] without [SO_REUSEADDR]: refused when a socket
    is bound to the port on the same host or on the wildcard host. *)
Definition in_use (host : string) (port : Z) (bound : list (string * Z))
  : bool :=
  existsb (fun a => (snd a =? port)%Z
                    && ((fst a =? host) || (fst a =? EmptyString)
                        || (host =? EmptyString))) bound.

(** [TCPServer(server_address, RequestHandlerClass)]: the constructor
    creates the socket, binds and listens; if that raises it closes the
    socket and raises again. *)
Definition TCPServer (host : string) (port : Z) (bound : list (string * Z))
  : list event * option exception :=
  if in_use host port bound then
    ([Socket; BindError host port EADDRINUSE; Close], Some (OSError EADDRINUSE))
  else ([Socket; Bind host port; Listen request_queue_size], None).

End SocketServer.

(* ================================================================== *)
(** ** The script: [server.py] *)
(* ================================================================== *)

Module Server.
Import Str HttpServer SocketServer.

Definition PORT : Z := 8000.

(** [MyHTTPRequestHandler.end_headers] *)
Definition end_headers (h : handler) : handler :=
  h |> send_header "Access-Control-Allow-Origin" "*"
    |> send_header "Access-Control-Allow-Methods" "GET, POST, OPTIONS"
    |> send_header "Access-Control-Allow-Headers" "Content-Type"
    |> BaseHTTPRequestHandler_end_headers.

(** [os.path.dirname(p)] *)
Fixpoint through_last_slash (p : string) : string :=
  match p with
  | EmptyString => EmptyString
  | String c p' =>
      match through_last_slash p' with
      | EmptyString => if Ascii.eqb c "/" then "/" else EmptyString
      | r => String c r
      end
  end.

Fixpoint rstrip_slash (s : string) : string :=
  match s with
  | EmptyString => EmptyString
  | String c s' =>
      match rstrip_slash s' with
      | EmptyString =>
          if Ascii.eqb c "/" then EmptyString else String c EmptyString
      | r => String c r
      end
  end.

Definition dirname (p : string) : string :=
  let head := through_last_slash p in
  if negb (head =? EmptyString) && negb (rstrip_slash head =? EmptyString)
  then rstrip_slash head else head.

(** Where the script runs: [os.path.abspath(__file__)] and the addresses
    other sockets of the machine are bound to. Its standard output is
    open and takes the text of the two notices: [print] returns. *)
Record world := World {
  program_file : string;
  bound : list (string * Z)
}.

Definition banner : string :=
  "Plači server running at http://localhost:" ++ str PORT ++ "/".

(** The statements of the script, top to bottom. An exception no statement
    catches ends the process: the interpreter prints its traceback on
    [sys.stderr] and exits with status 1; the end of the script exits with
    status 0. The list has no [Exit] when [serve_forever] is still
    running. *)
Definition main (P : platform) (w : world) (input : list incoming)
  : list event :=
  let d := dirname (program_file w) in
  if negb (isdir P d) then
    (* os.chdir raises *)
    [Traceback (OSError ENOENT); Exit 1]
  else
    Chdir d ::
    match TCPServer EmptyString PORT (bound w) with
    | (evs, Some e) => List.app evs [Traceback e; Exit 1]
    | (evs, None) =>
        List.app evs
          (Print banner :: Print "Press Ctrl+C to stop" ::
           match serve_forever P end_headers d input with
           | (evs', None) => evs'
           | (evs', Some KeyboardInterrupt) =>
               List.app evs'
                 [Print (String LF "Server stopped"); Close; Exit 0]
           | (evs', Some e) => List.app evs' [Close; Traceback e; Exit 1]
           end)
    end.

End Server.

(* ================================================================== *)
(** ** Vocabulary of the statements *)
(* ================================================================== *)

Module Spec.
Import Str HttpServer SocketServer.

(** The three header lines [server.py] adds, as they stand in a header
    block, in the order it sends them. *)
Definition cors_lines : list string :=
  [ header_line "Access-Control-Allow-Origin" "*";
    header_line "Access-Control-Allow-Methods" "GET, POST, OPTIONS";
    header_line "Access-Control-Allow-Headers" "Content-Type" ].

(** A line of a header block that is an [Access-Control-] header. *)
Definition is_cors (line : string) : bool := startswith "Access-Control-" line.

(** A header block carries the three lines exactly: they close the block,
    just before its blank line, and no line before them is an
    [Access-Control-] header. A body is no header block. *)
Definition cors_block (w : write) : Prop :=
  match w with
  | Headers lines =>
      exists pre,
        lines = List.app pre (List.app cors_lines [CRLF])
        /\ Forall (fun l => is_cors l = false) pre
  | Body _ => True
  end.

(** A response that includes the three lines: one of its header blocks
    has them. *)
Definition carries_cors (response : list write) : Prop :=
  exists lines, In (Headers lines) response /\ incl cors_lines lines.

Definition is_headers (w : write) : bool :=
  match w with Headers _ => true | Body _ => false end.

(** The default handler's response with the three lines added: each header
    block gets them before its last line, the blank one; bodies stay. *)
Definition add_cors (w : write) : write :=
  match w with
  | Headers lines =>
      Headers (List.app (removelast lines)
                 (List.app cors_lines [last lines EmptyString]))
  | Body data => Body data
  end.

Definition with_cors_added (response : list write) : list write :=
  map add_cors response.

(** A handler whose writes so far are those of [h] with the lines added. *)
Definition decorate (h : handler) : handler :=
  set_wfile (with_cors_added (wfile h)) h.

(** The response to the messages [request] of one connection, by the
    handler class whose [end_headers] is [eh], serving directory [cwd]. *)
Definition response (P : platform) (eh : handler -> handler) (cwd : string)
  (request : list message) : list write :=
  wfile (handle P eh (setup cwd request)).

(** The handler of the connection when [handle] has returned or has been
    left by an exception, and that exception, if any. *)
Definition handled (P : platform) (eh : handler -> handler) (cwd : string)
  (request : list message) : handler :=
  handle P eh (setup cwd request).

Definition uncaught (P : platform) (eh : handler -> handler) (cwd : string)
  (request : list message) : option exception :=
  raised (handled P eh cwd request).

(** A request line [line] the handler accepts as the command [c] for the
    path [p] in version [v] of the protocol, [v] other than HTTP/0.9. *)
Definition accepted (line c p v : string) : Prop :=
  split (rstrip_crlf line) = [c; p; v]
  /\ (exists b vn, version_number v = Some (b, vn)
                   /\ pair_ge vn (2, 0)%Z = false)
  /\ (v =? "HTTP/0.9") = false
  /\ (len line <=? 65536)%Z = true.

(** [self.path] for the path [p] of the request line. *)
Definition request_path (p : string) : string :=
  if startswith "//" p then "/" ++ lstrip "/" p else p.

(** The handler when [parse_request] has accepted such a line, sent with
    the header fields [fields] as the only message of a connection. *)
Definition parsed (cwd line c p v : string) (fields : list (string * string))
  : handler :=
  Handler cwd [] line (rstrip_crlf line) v (Some c) (request_path p) fields
    None true [] [].

(** [send_error] sends a page for the code, and to this command. *)
Definition has_body (code : Z) : bool :=
  ((200 <=? code) && negb ((code =? 204) || (code =? 205) || (code =? 304)))%Z.

Definition not_head (h : handler) : bool :=
  negb (match command h with Some c => c =? "HEAD" | None => false end).

(** A request line [parse_request] rejects before it has accepted a
    version: one word, or three words and more of which the last is no
    version. The message of the 400 reply, or [None] for other lines. *)
Definition bad_request_line (P : platform) (line : string) : option string :=
  let requestline := rstrip_crlf line in
  let words := split requestline in
  if (65536 <? len line)%Z then None
  else
    match words with
    | [] => None
    | [_] => Some ("Bad request syntax (" ++ repr P requestline ++ ")")
    | [_; _] => None
    | _ =>
        match version_number (last words EmptyString) with
        | None =>
            Some ("Bad request version ("
                    ++ repr P (last words EmptyString) ++ ")")
        | Some _ => None
        end
    end.

(** The reply [send_error(code, message)] sends to a request in a version
    other than HTTP/0.9 and a command other than HEAD. *)
Definition error_page (code : Z) (message : string) : string :=
  encode_utf8
    (error_message_format code (html_escape message)
       (html_escape (match responses code with
                     | Some r => snd r
                     | None => "???"
                     end))).

Definition error_headers (P : platform) (code : Z) (message : string)
  : list string :=
  [ status_line code message;
    header_line "Server" (version_string P);
    header_line "Date" (date_time_string P None);
    header_line "Connection" "close";
    header_line "Content-Type" error_content_type;
    header_line "Content-Length" (str (len (error_page code message))) ].

Definition error_reply (P : platform) (code : Z) (message : string)
  : list write :=
  [ Headers (List.app (error_headers P code message)
               (List.app cors_lines [CRLF]));
    Body (error_page code message) ].

(** The header lines of the listing of a directory, before the three
    lines [server.py] adds. *)
Definition listing_headers (P : platform) (encoded : string) : list string :=
  [ status_line 200 "OK";
    header_line "Server" (version_string P);
    header_line "Date" (date_time_string P None);
    header_line "Content-type"
      ("text/html; charset=" ++ getfilesystemencoding P);
    header_line "Content-Length" (str (len encoded)) ].

(** The header lines of the redirection to the path with a slash. *)
Definition redirect_headers (P : platform) (p : string) : list string :=
  [ status_line 301 "Moved Permanently";
    header_line "Server" (version_string P);
    header_line "Date" (date_time_string P None);
    header_line "Location" (redirect_url P p);
    header_line "Content-Length" "0" ].

(** Something that comes in and raises no [KeyboardInterrupt]. *)
Definition no_interrupt (i : incoming) : Prop :=
  match i with
  | Interrupt => False
  | Connection _ (Some (_, KeyboardInterrupt)) => False
  | _ => True
  end.

(** Something that comes in and raises [KeyboardInterrupt]: the signal
    while the loop waits, or while a handler runs, whatever the handler is
    doing then. *)
Definition interrupts (i : incoming) : Prop :=
  match i with
  | Interrupt => True
  | Connection _ (Some (_, KeyboardInterrupt)) => True
  | _ => False
  end.

(** The events of serving one thing that comes in, on its own. *)
Definition served (P : platform) (eh : handler -> handler) (cwd : string)
  (i : incoming) : list event :=
  match i with
  | Connection request raises =>
      fst (_handle_request_noblock P eh cwd request raises)
  | _ => []
  end.

(** The events of a start that succeeds, in the directory [d]. *)
Definition startup (d : string) : list event :=
  [ Chdir d; Socket; Bind EmptyString Server.PORT; Listen request_queue_size;
    Print Server.banner; Print "Press Ctrl+C to stop" ].

(** The events of a clean stop. *)
Definition stopped : list event :=
  [ Print (String LF "Server stopped"); Close; Exit 0 ].

(** The header lines of a file that is served, before the three lines
    [server.py] adds; [path_] is the file's path on the file system. *)
Definition file_headers (P : platform) (path_ : string) (f : file)
  : list string :=
  [ status_line 200 "OK";
    header_line "Server" (version_string P);
    header_line "Date" (date_time_string P None);
    header_line "Content-type" (guess_type P path_);
    header_line "Content-Length" (str (len (f_data f)));
    header_line "Last-Modified" (date_time_string P (Some (f_mtime f))) ].

(** The header lines of the reply to a conditional request for a file that
    has not changed. *)
Definition not_modified_headers (P : platform) : list string :=
  [ status_line 304 "Not Modified";
    header_line "Server" (version_string P);
    header_line "Date" (date_time_string P None) ].

(** The test [send_head] makes on the header fields of the request and the
    file [f] it has opened: a date in [If-Modified-Since] that is not before
    the modification time of the file, and no [If-None-Match]. *)
Definition not_modified (P : platform) (fields : list (string * string))
  (f : file) : bool :=
  headers_contains "If-Modified-Since" fields
  && negb (headers_contains "If-None-Match" fields)
  && not_modified_since P (headers_get "If-Modified-Since" fields) (f_mtime f).

(** A response of one header block and then the pieces of a body, if any,
    whose length is the [Content-Length] of the block; the 304 reply has
    neither. *)
Definition framed (response : list write) : Prop :=
  exists lines blocks,
    response = Headers lines :: map Body blocks
    /\ (In (header_line "Content-Length"
              (str (len (String.concat EmptyString blocks)))) lines
        \/ (blocks = []
            /\ hd EmptyString lines = status_line 304 "Not Modified")).

(** A response without a header block: no status line, no header. *)
Definition bare (response : list write) : Prop :=
  Forall (fun w => is_headers w = false) response.

(** A response that opens with a header block. *)
Definition opens_with_headers (response : list write) : Prop :=
  exists lines rest, response = Headers lines :: rest.

(** What the handler has written fits the version [v] of its request: in
    HTTP/0.9 no header block; in another version nothing yet, or a header
    block first. *)
Definition well_opened (v : string) (h : handler) : Prop :=
  request_version h = v
  /\ if v =? "HTTP/0.9" then bare (wfile h)
     else wfile h = [] \/ opens_with_headers (wfile h).

(** The same once the handler has sent the head of its reply: if the
    version is not HTTP/0.9, the header block is there. *)
Definition head_sent (v : string) (h : handler) : Prop :=
  request_version h = v
  /\ if v =? "HTTP/0.9" then bare (wfile h)
     else opens_with_headers (wfile h).

(** The line of a listing for the child [name] of the directory [d]: a
    link to the child under its name; a directory is linked and shown with
    a slash after its name, a symbolic link is shown with an at sign. *)
Definition entry (P : platform) (d name : string) : string :=
  let child := path_join d name in
  let linked := if isdir P child then name ++ "/" else name in
  let shown := if islink P child then name ++ "@" else linked in
  "<li><a href=" ++ dquote ++ quote P linked ++ dquote ++ ">"
    ++ html_escape shown ++ "</a></li>".

(** The page of a listing for the request path [url]: a title that names
    the path, then the entries, each on a line of its own, in a list. *)
Definition listing_page (P : platform) (url : string)
  (entries : list string) : string :=
  let nl := String LF EmptyString in
  let title := "Directory listing for " ++ html_escape (unquote P url) in
  "<!DOCTYPE HTML>" ++ nl
  ++ "<html lang=" ++ dquote ++ "en" ++ dquote ++ ">" ++ nl
  ++ "<head>" ++ nl
  ++ "<meta charset=" ++ dquote ++ getfilesystemencoding P ++ dquote ++ ">"
  ++ nl
  ++ "<title>" ++ title ++ "</title>" ++ nl
  ++ "</head>" ++ nl
  ++ "<body>" ++ nl
  ++ "<h1>" ++ title ++ "</h1>" ++ nl
  ++ "<hr>" ++ nl
  ++ "<ul>" ++ nl
  ++ String.concat EmptyString (map (fun e => e ++ nl) entries)
  ++ "</ul>" ++ nl ++ "<hr>" ++ nl ++ "</body>" ++ nl ++ "</html>" ++ nl.

(** A word of a request line: not empty, no white space in it. *)
Definition is_word (s : string) : bool :=
  negb (s =? "")
  && forallb (fun c => negb (isspace c)) (list_ascii_of_string s).

(** A name without a slash: an entry of a directory. *)
Definition no_slash (s : string) : bool :=
  forallb (fun c => negb (Ascii.eqb c "/")) (list_ascii_of_string s).

(** The event that ends the process. *)
Definition is_exit (e : event) : bool :=
  match e with Exit _ => true | _ => false end.

(** An event of the default server as the server of [server.py] makes it:
    a header block sent gets the three lines added. *)
Definition cors_event (e : event) : event :=
  match e with
  | Send w => Send (add_cors w)
  | _ => e
  end.

End Spec.

(* ================================================================== *)
(** ** A document root to run the server on *)
(* ================================================================== *)

Module Example.
Import Str HttpServer SocketServer.

(** The program is [/srv/server.py]; beside it are a file [a.txt] and a
    directory [sub] that holds one file, [b.txt], and no index file. The
    fields that stand for library functions have the values those take on
    the paths used here. *)
Definition files (p : string) : option file :=
  if p =? "/srv/a.txt" then Some (File "hello" 1)
  else if p =? "/srv/sub/b.txt" then Some (File "bye" 2)
  else if p =? "/srv/server.py" then Some (File "#!/usr/bin/env python3" 3)
  else None.

Definition P : platform :=
  {| sys_version := "Python/3.11.2";
     date_time_string := fun t =>
       match t with
       | None => "Thu, 05 Nov 2026 09:00:00 GMT"
       | Some _ => "Wed, 04 Nov 2026 09:00:00 GMT"
       end;
     repr := fun s => "'" ++ s ++ "'";
     translate_path := fun d p =>
       if p =? "/%00" then d ++ String "/" (String zero "")
       else if p =? "http://[x/../.." then d
       else d ++ p;
     urlsplit := fun p => if startswith "http://[" p then None else Some p;
     redirect_url := fun p => p ++ "/";
     unquote := fun p => p;
     quote := fun p => p;
     guess_type := fun p => "text/plain";
     name_lower := lower;
     getfilesystemencoding := "utf-8";
     isdir := fun p =>
       (p =? "/srv") || (p =? "/srv/")
       || (p =? "/srv/sub") || (p =? "/srv/sub/");
     isfile := fun p => match files p with Some _ => true | None => false end;
     islink := fun _ => false;
     open := fun p =>
       if existsb (Ascii.eqb zero) (list_ascii_of_string p)
       then Invalid
       else match files p with Some f => Opened f | None => Refused end;
     encodable := fun _ => true;
     listdir := fun p =>
       if (p =? "/srv/sub") || (p =? "/srv/sub/") then Some ["b.txt"]
       else if (p =? "/srv") || (p =? "/srv/")
       then Some ["sub"; "server.py"; "a.txt"]
       else None;
     not_modified_since := fun _ _ => false |}.

Definition cwd : string := "/srv".

(** No other server on the machine; and the machine while an instance of
    the server is running. *)
Definition w : Server.world := Server.World "/srv/server.py" [].
Definition w_running : Server.world :=
  Server.World "/srv/server.py" [(EmptyString, Server.PORT)].

(** A request of one line and no header field. *)
Definition request (line : string) : list message :=
  [Message (line ++ CRLF) (Fields [])].

(** A path of 65537 bytes. *)
Definition long_path : string :=
  String "/" (string_of_list_ascii (repeat "a"%char (N.to_nat 65536))).

(** A second document root for the same program: [/srv] also holds an
    [index.html], the directory [/srv/sub] cannot be read, and a copy is up
    to date when [If-Modified-Since] is the date the server reports as
    [Last-Modified]. *)
Definition site_files (p : string) : option file :=
  if p =? "/srv/index.html" then Some (File "<h1>screamer</h1>" 4)
  else files p.

Definition site : platform :=
  {| sys_version := sys_version P;
     date_time_string := date_time_string P;
     repr := repr P;
     translate_path := translate_path P;
     urlsplit := urlsplit P;
     redirect_url := redirect_url P;
     unquote := unquote P;
     quote := quote P;
     guess_type := fun p =>
       if endswith ".html" p then "text/html" else "text/plain";
     name_lower := name_lower P;
     getfilesystemencoding := getfilesystemencoding P;
     isdir := isdir P;
     isfile := fun p =>
       match site_files p with Some _ => true | None => false end;
     islink := islink P;
     open := fun p =>
       match site_files p with Some f => Opened f | None => Refused end;
     encodable := encodable P;
     listdir := fun p =>
       if (p =? "/srv/sub") || (p =? "/srv/sub/") then None else listdir P p;
     not_modified_since := fun value _ =>
       value =? "Wed, 04 Nov 2026 09:00:00 GMT" |}.

(** A request of one line and the header fields [fields]. *)
Definition request_with (line : string) (fields : list (string * string))
  : list message :=
  [Message (line ++ CRLF) (Fields fields)].

End Example.

(* ================================================================== *)
(** ** What [end_headers] does, in one step *)
(* ================================================================== *)

Import Str HttpServer SocketServer Server Spec.
#[local] Open Scope list_scope.

Lemma protocol_is_1_0 : str_ge protocol_version "HTTP/1.1" = false.
Proof. reflexivity. Qed.

Lemma flush_headers_last l x h :
  _headers_buffer h = l ++ [x] ->
  flush_headers h
  = h |> wfile_write (Headers (l ++ [x])) |> set_headers_buffer [].
Proof.
  intros E; unfold flush_headers; rewrite E.
  destruct l; reflexivity.
Qed.

Lemma base_end_headers_eq h :
  BaseHTTPRequestHandler_end_headers h
  = (if negb (request_version h =? "HTTP/0.9")
     then h |> wfile_write (Headers (_headers_buffer h ++ [CRLF]))
            |> set_headers_buffer []
     else h).
Proof.
  unfold BaseHTTPRequestHandler_end_headers.
  destruct (negb (request_version h =? "HTTP/0.9")); [|reflexivity].
  rewrite (flush_headers_last (_headers_buffer h) CRLF); reflexivity.
Qed.

Lemma send_header_eq keyword value h :
  (lower keyword =? "connection") = false ->
  send_header keyword value h
  = (if negb (request_version h =? "HTTP/0.9")
     then buffer_append (header_line keyword value) h else h).
Proof. intros E; unfold send_header; now rewrite E. Qed.

(** [MyHTTPRequestHandler.end_headers]: the buffered lines, the three
    lines and the blank line go out as one header block; nothing at all when
    the request version is HTTP/0.9. *)
Lemma end_headers_eq h :
  Server.end_headers h
  = (if negb (request_version h =? "HTTP/0.9")
     then h |> wfile_write
                 (Headers (_headers_buffer h ++ cors_lines ++ [CRLF]))
            |> set_headers_buffer []
     else h).
Proof.
  unfold Server.end_headers.
  rewrite base_end_headers_eq, !send_header_eq by reflexivity.
  destruct (negb (request_version h =? "HTTP/0.9")) eqn:E;
    repeat (cbn [request_version buffer_append set_headers_buffer];
            rewrite E); [|reflexivity].
  unfold buffer_append, wfile_write, set_wfile, set_headers_buffer, cors_lines.
  cbn [directory rfile raw_requestline requestline request_version command
       path headers close_connection _headers_buffer wfile].
  now rewrite <- !app_assoc.
Qed.

Lemma end_headers_rfile h : rfile (Server.end_headers h) = rfile h.
Proof. rewrite end_headers_eq. now destruct (negb _). Qed.

(* ================================================================== *)
(** ** Invariants of a handler run *)
(* ================================================================== *)

(** A property of the handler that depends only on its directory, its
    [rfile], the exception raised, its header buffer and its writes holds
    after [handle] if it holds before and is kept by what the methods do
    to those: buffering a line that is no [Access-Control-] header, writing
    a piece of a body, calling [end_headers], taking a message off
    [rfile], and raising [ValueError] or [UnicodeEncodeError]. *)
Section Invariant.

Variable P : platform.
Variable eh : handler -> handler.
Variable Inv : handler -> Prop.

Hypothesis Inv_frame : forall h h',
  directory h' = directory h ->
  rfile h' = rfile h ->
  raised h' = raised h ->
  _headers_buffer h' = _headers_buffer h ->
  wfile h' = wfile h ->
  Inv h -> Inv h'.
Hypothesis Inv_append : forall line h,
  is_cors line = false -> Inv h -> Inv (buffer_append line h).
Hypothesis Inv_body : forall b h, Inv h -> Inv (wfile_write (Body b) h).
Hypothesis Inv_eh : forall h, Inv h -> Inv (eh h).
Hypothesis Inv_pop : forall v h, Inv h -> Inv (set_rfile v h).
Hypothesis Inv_raise : forall e h,
  e = ValueError \/ e = UnicodeEncodeError -> Inv h -> Inv (raise e h).

Ltac frame :=
  match goal with
  | H : Inv ?h |- Inv _ => apply (Inv_frame h); [reflexivity .. | exact H]
  end.

Lemma Inv_set_raw_requestline v h : Inv h -> Inv (set_raw_requestline v h).
Proof. intros; frame. Qed.
Lemma Inv_set_requestline v h : Inv h -> Inv (set_requestline v h).
Proof. intros; frame. Qed.
Lemma Inv_set_request_version v h : Inv h -> Inv (set_request_version v h).
Proof. intros; frame. Qed.
Lemma Inv_set_command v h : Inv h -> Inv (set_command v h).
Proof. intros; frame. Qed.
Lemma Inv_set_path v h : Inv h -> Inv (set_path v h).
Proof. intros; frame. Qed.
Lemma Inv_set_headers v h : Inv h -> Inv (set_headers v h).
Proof. intros; frame. Qed.
Lemma Inv_set_close_connection v h : Inv h -> Inv (set_close_connection v h).
Proof. intros; frame. Qed.

Ltac cases :=
  repeat match goal with
  | |- context [if ?b then _ else _] => destruct b
  | |- context [match ?x with _ => _ end] => destruct x
  end.

Lemma Inv_send_response_only code message h :
  Inv h -> Inv (send_response_only code message h).
Proof. intros; unfold send_response_only; cases; auto. Qed.

(** Every header the library sends: its line is no [Access-Control-]
    header, which shows on the keyword. *)
Lemma Inv_send_header keyword value h :
  is_cors (header_line keyword value) = false ->
  Inv h -> Inv (send_header keyword value h).
Proof.
  intros; unfold send_header; cases;
    auto using Inv_set_close_connection.
Qed.

Ltac inv :=
  repeat first
    [ assumption
    | apply Inv_body | apply Inv_eh
    | apply Inv_send_header; [reflexivity|]
    | apply Inv_send_response_only
    | apply Inv_set_raw_requestline
    | apply Inv_set_requestline | apply Inv_set_request_version
    | apply Inv_set_command | apply Inv_set_path | apply Inv_set_headers
    | apply Inv_set_close_connection
    | apply Inv_raise; [auto|] ].

Lemma Inv_send_response code message h :
  Inv h -> Inv (send_response P code message h).
Proof. intros; unfold send_response; inv. Qed.

Lemma Inv_send_error code message explain h :
  Inv h -> Inv (send_error P eh code message explain h).
Proof.
  intros; unfold send_error, send_response.
  destruct (match responses code with Some r => r | None => _ end)
    as [shortmsg longmsg].
  cases; inv.
Qed.

Lemma Inv_handle_expect_100 h :
  Inv h -> Inv (snd (handle_expect_100 eh h)).
Proof. intros; unfold handle_expect_100; cbn [snd fst]; inv. Qed.

Lemma Inv_parse_request_headers hl h :
  Inv h -> Inv (snd (parse_request_headers P eh hl h)).
Proof.
  intros; unfold parse_request_headers, handle_expect_100.
  cases; cbn [snd fst]; try apply Inv_send_error; inv.
Qed.

Lemma Inv_parse_request_words words hl h :
  Inv h -> Inv (snd (parse_request_words P eh words hl h)).
Proof.
  intros; unfold parse_request_words.
  cases; cbn [snd fst];
    try apply Inv_send_error; try apply Inv_parse_request_headers; inv.
Qed.

Lemma Inv_parse_request hl h :
  Inv h -> Inv (snd (parse_request P eh hl h)).
Proof.
  intros; unfold parse_request.
  cases; cbn [snd fst];
    try apply Inv_send_error; try apply Inv_parse_request_words; inv.
Qed.

Lemma Inv_list_directory path_ h :
  Inv h -> Inv (snd (list_directory P eh path_ h)).
Proof.
  intros; unfold list_directory, send_response.
  cases; cbn [snd fst]; try apply Inv_send_error; inv.
Qed.

Lemma Inv_send_head_file path_ h :
  Inv h -> Inv (snd (send_head_file P eh path_ h)).
Proof.
  intros; unfold send_head_file, send_response.
  cases; cbn [snd fst]; try apply Inv_send_error; inv.
Qed.

Lemma Inv_send_head h : Inv h -> Inv (snd (send_head P eh h)).
Proof.
  intros; unfold send_head, send_response.
  cases; cbn [snd fst];
    try apply Inv_send_head_file; try apply Inv_list_directory; inv.
Qed.

Lemma Inv_copyfileobj n : forall source h,
  Inv h -> Inv (copyfileobj n source h).
Proof.
  induction n as [|n IH]; intros source h H; cbn [copyfileobj]; [assumption|].
  destruct (split_at COPY_BUFSIZE source) as [buf rest].
  destruct (buf =? EmptyString); [assumption|].
  apply IH; inv.
Qed.

Lemma Inv_do_GET h : Inv h -> Inv (do_GET P eh h).
Proof.
  intros H; unfold do_GET.
  pose proof (Inv_send_head h H) as H'.
  destruct (send_head P eh h) as [[f|] h']; cbn [snd] in H'; [|assumption].
  now apply Inv_copyfileobj.
Qed.

Lemma Inv_do_HEAD h : Inv h -> Inv (do_HEAD P eh h).
Proof.
  intros H; unfold do_HEAD.
  pose proof (Inv_send_head h H) as H'.
  now destruct (send_head P eh h) as [f h'].
Qed.

Lemma Inv_method c h : Inv h -> Inv (method P eh c h).
Proof.
  intros H; unfold method.
  cases; try apply Inv_do_GET; try apply Inv_do_HEAD;
    try apply Inv_send_error; inv.
Qed.

Lemma Inv_handle_one_request h : Inv h -> Inv (handle_one_request P eh h).
Proof.
  intros H; unfold handle_one_request.
  destruct (rfile h) as [|m rest]; [inv|].
  destruct (_ <? _)%Z; [apply Inv_send_error; inv; now apply Inv_pop|].
  destruct (_ =? _); [inv; now apply Inv_pop|].
  match goal with |- context [parse_request P eh ?hl ?h0] =>
    pose proof (Inv_parse_request hl h0) as H';
    destruct (parse_request P eh hl h0) as [[|] h'] end;
    cbn [snd] in H'; [|apply H'; inv; now apply Inv_pop].
  assert (Inv h') by (apply H'; inv; now apply Inv_pop).
  destruct (command h'); [now apply Inv_method | assumption].
Qed.

Lemma Inv_handle_loop n : forall h, Inv h -> Inv (handle_loop P eh n h).
Proof.
  induction n as [|n IH]; intros h H; cbn [handle_loop]; [assumption|].
  destruct (raised h); [assumption|].
  destruct (negb (close_connection h)); [|assumption].
  apply IH, Inv_handle_one_request, H.
Qed.

Lemma Inv_handle h : Inv h -> Inv (handle P eh h).
Proof.
  intros H; unfold handle.
  apply Inv_handle_loop, Inv_handle_one_request; inv.
Qed.

End Invariant.

(* ================================================================== *)
(** ** Two handlers side by side *)
(* ================================================================== *)

(** [my] and [base] are two versions of [end_headers] such that a block
    flushed by [my] is the block flushed by [base] with the three lines
    added. Run on the same handler, the methods that call the one and the
    methods that call the other take the same branches and leave the same
    attributes; the writes of the first are the writes of the second with
    the three lines added. *)

Section Simulation.

Variable P : platform.

Variables my base : handler -> handler.
Hypothesis dec_eh : forall h, my (decorate h) = decorate (base h).

(** [decorate] leaves every attribute but [wfile] as it is, and commutes
    with every assignment to them. *)
Lemma dec_directory h : directory (decorate h) = directory h.
Proof. reflexivity. Qed.
Lemma dec_rfile h : rfile (decorate h) = rfile h.
Proof. reflexivity. Qed.
Lemma dec_raw_requestline h : raw_requestline (decorate h) = raw_requestline h.
Proof. reflexivity. Qed.
Lemma dec_requestline h : requestline (decorate h) = requestline h.
Proof. reflexivity. Qed.
Lemma dec_request_version h : request_version (decorate h) = request_version h.
Proof. reflexivity. Qed.
Lemma dec_command h : command (decorate h) = command h.
Proof. reflexivity. Qed.
Lemma dec_path h : path (decorate h) = path h.
Proof. reflexivity. Qed.
Lemma dec_headers h : headers (decorate h) = headers h.
Proof. reflexivity. Qed.
Lemma dec_close_connection h :
  close_connection (decorate h) = close_connection h.
Proof. reflexivity. Qed.

Lemma dec_set_rfile v h : set_rfile v (decorate h) = decorate (set_rfile v h).
Proof. reflexivity. Qed.
Lemma dec_set_raw_requestline v h :
  set_raw_requestline v (decorate h) = decorate (set_raw_requestline v h).
Proof. reflexivity. Qed.
Lemma dec_set_requestline v h :
  set_requestline v (decorate h) = decorate (set_requestline v h).
Proof. reflexivity. Qed.
Lemma dec_set_request_version v h :
  set_request_version v (decorate h) = decorate (set_request_version v h).
Proof. reflexivity. Qed.
Lemma dec_set_command v h :
  set_command v (decorate h) = decorate (set_command v h).
Proof. reflexivity. Qed.
Lemma dec_set_path v h : set_path v (decorate h) = decorate (set_path v h).
Proof. reflexivity. Qed.
Lemma dec_set_headers v h :
  set_headers v (decorate h) = decorate (set_headers v h).
Proof. reflexivity. Qed.
Lemma dec_set_close_connection v h :
  set_close_connection v (decorate h) = decorate (set_close_connection v h).
Proof. reflexivity. Qed.

Lemma dec_if (b : bool) h1 h2 :
  (if b then decorate h1 else decorate h2) = decorate (if b then h1 else h2).
Proof. now destruct b. Qed.

Lemma dec_if_pair {A} (b : bool) (a1 a2 : A) h1 h2 :
  (if b then (a1, decorate h1) else (a2, decorate h2))
  = (fst (if b then (a1, h1) else (a2, h2)),
     decorate (snd (if b then (a1, h1) else (a2, h2)))).
Proof. now destruct b. Qed.

Lemma dec_write_body b h :
  wfile_write (Body b) (decorate h) = decorate (wfile_write (Body b) h).
Proof.
  unfold decorate, with_cors_added, wfile_write, set_wfile; cbn.
  now rewrite map_app.
Qed.

Lemma dec_send_response_only code message h :
  send_response_only code message (decorate h)
  = decorate (send_response_only code message h).
Proof.
  unfold send_response_only; rewrite dec_request_version.
  now destruct (negb (request_version h =? "HTTP/0.9")).
Qed.

Lemma dec_send_header keyword value h :
  send_header keyword value (decorate h)
  = decorate (send_header keyword value h).
Proof.
  unfold send_header; rewrite dec_request_version.
  destruct (negb (request_version h =? "HTTP/0.9"));
    destruct (lower keyword =? "connection");
    destruct (lower value =? "close");
    destruct (lower value =? "keep-alive"); reflexivity.
Qed.

Create Rewrite HintDb dec.
#[local] Hint Rewrite dec_directory dec_rfile dec_raw_requestline
  dec_requestline
  dec_request_version dec_command dec_path dec_headers dec_close_connection
  dec_set_rfile dec_set_raw_requestline dec_set_requestline
  dec_set_request_version dec_set_command dec_set_path dec_set_headers
  dec_set_close_connection dec_if dec_write_body dec_eh
  dec_send_response_only dec_send_header : dec.

(** Both sides branch on the same tests: push [decorate] outwards, compare,
    and where the sides still differ take a test apart and go on. *)
Ltac innermost x :=
  lazymatch x with
  | context [if _ then _ else _] => fail
  | context [match _ with _ => _ end] => fail
  | _ => idtac
  end.

Ltac branch :=
  match goal with
  | |- context [match ?x with _ => _ end] => is_var x; destruct x
  | |- context [if ?b then _ else _] => innermost b; destruct b
  | |- context [match ?x with _ => _ end] => innermost x; destruct x
  end.

Ltac branches :=
  autorewrite with dec; cbn [fst snd];
  first [ reflexivity | branch; branches ].

Lemma dec_send_response code message h :
  send_response P code message (decorate h)
  = decorate (send_response P code message h).
Proof. unfold send_response; now autorewrite with dec. Qed.

#[local] Hint Rewrite dec_send_response : dec.

Lemma dec_send_error code message explain h :
  send_error P my code message explain (decorate h)
  = decorate (send_error P base code message explain h).
Proof.
  unfold send_error.
  destruct (match responses code with Some r => r | None => _ end)
    as [shortmsg longmsg].
  destruct (_ && _)%bool; branches.
Qed.

#[local] Hint Rewrite dec_send_error : dec.

Lemma dec_handle_expect_100 h :
  handle_expect_100 my (decorate h)
  = (fst (handle_expect_100 base h), decorate (snd (handle_expect_100 base h))).
Proof. unfold handle_expect_100; cbn [fst snd]; now autorewrite with dec. Qed.

#[local] Hint Rewrite dec_handle_expect_100 : dec.

Lemma dec_parse_request_headers hl h :
  parse_request_headers P my hl (decorate h)
  = (fst (parse_request_headers P base hl h),
     decorate (snd (parse_request_headers P base hl h))).
Proof.
  unfold parse_request_headers.
  destruct hl; cbv zeta; autorewrite with dec; cbn [fst snd]; try reflexivity.
  unfold handle_expect_100; cbn [fst snd negb]; branches.
Qed.

#[local] Hint Rewrite dec_parse_request_headers : dec.

Lemma dec_parse_request_words words hl h :
  parse_request_words P my words hl (decorate h)
  = (fst (parse_request_words P base words hl h),
     decorate (snd (parse_request_words P base words hl h))).
Proof.
  unfold parse_request_words.
  destruct words as [|command_ [|path_ rest]]; cbv zeta; branches.
Qed.

#[local] Hint Rewrite dec_parse_request_words : dec.

Lemma dec_parse_request hl h :
  parse_request P my hl (decorate h)
  = (fst (parse_request P base hl h),
     decorate (snd (parse_request P base hl h))).
Proof.
  unfold parse_request; cbv zeta; branches.
Qed.

Lemma dec_list_directory path_ h :
  list_directory P my path_ (decorate h)
  = (fst (list_directory P base path_ h),
     decorate (snd (list_directory P base path_ h))).
Proof.
  unfold list_directory; cbv zeta; branches.
Qed.

Lemma dec_send_head_file path_ h :
  send_head_file P my path_ (decorate h)
  = (fst (send_head_file P base path_ h),
     decorate (snd (send_head_file P base path_ h))).
Proof.
  unfold send_head_file; cbv zeta; branches.
Qed.

#[local] Hint Rewrite dec_list_directory dec_send_head_file : dec.

Lemma dec_send_head h :
  send_head P my (decorate h)
  = (fst (send_head P base h), decorate (snd (send_head P base h))).
Proof.
  unfold send_head; cbv zeta; branches.
Qed.

Lemma dec_copyfileobj n : forall source h,
  copyfileobj n source (decorate h) = decorate (copyfileobj n source h).
Proof.
  induction n as [|n IH]; intros source h; cbn [copyfileobj]; [reflexivity|].
  destruct (split_at COPY_BUFSIZE source) as [buf rest].
  destruct (buf =? EmptyString); [reflexivity|].
  now rewrite dec_write_body, IH.
Qed.

Lemma dec_do_GET h : do_GET P my (decorate h) = decorate (do_GET P base h).
Proof.
  unfold do_GET, copyfile. rewrite dec_send_head.
  destruct (send_head P base h) as [[f|] h']; cbn [fst snd]; [|reflexivity].
  apply dec_copyfileobj.
Qed.

Lemma dec_do_HEAD h : do_HEAD P my (decorate h) = decorate (do_HEAD P base h).
Proof.
  unfold do_HEAD. rewrite dec_send_head.
  now destruct (send_head P base h) as [f h'].
Qed.

Lemma dec_method c h :
  method P my c (decorate h) = decorate (method P base c h).
Proof.
  unfold method.
  destruct (c =? "GET"); [apply dec_do_GET|].
  destruct (c =? "HEAD"); [apply dec_do_HEAD|].
  apply dec_send_error.
Qed.

Lemma dec_handle_one_request h :
  handle_one_request P my (decorate h) = decorate (handle_one_request P base h).
Proof.
  unfold handle_one_request. rewrite dec_rfile.
  destruct (rfile h) as [|m rest]; [reflexivity|].
  autorewrite with dec.
  destruct (_ <? _)%Z; [reflexivity|].
  destruct (_ =? _); [reflexivity|].
  rewrite dec_parse_request.
  destruct (parse_request P base _ _) as [[|] h']; cbn [fst snd];
    [|reflexivity].
  rewrite dec_command.
  destruct (command h') as [c|]; [apply dec_method | reflexivity].
Qed.

Lemma dec_handle_loop n : forall h,
  handle_loop P my n (decorate h) = decorate (handle_loop P base n h).
Proof.
  induction n as [|n IH]; intros h; cbn [handle_loop]; [reflexivity|].
  change (raised (decorate h)) with (raised h).
  destruct (raised h); [reflexivity|].
  rewrite dec_close_connection.
  destruct (negb (close_connection h)); [|reflexivity].
  now rewrite dec_handle_one_request, IH.
Qed.

Lemma dec_handle h : handle P my (decorate h) = decorate (handle P base h).
Proof.
  unfold handle; cbv zeta.
  now rewrite dec_set_close_connection, dec_handle_one_request, dec_rfile,
    dec_handle_loop.
Qed.

End Simulation.

Lemma add_cors_block buf :
  add_cors (Headers (buf ++ [CRLF])) = Headers (buf ++ cors_lines ++ [CRLF]).
Proof.
  unfold add_cors. now rewrite removelast_last, last_last.
Qed.

(** The [end_headers] of [server.py] and the inherited one are such a pair. *)
Lemma dec_end_headers h :
  Server.end_headers (decorate h)
  = decorate (BaseHTTPRequestHandler_end_headers h).
Proof.
  rewrite end_headers_eq, base_end_headers_eq, dec_request_version.
  destruct (negb (request_version h =? "HTTP/0.9")); [|reflexivity].
  unfold decorate, with_cors_added, wfile_write, set_wfile, set_headers_buffer;
    cbn.
  now rewrite map_app; cbn [map]; rewrite add_cors_block.
Qed.


(* ================================================================== *)
(** ** The request loop of one connection *)
(* ================================================================== *)

Section Loop.

Variable P : platform.
Variable eh : handler -> handler.
Hypothesis eh_rfile : forall h, rfile (eh h) = rfile h.

Ltac kept :=
  intros;
  cbn [rfile buffer_append wfile_write set_headers_buffer set_wfile raise];
  rewrite ?eh_rfile; congruence.

(** No method but [handle_one_request] reads from [rfile]. *)
Lemma rfile_parse_request hl h :
  rfile (snd (parse_request P eh hl h)) = rfile h.
Proof.
  apply (Inv_parse_request P eh (fun h' => rfile h' = rfile h)); kept.
Qed.

Lemma rfile_send_error code message explain h :
  rfile (send_error P eh code message explain h) = rfile h.
Proof.
  apply (Inv_send_error P eh (fun h' => rfile h' = rfile h)); kept.
Qed.

Lemma rfile_method c h : rfile (method P eh c h) = rfile h.
Proof.
  apply (Inv_method P eh (fun h' => rfile h' = rfile h)); kept.
Qed.

(** Each turn of the loop takes one message off [rfile]; on an empty
    [rfile] it closes the connection and writes nothing. *)
Lemma rfile_handle_one_request h :
  rfile (handle_one_request P eh h) = tl (rfile h).
Proof.
  unfold handle_one_request.
  destruct (rfile h) as [|m rest] eqn:E; [exact E|].
  destruct (_ <? _)%Z; [now rewrite rfile_send_error|].
  destruct (_ =? _); [reflexivity|].
  match goal with |- context [parse_request P eh ?hl ?h0] =>
    pose proof (rfile_parse_request hl h0) as H;
    destruct (parse_request P eh hl h0) as [[|] h'] end;
    cbn [snd] in H; [|exact H].
  destruct (command h'); [now rewrite rfile_method | exact H].
Qed.

Lemma handle_one_request_drained h :
  rfile h = [] ->
  handle_one_request P eh h
  = h |> set_raw_requestline EmptyString |> set_close_connection true.
Proof. intros E; unfold handle_one_request; now rewrite E. Qed.

(** The loop ends: with as many turns as [handle] allows, it stops on
    [close_connection] or on an exception, not for want of turns. *)
Lemma handle_loop_closes n : forall h,
  List.length (rfile h) < n ->
  close_connection (handle_loop P eh n h) = true
  \/ raised (handle_loop P eh n h) <> None.
Proof.
  induction n as [|n IH]; intros h L; [lia|].
  cbn [handle_loop].
  destruct (raised h) eqn:R; [right; rewrite R; discriminate|].
  destruct (close_connection h) eqn:C; cbn [negb]; [left; exact C|].
  destruct n as [|n].
  - cbn [handle_loop]. rewrite handle_one_request_drained; [now left|].
    destruct (rfile h); [reflexivity | cbn in L; lia].
  - apply IH. rewrite rfile_handle_one_request.
    destruct (rfile h); cbn in *; lia.
Qed.

Lemma handle_closes h :
  close_connection (handle P eh h) = true \/ raised (handle P eh h) <> None.
Proof. unfold handle; apply handle_loop_closes; lia. Qed.

Lemma handle_loop_drained n : forall h,
  rfile h = [] -> wfile (handle_loop P eh n h) = wfile h.
Proof.
  induction n as [|n IH]; intros h E; cbn [handle_loop]; [reflexivity|].
  destruct (raised h); [reflexivity|].
  destruct (negb (close_connection h)); [|reflexivity].
  rewrite IH; rewrite handle_one_request_drained by exact E;
    [reflexivity | exact E].
Qed.

(** A connection that sends one message gets the response to it. *)
Lemma response_single cwd m :
  response P eh cwd [m]
  = wfile (handle_one_request P eh (set_close_connection true (setup cwd [m]))).
Proof.
  unfold response, handle.
  apply handle_loop_drained. now rewrite rfile_handle_one_request.
Qed.

End Loop.


(* ================================================================== *)
(** ** Requests the handler accepts, and its error replies *)
(* ================================================================== *)

Ltac attrs :=
  cbn [directory rfile raw_requestline requestline request_version command
       path headers raised close_connection _headers_buffer wfile
       set_rfile set_raw_requestline set_requestline set_request_version
       set_command set_path set_headers set_close_connection
       set_headers_buffer set_wfile buffer_append wfile_write raise].

(** Assignments to attributes, innermost first. *)
Ltac assign :=
  cbv beta iota delta
      [directory rfile raw_requestline requestline request_version command
       path headers raised close_connection _headers_buffer wfile
       set_rfile set_raw_requestline set_requestline set_request_version
       set_command set_path set_headers set_close_connection
       set_headers_buffer set_wfile buffer_append wfile_write raise
       default_request_version].

Section Replies.

Variable P : platform.

(** [parse_request] on an accepted request line. *)
Lemma parse_request_accepted eh line c p v fields
  cwd rest rl ver cmd pth hds exc cl buf wf :
  accepted line c p v ->
  parse_request P eh (Fields fields)
    (Handler cwd rest line rl ver cmd pth hds exc cl buf wf)
  = (true,
     Handler cwd rest line (rstrip_crlf line) v (Some c) (request_path p)
       fields exc true buf wf).
Proof.
  intros (W & (b & vn & V & V2) & _ & _).
  unfold parse_request; attrs. rewrite W.
  cbn [List.length Nat.eqb Nat.leb List.last].
  rewrite V, protocol_is_1_0, andb_false_r, V2.
  unfold parse_request_words; attrs.
  cbn [List.length Nat.leb negb].
  unfold parse_request_headers; attrs.
  rewrite protocol_is_1_0, !andb_false_r, andb_false_l.
  unfold request_path.
  destruct (startswith "//" p); destruct (lower _ =? "close"); reflexivity.
Qed.

Lemma error_page_not_empty code message :
  (error_page code message =? EmptyString) = false.
Proof. reflexivity. Qed.

(** The methods that fill and flush the header buffer, on a handler
    whose request version is not HTTP/0.9. *)
Section Version.

Variables (cwd : string) (rest : list message) (raw rl ver : string)
  (cmd : option string) (pth : string) (hds : list (string * string)).
Hypothesis E : (ver =? "HTTP/0.9") = false.

#[local] Abbreviation H := (Handler cwd rest raw rl ver cmd pth hds None).

Lemma send_response_only_on code message cl buf wf :
  send_response_only code (Some message) (H cl buf wf)
  = H cl (buf ++ [status_line code message]) wf.
Proof. unfold send_response_only; attrs; now rewrite E. Qed.

Lemma send_response_only_default_on code cl buf wf :
  send_response_only code None (H cl buf wf)
  = H cl (buf ++ [status_line code
                    (match responses code with
                     | Some r => fst r
                     | None => EmptyString
                     end)]) wf.
Proof. unfold send_response_only; attrs; now rewrite E. Qed.

Lemma send_header_on keyword value cl buf wf :
  (lower keyword =? "connection") = false ->
  send_header keyword value (H cl buf wf)
  = H cl (buf ++ [header_line keyword value]) wf.
Proof. intros K; unfold send_header; attrs; now rewrite E, K. Qed.

Lemma send_header_close_on cl buf wf :
  send_header "Connection" "close" (H cl buf wf)
  = H true (buf ++ [header_line "Connection" "close"]) wf.
Proof. unfold send_header; attrs; now rewrite E. Qed.

Lemma send_response_on code message cl buf wf :
  send_response P code (Some message) (H cl buf wf)
  = H cl (buf ++ [status_line code message;
                  header_line "Server" (version_string P);
                  header_line "Date" (date_time_string P None)]) wf.
Proof.
  unfold send_response.
  rewrite send_response_only_on, !send_header_on by reflexivity.
  now rewrite <- !app_assoc.
Qed.

Lemma send_response_default_on code cl buf wf :
  send_response P code None (H cl buf wf)
  = H cl (buf ++ [status_line code
                    (match responses code with
                     | Some r => fst r
                     | None => EmptyString
                     end);
                  header_line "Server" (version_string P);
                  header_line "Date" (date_time_string P None)]) wf.
Proof.
  unfold send_response.
  rewrite send_response_only_default_on, !send_header_on by reflexivity.
  now rewrite <- !app_assoc.
Qed.

Lemma end_headers_on cl buf wf :
  Server.end_headers (H cl buf wf)
  = H cl [] (wf ++ [Headers (buf ++ cors_lines ++ [CRLF])]).
Proof. rewrite end_headers_eq; attrs; now rewrite E. Qed.

(** The reply of [send_error] to a request in a version other than
    HTTP/0.9: a header block that opens with the status line, and the
    page. *)
Lemma send_error_on code message cl wf :
  has_body code = true ->
  not_head (H cl [] wf) = true ->
  send_error P Server.end_headers code (Some message) None (H cl [] wf)
  = H true [] (wf ++ error_reply P code message).
Proof.
  intros B NH. unfold not_head in NH; cbn [command] in NH.
  unfold send_error, error_reply, error_headers, error_page.
  fold (has_body code). rewrite B.
  rewrite send_response_on, send_header_close_on.
  destruct (responses code) as [[shortmsg longmsg]|]; cbn [snd].
  all: rewrite !send_header_on, end_headers_on by reflexivity.
  all: cbn [command]; rewrite NH.
  all: match goal with |- context [negb (?b =? EmptyString)] =>
         replace (b =? EmptyString) with false by reflexivity end.
  all: cbn [andb negb]; unfold wfile_write; attrs.
  all: now rewrite <- !app_assoc.
Qed.

End Version.

(** The same reply when the request version is HTTP/0.9: no header
    line is buffered, no block is flushed; the page is all there is. *)
Lemma send_error_0_9 code message cwd rest raw rl cmd pth hds exc cl buf wf :
  has_body code = true ->
  not_head (Handler cwd rest raw rl "HTTP/0.9" cmd pth hds exc cl buf wf)
  = true ->
  send_error P Server.end_headers code (Some message) None
    (Handler cwd rest raw rl "HTTP/0.9" cmd pth hds exc cl buf wf)
  = Handler cwd rest raw rl "HTTP/0.9" cmd pth hds exc true buf
      (wf ++ [Body (error_page code message)]).
Proof.
  intros B NH. unfold not_head in NH; cbn [command] in NH.
  unfold send_error, error_page.
  fold (has_body code). rewrite B.
  destruct (responses code) as [[shortmsg longmsg]|]; cbn [snd].
  all: rewrite end_headers_eq; cbn [request_version]; unfold send_response.
  all: cbn -[encode_utf8 error_message_format html_escape str len].
  all: rewrite NH; reflexivity.
Qed.


(** The response to an accepted request line is what the method of its
    command writes. *)
Lemma response_accepted cwd line c p v fields :
  accepted line c p v ->
  response P Server.end_headers cwd [Message line (Fields fields)]
  = wfile (method P Server.end_headers c (parsed cwd line c p v fields)).
Proof.
  intros A. rewrite response_single by apply end_headers_rfile.
  unfold handle_one_request, setup; attrs.
  cbn [m_line m_headers].
  destruct A as (W & V & V9 & L) eqn:EA.
  replace (65536 <? len line)%Z with false by lia.
  destruct (line =? EmptyString) eqn:El.
  { apply String.eqb_eq in El; subst line; discriminate W. }
  unfold set_raw_requestline, set_rfile, set_close_connection; attrs.
  rewrite (parse_request_accepted _ line c p v) by exact A.
  reflexivity.
Qed.

End Replies.

(* ================================================================== *)
(** ** Copying a file to the connection *)
(* ================================================================== *)

Lemma append_empty_r s : (s ++ EmptyString)%string = s.
Proof. induction s as [|c s IH]; cbn; [reflexivity | now rewrite IH]. Qed.

Lemma concat_blocks a blocks :
  String.concat EmptyString (a :: blocks)
  = (a ++ String.concat EmptyString blocks)%string.
Proof.
  destruct blocks; cbn [String.concat];
    [now rewrite append_empty_r | reflexivity].
Qed.

Lemma split_at_spec s : forall n a b,
  split_at n s = (a, b) ->
  (a ++ b)%string = s
  /\ String.length b <= String.length s
  /\ (a <> EmptyString -> String.length b < String.length s)
  /\ (a = EmptyString -> n <> 0%N -> s = EmptyString).
Proof.
  induction s as [|c s IH]; intros n a b E; cbn [split_at] in E.
  - injection E as <- <-. repeat split; auto. congruence.
  - destruct (n =? 0)%N eqn:N0.
    + injection E as <- <-. repeat split; auto; [congruence|].
      intros _ N. apply N.eqb_eq in N0. contradiction.
    + destruct (split_at (N.pred n) s) as [a' b'] eqn:E'.
      injection E as <- <-.
      destruct (IH _ _ _ E') as (A & L & _).
      cbn. repeat split; [now rewrite A | lia | lia | discriminate].
Qed.

(** [copyfile] writes the whole of [source], in pieces. *)
Lemma copyfileobj_all n : forall source h,
  String.length source < n ->
  exists blocks,
    wfile (copyfileobj n source h) = wfile h ++ map Body blocks
    /\ String.concat EmptyString blocks = source.
Proof.
  induction n as [|n IH]; intros source h L; [lia|].
  cbn [copyfileobj].
  destruct (split_at COPY_BUFSIZE source) as [buf rest] eqn:E.
  destruct (split_at_spec _ _ _ _ E) as (A & _ & Lr & Z).
  destruct (buf =? EmptyString) eqn:B.
  - apply String.eqb_eq in B. exists []. cbn [map String.concat].
    rewrite app_nil_r. split; [reflexivity|].
    symmetry; apply Z; [exact B | discriminate].
  - assert (String.length rest < n) as L'.
    { apply String.eqb_neq in B. specialize (Lr B). lia. }
    destruct (IH rest (wfile_write (Body buf) h) L') as (blocks & W & C).
    exists (buf :: blocks). split.
    + rewrite W. unfold wfile_write; cbn [wfile set_wfile map].
      now rewrite <- app_assoc.
    + now rewrite concat_blocks, C.
Qed.

Lemma copyfile_all source h :
  exists blocks,
    wfile (copyfile source h) = wfile h ++ map Body blocks
    /\ String.concat EmptyString blocks = source.
Proof. apply copyfileobj_all; lia. Qed.

(** The listing is sorted, not changed. *)

Lemma insert_sorted_perm P x l : Permutation (insert_sorted P x l) (x :: l).
Proof.
  induction l as [|y l IH]; cbn [insert_sorted]; [reflexivity|].
  destruct (String.leb _ _); [reflexivity|].
  rewrite IH. apply perm_swap.
Qed.

Lemma sort_perm P l : Permutation (sort P l) l.
Proof.
  induction l as [|x l IH]; cbn [sort]; [reflexivity|].
  rewrite insert_sorted_perm. now constructor.
Qed.

(* ================================================================== *)
(** ** One turn of the loop for each connection *)
(* ================================================================== *)

(** No method of the handler leaves [close_connection] false: the
    protocol version of the handler is HTTP/1.0, so no request keeps the
    connection alive. *)
Section Closing.

Variable P : platform.

Lemma cc_send_response_only code message h :
  close_connection (send_response_only code message h) = close_connection h.
Proof. unfold send_response_only. now destruct (negb _). Qed.

Lemma cc_send_header keyword value h :
  (lower keyword =? "connection") = false ->
  close_connection (send_header keyword value h) = close_connection h.
Proof. intros K. rewrite send_header_eq by exact K. now destruct (negb _). Qed.

Lemma cc_send_header_close h :
  close_connection (send_header "Connection" "close" h) = true.
Proof. reflexivity. Qed.

Lemma cc_end_headers h :
  close_connection (Server.end_headers h) = close_connection h.
Proof. rewrite end_headers_eq. now destruct (negb _). Qed.

Lemma cc_send_response code message h :
  close_connection (send_response P code message h) = close_connection h.
Proof.
  unfold send_response.
  now rewrite !cc_send_header, cc_send_response_only by reflexivity.
Qed.

Lemma cc_send_error code message explain h :
  close_connection (send_error P Server.end_headers code message explain h)
  = true.
Proof.
  unfold send_error.
  destruct (match responses code with Some r => r | None => _ end)
    as [shortmsg longmsg].
  destruct (_ && _)%bool.
  - match goal with |- context [if ?b then _ else _] => destruct b end;
      cbn [wfile_write close_connection set_wfile];
      now rewrite cc_end_headers, !cc_send_header by reflexivity.
  - now rewrite cc_end_headers.
Qed.

Lemma cc_list_directory path_ h :
  close_connection h = true ->
  close_connection (snd (list_directory P Server.end_headers path_ h)) = true.
Proof.
  intros C. unfold list_directory.
  destruct (listdir P path_); cbn [snd]; [|apply cc_send_error].
  destruct (negb (encodable P _)); cbn [snd]; [exact C|].
  now rewrite cc_end_headers, !cc_send_header, cc_send_response by reflexivity.
Qed.

Lemma cc_send_head_file path_ h :
  close_connection h = true ->
  close_connection (snd (send_head_file P Server.end_headers path_ h)) = true.
Proof.
  intros C. unfold send_head_file.
  destruct (endswith "/" path_); cbn [snd]; [apply cc_send_error|].
  destruct (open P path_); cbn [snd];
    [|apply cc_send_error | exact C | exact C].
  destruct (_ && _)%bool; cbn [snd].
  - now rewrite cc_end_headers, cc_send_response.
  - now rewrite cc_end_headers, !cc_send_header, cc_send_response
      by reflexivity.
Qed.

Lemma cc_send_head h :
  close_connection h = true ->
  close_connection (snd (send_head P Server.end_headers h)) = true.
Proof.
  intros C. unfold send_head.
  destruct (isdir P _); [|now apply cc_send_head_file].
  destruct (urlsplit P _) as [parts_path|]; cbn [snd]; [|exact C].
  destruct (negb _); cbn [snd].
  - now rewrite cc_end_headers, !cc_send_header, cc_send_response
      by reflexivity.
  - destruct (isfile P _); [now apply cc_send_head_file|].
    destruct (isfile P _); [now apply cc_send_head_file|].
    now apply cc_list_directory.
Qed.

Lemma cc_copyfileobj n : forall source h,
  close_connection (copyfileobj n source h) = close_connection h.
Proof.
  induction n as [|n IH]; intros source h; cbn [copyfileobj]; [reflexivity|].
  destruct (split_at COPY_BUFSIZE source) as [buf rest].
  destruct (buf =? EmptyString); [reflexivity|].
  now rewrite IH.
Qed.

Lemma cc_method c h :
  close_connection h = true ->
  close_connection (method P Server.end_headers c h) = true.
Proof.
  intros C. unfold method, do_GET, do_HEAD, copyfile.
  pose proof (cc_send_head h C) as S.
  destruct (c =? "GET").
  - destruct (send_head P Server.end_headers h) as [[f|] h']; cbn [snd] in S;
      [now rewrite cc_copyfileobj | exact S].
  - destruct (c =? "HEAD"); [|apply cc_send_error].
    now destruct (send_head P Server.end_headers h) as [f h'].
Qed.

Lemma cc_parse_request_headers hl h :
  close_connection h = true ->
  close_connection (snd (parse_request_headers P Server.end_headers hl h))
  = true.
Proof.
  intros C. unfold parse_request_headers.
  destruct hl; cbn [snd]; try apply cc_send_error.
  rewrite protocol_is_1_0, !andb_false_r. cbn [andb snd].
  match goal with |- context [if ?b then _ else _] => destruct b end;
    [reflexivity | exact C].
Qed.

Lemma cc_parse_request_words words hl h :
  close_connection h = true ->
  close_connection (snd (parse_request_words P Server.end_headers words hl h))
  = true.
Proof.
  intros C. unfold parse_request_words.
  destruct words as [|command_ [|path_ rest]]; cbn [snd];
    try apply cc_send_error.
  destruct (negb _); cbn [snd]; [apply cc_send_error|].
  match goal with |- context [if ?b then (false, _) else _] => destruct b end;
    cbn [snd]; [apply cc_send_error|].
  apply cc_parse_request_headers.
  destruct (startswith _ _); destruct rest; exact C || reflexivity.
Qed.

Lemma cc_parse_request hl h :
  close_connection (snd (parse_request P Server.end_headers hl h)) = true.
Proof.
  unfold parse_request. cbv zeta.
  destruct (Nat.eqb _ 0); [reflexivity|].
  destruct (Nat.leb 3 _); [|now apply cc_parse_request_words].
  destruct (version_number _) as [[b vn]|]; cbn [snd]; [|apply cc_send_error].
  rewrite protocol_is_1_0, andb_false_r.
  destruct (pair_ge vn (2, 0)%Z); cbn [snd]; [apply cc_send_error|].
  now apply cc_parse_request_words.
Qed.

(** A turn of the loop leaves the connection to be closed. *)
Lemma cc_handle_one_request h :
  close_connection h = true ->
  close_connection (handle_one_request P Server.end_headers h) = true.
Proof.
  intros C. unfold handle_one_request.
  destruct (rfile h) as [|m rest]; [reflexivity|].
  destruct (_ <? _)%Z; [apply cc_send_error|].
  destruct (_ =? _); [reflexivity|].
  match goal with |- context [parse_request P ?eh ?hl ?h0] =>
    pose proof (cc_parse_request hl h0) as H;
    destruct (parse_request P eh hl h0) as [[|] h'] end;
    cbn [snd] in H; [|exact H].
  destruct (command h'); [now apply cc_method | exact H].
Qed.

(** [handle] takes one turn. *)
Lemma handle_one_turn h :
  handle P Server.end_headers h
  = handle_one_request P Server.end_headers (set_close_connection true h).
Proof.
  unfold handle. cbv zeta.
  cbn [handle_loop]. rewrite cc_handle_one_request by reflexivity.
  now destruct (raised _).
Qed.

End Closing.

(* ================================================================== *)
(** ** What a response opens with *)
(* ================================================================== *)

(** While the request version is HTTP/0.9 the handler writes no header
    block; in any other version the first thing it writes is one. *)
Section Opening.

Variable P : platform.
Variable v : string.

#[local] Abbreviation eh := Server.end_headers.

Lemma well_opened_frame h h' :
  request_version h' = request_version h -> wfile h' = wfile h ->
  well_opened v h -> well_opened v h'.
Proof. unfold well_opened. intros -> ->. auto. Qed.

Lemma head_sent_frame h h' :
  request_version h' = request_version h -> wfile h' = wfile h ->
  head_sent v h -> head_sent v h'.
Proof. unfold head_sent. intros -> ->. auto. Qed.

Lemma head_sent_well_opened h : head_sent v h -> well_opened v h.
Proof.
  unfold head_sent, well_opened. intros [E W]. split; [exact E|].
  destruct (v =? "HTTP/0.9"); auto.
Qed.

Lemma rv_send_response_only code message h :
  request_version (send_response_only code message h) = request_version h.
Proof. unfold send_response_only. now destruct (negb _). Qed.

Lemma wf_send_response_only code message h :
  wfile (send_response_only code message h) = wfile h.
Proof. unfold send_response_only. now destruct (negb _). Qed.

Lemma rv_send_header keyword value h :
  request_version (send_header keyword value h) = request_version h.
Proof.
  unfold send_header.
  repeat match goal with |- context [if ?b then _ else _] => destruct b end;
    reflexivity.
Qed.

Lemma wf_send_header keyword value h :
  wfile (send_header keyword value h) = wfile h.
Proof.
  unfold send_header.
  repeat match goal with |- context [if ?b then _ else _] => destruct b end;
    reflexivity.
Qed.

Lemma rv_send_response code message h :
  request_version (send_response P code message h) = request_version h.
Proof.
  unfold send_response. now rewrite !rv_send_header, rv_send_response_only.
Qed.

Lemma wf_send_response code message h :
  wfile (send_response P code message h) = wfile h.
Proof.
  unfold send_response. now rewrite !wf_send_header, wf_send_response_only.
Qed.

(** The calls that fill the header buffer of [h] write nothing. *)
Ltac buffering h :=
  apply (well_opened_frame h);
  [ now rewrite ?rv_send_header, ?rv_send_response
  | now rewrite ?wf_send_header, ?wf_send_response
  | ].

Lemma head_sent_end_headers h : well_opened v h -> head_sent v (eh h).
Proof.
  unfold well_opened, head_sent. intros [E W]. rewrite end_headers_eq.
  rewrite E. destruct (v =? "HTTP/0.9"); cbn [negb]; [now split|].
  attrs. split; [exact E|].
  destruct W as [-> | (lines & rest & ->)]; eexists _, _; reflexivity.
Qed.

Lemma head_sent_write b h :
  head_sent v h -> head_sent v (wfile_write (Body b) h).
Proof.
  unfold head_sent. intros [E W]. attrs. split; [exact E|].
  destruct (v =? "HTTP/0.9").
  - apply Forall_app. split; [exact W | now constructor].
  - destruct W as (lines & rest & ->). eexists _, _; reflexivity.
Qed.

Lemma head_sent_send_error code message explain h :
  well_opened v h -> head_sent v (send_error P eh code message explain h).
Proof.
  intros G. unfold send_error.
  destruct (match responses code with Some r => r | None => _ end)
    as [shortmsg longmsg].
  destruct (_ && _)%bool.
  - match goal with |- context [if ?b then _ else _] => destruct b end;
      [apply head_sent_write|];
      apply head_sent_end_headers; buffering h; exact G.
  - apply head_sent_end_headers; buffering h; exact G.
Qed.

Lemma well_opened_raise e h : well_opened v h -> well_opened v (raise e h).
Proof. now apply well_opened_frame. Qed.

Lemma well_opened_list_directory path_ h :
  well_opened v h ->
  well_opened v (snd (list_directory P eh path_ h))
  /\ (fst (list_directory P eh path_ h) <> None ->
      head_sent v (snd (list_directory P eh path_ h))).
Proof.
  intros G. unfold list_directory.
  destruct (listdir P path_) as [list_|]; cbn [fst snd].
  - destruct (negb (encodable P _)); cbn [fst snd].
    + split; [now apply well_opened_raise | congruence].
    + assert (S : head_sent v
                    (eh (send_header "Content-Length"
                           (str (len (listing P (path h) path_
                                        (sort P list_))))
                           (send_header "Content-type"
                              ("text/html; charset="
                               ++ getfilesystemencoding P)
                              (send_response P 200 None h)))))
        by (apply head_sent_end_headers; buffering h; exact G).
      split; [now apply head_sent_well_opened | intros _; exact S].
  - split; [|congruence].
    now apply head_sent_well_opened, head_sent_send_error.
Qed.

Lemma well_opened_send_head_file path_ h :
  well_opened v h ->
  well_opened v (snd (send_head_file P eh path_ h))
  /\ (fst (send_head_file P eh path_ h) <> None ->
      head_sent v (snd (send_head_file P eh path_ h))).
Proof.
  intros G. unfold send_head_file.
  destruct (endswith "/" path_); cbn [fst snd].
  { split; [|congruence].
    now apply head_sent_well_opened, head_sent_send_error. }
  destruct (open P path_) as [f| | |]; cbn [fst snd].
  - destruct (_ && _)%bool; cbn [fst snd].
    + split; [|congruence].
      apply head_sent_well_opened, head_sent_end_headers.
      buffering h; exact G.
    + match goal with |- well_opened v ?x /\ _ =>
        assert (S : head_sent v x)
          by (apply head_sent_end_headers; buffering h; exact G) end.
      split; [now apply head_sent_well_opened | intros _; exact S].
  - split; [|congruence].
    now apply head_sent_well_opened, head_sent_send_error.
  - split; [now apply well_opened_raise | congruence].
  - split; [now apply well_opened_raise | congruence].
Qed.

Lemma well_opened_send_head h :
  well_opened v h ->
  well_opened v (snd (send_head P eh h))
  /\ (fst (send_head P eh h) <> None -> head_sent v (snd (send_head P eh h))).
Proof.
  intros G. unfold send_head.
  destruct (isdir P _); [|now apply well_opened_send_head_file].
  destruct (urlsplit P _) as [parts_path|]; cbn [fst snd];
    [|split; [now apply well_opened_raise | congruence]].
  destruct (negb _); cbn [fst snd].
  - split; [|congruence].
    apply head_sent_well_opened, head_sent_end_headers.
    buffering h; exact G.
  - destruct (isfile P _); [now apply well_opened_send_head_file|].
    destruct (isfile P _); [now apply well_opened_send_head_file|].
    now apply well_opened_list_directory.
Qed.

Lemma head_sent_copyfileobj n : forall source h,
  head_sent v h -> head_sent v (copyfileobj n source h).
Proof.
  induction n as [|n IH]; intros source h S; cbn [copyfileobj]; [exact S|].
  destruct (split_at COPY_BUFSIZE source) as [buf rest].
  destruct (buf =? EmptyString); [exact S|].
  now apply IH, head_sent_write.
Qed.

Lemma well_opened_method c h :
  well_opened v h -> well_opened v (method P eh c h).
Proof.
  intros G. unfold method, do_GET, do_HEAD, copyfile.
  destruct (well_opened_send_head h G) as [W S].
  destruct (c =? "GET").
  - destruct (send_head P eh h) as [[f|] h']; cbn [fst snd] in *;
      [|exact W].
    apply head_sent_well_opened, head_sent_copyfileobj, S. discriminate.
  - destruct (c =? "HEAD");
      [|now apply head_sent_well_opened, head_sent_send_error].
    now destruct (send_head P eh h) as [f h'].
Qed.

Lemma well_opened_parse_request_headers hl h :
  well_opened v h ->
  well_opened v (snd (parse_request_headers P eh hl h)).
Proof.
  intros G. unfold parse_request_headers.
  destruct hl; cbn [snd];
    try now apply head_sent_well_opened, head_sent_send_error.
  rewrite protocol_is_1_0, !andb_false_r. cbn [andb snd].
  match goal with |- context [if ?b then _ else _] => destruct b end;
    now apply (well_opened_frame h).
Qed.

Lemma well_opened_parse_request_words words hl h :
  well_opened v h ->
  well_opened v (snd (parse_request_words P eh words hl h)).
Proof.
  intros G. unfold parse_request_words.
  destruct words as [|command_ [|path_ rest]]; cbn [snd];
    try now apply head_sent_well_opened, head_sent_send_error.
  destruct (negb _); cbn [snd];
    [now apply head_sent_well_opened, head_sent_send_error|].
  match goal with |- context [if ?b then (false, _) else _] => destruct b end;
    cbn [snd].
  - apply head_sent_well_opened, head_sent_send_error.
    destruct rest; [now apply (well_opened_frame h) | exact G].
  - apply well_opened_parse_request_headers.
    apply (well_opened_frame h); [| |exact G];
      destruct (startswith _ _); destruct rest; reflexivity.
Qed.

End Opening.

Section Opened.

Variable P : platform.

#[local] Abbreviation eh := Server.end_headers.

(** Nothing is written before the version of the request is known. *)
Lemma well_opened_parse_request hl h :
  wfile h = [] ->
  exists v, well_opened v (snd (parse_request P eh hl h)).
Proof.
  intros W.
  assert (G : forall v h', request_version h' = v -> wfile h' = [] ->
                           well_opened v h').
  { intros v h' E W'. split; [exact E|]. rewrite W'.
    destruct (v =? "HTTP/0.9"); [constructor | now left]. }
  unfold parse_request. cbv zeta.
  destruct (Nat.eqb _ 0); cbn [snd].
  { eexists. apply G; [reflexivity | exact W]. }
  destruct (Nat.leb 3 _).
  - destruct (version_number _) as [[b vn]|]; cbn [snd].
    + rewrite protocol_is_1_0, andb_false_r.
      destruct (pair_ge vn (2, 0)%Z); cbn [snd]; eexists.
      * apply head_sent_well_opened, head_sent_send_error.
        apply G; [reflexivity | exact W].
      * apply well_opened_parse_request_words.
        apply G; [reflexivity | exact W].
    + eexists. apply head_sent_well_opened, head_sent_send_error.
      apply G; [reflexivity | exact W].
  - eexists. apply well_opened_parse_request_words.
    apply G; [reflexivity | exact W].
Qed.

Lemma well_opened_handle_one_request h :
  wfile h = [] ->
  exists v, well_opened v (handle_one_request P eh h).
Proof.
  intros W.
  assert (G : forall v h', request_version h' = v -> wfile h' = [] ->
                           well_opened v h').
  { intros v h' E W'. split; [exact E|]. rewrite W'.
    destruct (v =? "HTTP/0.9"); [constructor | now left]. }
  unfold handle_one_request.
  destruct (rfile h) as [|m rest].
  { eexists. apply G; [reflexivity | exact W]. }
  destruct (_ <? _)%Z.
  { eexists. apply head_sent_well_opened, head_sent_send_error.
    apply G; [reflexivity | exact W]. }
  destruct (_ =? _).
  { eexists. apply G; [reflexivity | exact W]. }
  match goal with |- context [parse_request P ?e ?hl ?h0] =>
    destruct (well_opened_parse_request hl h0 W) as [v H];
    destruct (parse_request P e hl h0) as [[|] h'] end;
    cbn [snd] in H; exists v; [|exact H].
  destruct (command h'); [now apply well_opened_method | exact H].
Qed.

Lemma well_opened_handle cwd request :
  exists v, well_opened v (handle P eh (setup cwd request)).
Proof. rewrite handle_one_turn. now apply well_opened_handle_one_request. Qed.

End Opened.

(* ================================================================== *)
(** ** The server loop and the script *)
(* ================================================================== *)

Section Serving.

Variable P : platform.
Variable eh : handler -> handler.
Variable cwd : string.

Hypothesis eh_raised : forall h, raised (eh h) = raised h.

(** What a handler raises by itself is an [Exception]. *)
Lemma uncaught_is_Exception request e :
  uncaught P eh cwd request = Some e -> is_Exception e = true.
Proof.
  unfold uncaught, handled.
  assert (I : forall e', raised (handle P eh (setup cwd request)) = Some e'
                         -> e' = ValueError \/ e' = UnicodeEncodeError).
  { apply (Inv_handle P eh
             (fun h => forall e', raised h = Some e'
                                  -> e' = ValueError
                                     \/ e' = UnicodeEncodeError)).
    - intros h h' _ _ R _ _ I e'. rewrite R. apply I.
    - intros line h _ I. exact I.
    - intros b h I. exact I.
    - intros h I e'. rewrite eh_raised. apply I.
    - intros v h I. exact I.
    - intros e0 h E _ e'. cbn [raise raised]. intros [= <-]. exact E.
    - cbn [setup raised]. discriminate. }
  intros R. now destruct (I e R) as [-> | ->].
Qed.

(** The exception that leaves [finish_request] is the one that strikes
    the handler, unless [handle_one_request] catches it, or else the one
    the handler raises. *)
Lemma finish_request_raises request raises e :
  snd (finish_request P eh cwd request raises) = Some e ->
  (exists k, raises = Some (k, e) /\ e <> TimeoutError)
  \/ (raises = None /\ uncaught P eh cwd request = Some e).
Proof.
  unfold finish_request. cbv zeta.
  destruct raises as [[k e']|]; cbn [snd].
  - destruct e'; intros [= <-]; left; exists k; split; auto; discriminate.
  - intros R. right. split; [reflexivity | exact R].
Qed.

(** Only [KeyboardInterrupt] leaves [_handle_request_noblock]. *)
Lemma handle_request_raises request raises e :
  snd (_handle_request_noblock P eh cwd request raises) = Some e ->
  e = KeyboardInterrupt.
Proof.
  unfold _handle_request_noblock, process_request.
  destruct (finish_request P eh cwd request raises) as [evs [e'|]];
    cbn [snd]; [|discriminate].
  destruct e'; cbn [is_Exception snd]; congruence.
Qed.

Lemma handle_request_quiet request raises :
  no_interrupt (Connection request raises) ->
  snd (_handle_request_noblock P eh cwd request raises) = None.
Proof.
  intros Q.
  destruct (snd (_handle_request_noblock P eh cwd request raises))
    as [e|] eqn:E; [|reflexivity].
  pose proof (handle_request_raises _ _ _ E) as ->.
  unfold _handle_request_noblock, process_request in E.
  destruct (finish_request P eh cwd request raises) as [evs [e'|]] eqn:F;
    cbn [snd] in E; [|discriminate].
  destruct e'; cbn [is_Exception snd] in E; try discriminate.
  assert (F' : snd (finish_request P eh cwd request raises)
               = Some KeyboardInterrupt) by now rewrite F.
  destruct (finish_request_raises _ _ _ F') as [(k & -> & _) | (_ & U)].
  - contradiction Q.
  - apply uncaught_is_Exception in U. discriminate U.
Qed.

(** What comes in without a [KeyboardInterrupt] is served piece by piece,
    and the loop goes on. *)
Lemma serve_forever_quiet input :
  Forall no_interrupt input ->
  serve_forever P eh cwd input = (flat_map (served P eh cwd) input, None).
Proof.
  induction 1 as [|i input Q _ IH]; [reflexivity|].
  destruct i as [request raises| |]; cbn [serve_forever flat_map served].
  - pose proof (handle_request_quiet _ _ Q) as E.
    destruct (_handle_request_noblock P eh cwd request raises) as [evs r].
    cbn [snd fst] in *. subst r. now rewrite IH.
  - exact IH.
  - contradiction Q.
Qed.

Lemma serve_forever_app pre input :
  Forall no_interrupt pre ->
  serve_forever P eh cwd (pre ++ input)
  = (flat_map (served P eh cwd) pre ++ fst (serve_forever P eh cwd input),
     snd (serve_forever P eh cwd input)).
Proof.
  induction 1 as [|i pre Q _ IH]; cbn [app flat_map].
  - now destruct (serve_forever P eh cwd input).
  - destruct i as [request raises| |]; cbn [serve_forever served].
    + pose proof (handle_request_quiet _ _ Q) as E.
      destruct (_handle_request_noblock P eh cwd request raises) as [evs r].
      cbn [snd fst] in *. subst r. rewrite IH. cbn [fst snd].
      now rewrite app_assoc.
    + exact IH.
    + contradiction Q.
Qed.

(** The loop is left by [KeyboardInterrupt] only. *)
Lemma serve_forever_raises input e :
  snd (serve_forever P eh cwd input) = Some e -> e = KeyboardInterrupt.
Proof.
  induction input as [|i input IH]; cbn [serve_forever]; [discriminate|].
  destruct i as [request raises| |]; cbn [snd]; try congruence; auto.
  destruct (_handle_request_noblock P eh cwd request raises) as [evs [e'|]]
    eqn:E.
  - cbn [snd]. intros [= <-].
    apply (handle_request_raises request raises). now rewrite E.
  - destruct (serve_forever P eh cwd input). exact IH.
Qed.

(** A [KeyboardInterrupt] raised in the handler after [k] writes, or
    after the last one. *)
Lemma handle_request_in_flight request k :
  _handle_request_noblock P eh cwd request (Some (k, KeyboardInterrupt))
  = (Accept :: map Send (firstn k (response P eh cwd request)) ++ [Shutdown],
     Some KeyboardInterrupt).
Proof. reflexivity. Qed.

(** An interrupt that comes in, while the loop waits or while a handler
    runs, ends the loop. *)
Lemma serve_forever_interrupted input :
  Exists interrupts input ->
  snd (serve_forever P eh cwd input) = Some KeyboardInterrupt.
Proof.
  induction input as [|i input IH]; intros I; [inversion I|].
  destruct i as [request raises| |]; cbn [serve_forever].
  - destruct (_handle_request_noblock P eh cwd request raises)
      as [evs [e'|]] eqn:E.
    + cbn [snd]. f_equal.
      apply (handle_request_raises request raises). now rewrite E.
    + assert (I' : Exists interrupts input).
      { inversion I as [? ? I0|]; [|assumption]. exfalso.
        destruct raises as [[k []]|]; try contradiction I0.
        rewrite handle_request_in_flight in E. discriminate E. }
      specialize (IH I'). now destruct (serve_forever P eh cwd input).
  - inversion I as [? ? I0|]; [contradiction I0 | auto].
  - reflexivity.
Qed.

End Serving.

Section Script.

Variable P : platform.
Variable w : world.

Hypothesis dir_ok : isdir P (dirname (program_file w)) = true.

Lemma main_port_in_use input :
  in_use EmptyString PORT (bound w) = true ->
  main P w input
  = [ Chdir (dirname (program_file w)); Socket;
      BindError EmptyString PORT EADDRINUSE; Close;
      Traceback (OSError EADDRINUSE); Exit 1 ].
Proof.
  intros U. unfold main, TCPServer. now rewrite dir_ok, U.
Qed.

Hypothesis port_free : in_use EmptyString PORT (bound w) = false.

Lemma main_started input :
  main P w input
  = startup (dirname (program_file w))
    ++ fst (serve_forever P Server.end_headers (dirname (program_file w))
              input)
    ++ match snd (serve_forever P Server.end_headers
                    (dirname (program_file w)) input) with
       | Some _ => stopped
       | None => []
       end.
Proof.
  unfold main, TCPServer, startup. rewrite dir_ok, port_free.
  cbn [negb app].
  destruct (serve_forever P Server.end_headers (dirname (program_file w))
              input) as [evs [e|]] eqn:E.
  - assert (e = KeyboardInterrupt) as ->
      by (apply (serve_forever_raises P Server.end_headers
                   (dirname (program_file w)) input); now rewrite E).
    reflexivity.
  - cbn [fst snd]. now rewrite app_nil_r.
Qed.

End Script.

(* ================================================================== *)
(** ** Replies to single requests *)
(* ================================================================== *)

(** The replies of [send_head] and of [send_error] to a request in a
    version other than HTTP/0.9. *)
Section Heads.

Variable P : platform.
Variables (cwd : string) (rest : list message) (raw rl ver : string)
  (cmd : option string) (pth : string) (hds : list (string * string)).
Hypothesis E : (ver =? "HTTP/0.9") = false.

#[local] Abbreviation Hv :=
  (Handler cwd rest raw rl ver cmd pth hds None).

(** The reply of [send_error] to a HEAD request: the header block of the
    error reply, without the page. *)
Lemma send_error_head_on code message cl wf :
  has_body code = true ->
  not_head (Hv cl [] wf) = false ->
  send_error P Server.end_headers code (Some message) None (Hv cl [] wf)
  = Hv true []
      (wf ++ [Headers (error_headers P code message ++ cors_lines ++ [CRLF])]).
Proof.
  intros B NH. unfold not_head in NH; cbn [command] in NH.
  unfold send_error, error_headers, error_page.
  fold (has_body code). rewrite B.
  rewrite send_response_on, send_header_close_on by exact E.
  destruct (responses code) as [[shortmsg longmsg]|]; cbn [snd].
  all: rewrite !send_header_on, end_headers_on
         by first [exact E | reflexivity].
  all: cbn [command]; rewrite NH.
  all: cbn [andb negb]; unfold wfile_write; attrs.
  all: now rewrite <- !app_assoc.
Qed.

(** [send_head] on a file it can open. *)
Lemma send_head_file_opened path_ f cl wf :
  endswith "/" path_ = false ->
  open P path_ = Opened f ->
  not_modified P hds f = false ->
  send_head_file P Server.end_headers path_ (Hv cl [] wf)
  = (Some (f_data f),
     Hv cl []
       (wf ++ [Headers (file_headers P path_ f ++ cors_lines ++ [CRLF])])).
Proof.
  intros S O N. unfold send_head_file. rewrite S, O. cbn [headers].
  fold (not_modified P hds f). rewrite N.
  rewrite send_response_default_on by exact E.
  rewrite !send_header_on by first [exact E | reflexivity].
  rewrite end_headers_on by exact E.
  reflexivity.
Qed.

Lemma send_head_file_not_modified path_ f cl wf :
  endswith "/" path_ = false ->
  open P path_ = Opened f ->
  not_modified P hds f = true ->
  send_head_file P Server.end_headers path_ (Hv cl [] wf)
  = (None,
     Hv cl []
       (wf ++ [Headers (not_modified_headers P ++ cors_lines ++ [CRLF])])).
Proof.
  intros S O N. unfold send_head_file. rewrite S, O. cbn [headers].
  fold (not_modified P hds f). rewrite N.
  rewrite send_response_default_on by exact E.
  rewrite end_headers_on by exact E.
  reflexivity.
Qed.

End Heads.

Lemma raised_copyfileobj n : forall source h,
  raised (copyfileobj n source h) = raised h.
Proof.
  induction n as [|n IH]; intros source h; cbn [copyfileobj]; [reflexivity|].
  destruct (split_at COPY_BUFSIZE source) as [buf rest].
  destruct (buf =? EmptyString); [reflexivity|].
  now rewrite IH.
Qed.

(** Requests of two words: HTTP/0.9. *)

Section Simple.

Variable P : platform.
Variables (cwd : string) (rest : list message) (raw rl : string)
  (cmd : option string) (pth : string) (hds : list (string * string)).

#[local] Abbreviation H09 :=
  (Handler cwd rest raw rl "HTTP/0.9" cmd pth hds None).

(** While the request version is HTTP/0.9 no header is buffered and no
    block is flushed. *)
Lemma send_response_0_9 code message cl buf wf :
  send_response P code message (H09 cl buf wf) = H09 cl buf wf.
Proof. reflexivity. Qed.

Lemma send_header_0_9 keyword value cl buf wf :
  (lower keyword =? "connection") = false ->
  send_header keyword value (H09 cl buf wf) = H09 cl buf wf.
Proof. intros K. rewrite send_header_eq by exact K. reflexivity. Qed.

Lemma end_headers_0_9 cl buf wf :
  Server.end_headers (H09 cl buf wf) = H09 cl buf wf.
Proof. rewrite end_headers_eq. reflexivity. Qed.

End Simple.

Section SimpleGet.

Variable P : platform.
Variables (cwd line p : string) (fields : list (string * string)).

#[local] Abbreviation simple_get_handler :=
  (Handler cwd [] line (rstrip_crlf line) "HTTP/0.9" (Some "GET"%string)
     (request_path p) fields None true [] []).

Lemma simple_get :
  bare (wfile (do_GET P Server.end_headers simple_get_handler)).
Proof.
  assert (G : well_opened "HTTP/0.9" simple_get_handler)
    by (split; [reflexivity | constructor]).
  apply (well_opened_method P _ "GET") in G.
  exact (proj2 G).
Qed.

End SimpleGet.

(** [parse_request] on a request line of the two words [GET] and a path. *)
Lemma parse_request_simple P eh line p fields
  cwd rest rl ver cmd pth hds exc cl buf wf :
  split (rstrip_crlf line) = ["GET"%string; p] ->
  parse_request P eh (Fields fields)
    (Handler cwd rest line rl ver cmd pth hds exc cl buf wf)
  = (true,
     Handler cwd rest line (rstrip_crlf line) "HTTP/0.9" (Some "GET"%string)
       (request_path p) fields exc true buf wf).
Proof.
  intros W. unfold parse_request; attrs. rewrite W.
  cbn [List.length Nat.eqb Nat.leb].
  unfold parse_request_words; attrs.
  cbn [List.length Nat.leb negb String.eqb Ascii.eqb Bool.eqb].
  unfold parse_request_headers; attrs.
  rewrite protocol_is_1_0, !andb_false_r, andb_false_l.
  unfold request_path.
  destruct (startswith "//" p); destruct (lower _ =? "close"); reflexivity.
Qed.

(** The response to such a request line is what [do_GET] writes. *)
Lemma response_simple P cwd line p fields :
  (len line <=? 65536)%Z = true ->
  split (rstrip_crlf line) = ["GET"%string; p] ->
  response P Server.end_headers cwd [Message line (Fields fields)]
  = wfile (do_GET P Server.end_headers
             (Handler cwd [] line (rstrip_crlf line) "HTTP/0.9"
                (Some "GET"%string) (request_path p) fields None true [] [])).
Proof.
  intros L W. rewrite response_single by apply end_headers_rfile.
  unfold handle_one_request, setup; attrs. cbn [m_line m_headers].
  replace (65536 <? len line)%Z with false by lia.
  destruct (line =? EmptyString) eqn:El.
  { apply String.eqb_eq in El; subst line; discriminate W. }
  unfold set_raw_requestline, set_rfile, set_close_connection; attrs.
  rewrite (parse_request_simple P _ line p) by exact W.
  cbn [command]. unfold method. now cbn [String.eqb Ascii.eqb Bool.eqb].
Qed.

Section Files.

Variable P : platform.

Lemma open_rb_Some path_ f :
  open_rb P path_ = Some f -> open P path_ = Opened f.
Proof. unfold open_rb. destruct (open P path_); congruence. Qed.

Lemma urlsplit_path_slash p :
  endswith "/" (urlsplit_path P p) = true ->
  exists u, urlsplit P p = Some u /\ endswith "/" u = true.
Proof.
  unfold urlsplit_path. destruct (urlsplit P p) as [u|]; [eauto|discriminate].
Qed.

(** A GET for a path that is no directory and that the operating system
    refuses to open. *)
Lemma get_unopenable cwd' line p v fields :
  accepted line "GET" p v ->
  isdir P (translate_path P cwd' (request_path p)) = false ->
  open P (translate_path P cwd' (request_path p)) = Refused ->
  response P Server.end_headers cwd' [Message line (Fields fields)]
  = error_reply P 404 "File not found".
Proof.
  intros A D O. rewrite (response_accepted P cwd' line "GET" p v) by exact A.
  destruct A as (_ & _ & V9 & _).
  unfold method, do_GET, send_head, parsed.
  cbn [String.eqb Ascii.eqb Bool.eqb directory path]. rewrite D.
  unfold send_head_file. rewrite O.
  destruct (endswith "/" _);
    now rewrite (send_error_on P cwd' [] line (rstrip_crlf line) v).
Qed.


(** The reply to a request line rejected before a version is accepted. *)
Lemma bad_request_line_reply cwd line hl msg :
  bad_request_line P line = Some msg ->
  response P Server.end_headers cwd [Message line hl]
  = [Body (error_page 400 msg)].
Proof.
  unfold bad_request_line. intros B.
  rewrite response_single by apply end_headers_rfile.
  unfold handle_one_request, setup; attrs. cbn [m_line m_headers].
  destruct (65536 <? len line)%Z; [discriminate B|].
  destruct (line =? EmptyString) eqn:El.
  { apply String.eqb_eq in El; subst line; discriminate B. }
  unfold parse_request; attrs.
  destruct (split (rstrip_crlf line)) as [|w1 [|w2 [|w3 ws]]] eqn:W;
    try discriminate B.
  - injection B as <-.
    cbn [List.length Nat.eqb Nat.leb]. unfold parse_request_words; assign.
    rewrite send_error_0_9 by reflexivity. reflexivity.
  - remember (w1 :: w2 :: w3 :: ws) as words eqn:Ew.
    assert (L : Nat.eqb (List.length words) 0 = false) by now subst words.
    assert (L3 : Nat.leb 3 (List.length words) = true) by now subst words.
    rewrite L, L3.
    destruct (version_number (last words EmptyString)); [discriminate B|].
    injection B as <-. assign.
    rewrite send_error_0_9 by reflexivity. reflexivity.
Qed.

(** A GET for a directory whose path is written without its final
    slash. *)
Lemma get_directory_redirect cwd line p v fields u :
  accepted line "GET" p v ->
  isdir P (translate_path P cwd (request_path p)) = true ->
  urlsplit P (request_path p) = Some u ->
  endswith "/" u = false ->
  wfile (method P Server.end_headers "GET" (parsed cwd line "GET" p v fields))
  = [Headers (redirect_headers P (request_path p) ++ cors_lines ++ [CRLF])].
Proof.
  intros A D U S. destruct A as (_ & _ & V9 & _).
  unfold method, do_GET, send_head, parsed.
  cbn [String.eqb Ascii.eqb Bool.eqb directory path]. rewrite D, U, S.
  cbn [negb].
  rewrite (send_response_default_on P cwd [] line (rstrip_crlf line) v)
    by exact V9.
  rewrite !(send_header_on cwd [] line (rstrip_crlf line) v) by
    first [exact V9 | reflexivity].
  rewrite (end_headers_on cwd [] line (rstrip_crlf line) v) by exact V9.
  unfold redirect_headers. cbn [responses fst app wfile].
  reflexivity.
Qed.

(** A GET for a directory without an index file, its path written with
    the final slash. *)
Lemma get_directory_listing cwd line p v fields names u :
  accepted line "GET" p v ->
  let d := translate_path P cwd (request_path p) in
  isdir P d = true ->
  urlsplit P (request_path p) = Some u ->
  endswith "/" u = true ->
  isfile P (path_join d "index.html") = false ->
  isfile P (path_join d "index.htm") = false ->
  listdir P d = Some names ->
  encodable P (listing P (request_path p) d (sort P names)) = true ->
  wfile (method P Server.end_headers "GET" (parsed cwd line "GET" p v fields))
  = wfile (copyfile (listing P (request_path p) d (sort P names))
             (Handler cwd [] line (rstrip_crlf line) v (Some "GET")
                (request_path p) fields None true []
                [Headers
                   (listing_headers P
                      (listing P (request_path p) d (sort P names))
                    ++ cors_lines ++ [CRLF])])).
Proof.
  intros A d D U S I1 I2 L C. destruct A as (_ & _ & V9 & _).
  unfold method, do_GET, send_head, parsed.
  cbn [String.eqb Ascii.eqb Bool.eqb directory path]. fold d.
  rewrite D, U, S. cbn [negb].
  rewrite I1, I2. unfold list_directory. rewrite L. cbn [path].
  rewrite C. cbn [negb].
  rewrite (send_response_default_on P cwd [] line (rstrip_crlf line) v)
    by exact V9.
  rewrite !(send_header_on cwd [] line (rstrip_crlf line) v) by
    first [exact V9 | reflexivity].
  rewrite (end_headers_on cwd [] line (rstrip_crlf line) v) by exact V9.
  unfold listing_headers. cbn [responses fst app].
  reflexivity.
Qed.

(** The text of a listing: the page, with one entry for each name, in
    the order of the names. *)
Lemma list_item_entry d name : list_item P d name = entry P d name.
Proof.
  unfold list_item, entry. now destruct (isdir P _), (islink P _).
Qed.

Lemma string_app_assoc a b c : ((a ++ b) ++ c = a ++ b ++ c)%string.
Proof. induction a as [|x a IH]; cbn; [reflexivity | now rewrite IH]. Qed.

Lemma concat_cons sep x xs :
  xs <> [] ->
  String.concat sep (x :: xs) = (x ++ sep ++ String.concat sep xs)%string.
Proof. destruct xs; [congruence | reflexivity]. Qed.

Lemma concat_lines nl items last_ :
  String.concat nl (items ++ [last_])
  = (String.concat EmptyString (map (fun e => (e ++ nl)%string) items)
     ++ last_)%string.
Proof.
  induction items as [|x items IH]; cbn [List.app map]; [reflexivity|].
  rewrite concat_cons by (destruct items; discriminate). rewrite IH.
  destruct items as [|y items]; cbn [map String.concat append].
  - now rewrite string_app_assoc.
  - now rewrite !string_app_assoc.
Qed.

Lemma listing_is_page url d names :
  listing P url d names = listing_page P url (map (entry P d) names).
Proof.
  unfold listing, listing_page, join. cbv zeta. cbn [List.app].
  rewrite (map_ext _ _ (list_item_entry d)).
  rewrite !concat_cons by (try discriminate; destruct names; discriminate).
  rewrite concat_lines.
  generalize (String.concat EmptyString
                (map (fun e => (e ++ String LF EmptyString)%string)
                   (map (entry P d) names))).
  generalize (html_escape (unquote P url)).
  generalize (getfilesystemencoding P).
  intros enc title entries.
  repeat (rewrite !string_app_assoc || cbn [append]).
  reflexivity.
Qed.

End Files.

Lemma end_headers_raised h : raised (Server.end_headers h) = raised h.
Proof. rewrite end_headers_eq. now destruct (negb _). Qed.

(** The handler of a connection keeps the directory it was created in. *)
Lemma handle_keeps_directory P cwd request :
  directory (handle P Server.end_headers (setup cwd request)) = cwd.
Proof.
  apply (Inv_handle P Server.end_headers (fun h => directory h = cwd));
    try reflexivity.
  - intros h h' E _ _ _ _ H. now rewrite E.
  - intros line h _ H. exact H.
  - intros b h H. exact H.
  - intros h H. rewrite end_headers_eq. now destruct (negb _).
  - intros v h H. exact H.
  - intros e h _ H. exact H.
Qed.

(** The handler of an accepted request line when [handle] is left. *)
Lemma handled_accepted P cwd line c p v fields :
  accepted line c p v ->
  handled P Server.end_headers cwd [Message line (Fields fields)]
  = method P Server.end_headers c (parsed cwd line c p v fields).
Proof.
  intros A. unfold handled. rewrite handle_one_turn.
  unfold handle_one_request, setup; attrs.
  cbn [m_line m_headers].
  destruct A as (W & V & V9 & L) eqn:EA.
  replace (65536 <? len line)%Z with false by lia.
  destruct (line =? EmptyString) eqn:El.
  { apply String.eqb_eq in El; subst line; discriminate W. }
  unfold set_raw_requestline, set_rfile, set_close_connection; attrs.
  rewrite (parse_request_accepted _ _ line c p v) by exact A.
  reflexivity.
Qed.

(** A GET for a path that is no directory and that cannot be given to
    the operating system: [open] raises, nothing is sent. *)
Lemma get_rejected P cwd line p v fields :
  accepted line "GET" p v ->
  isdir P (translate_path P cwd (request_path p)) = false ->
  endswith "/" (translate_path P cwd (request_path p)) = false ->
  handled P Server.end_headers cwd [Message line (Fields fields)]
  = match open P (translate_path P cwd (request_path p)) with
    | Invalid => raise ValueError (parsed cwd line "GET" p v fields)
    | Unencodable =>
        raise UnicodeEncodeError (parsed cwd line "GET" p v fields)
    | _ => handled P Server.end_headers cwd [Message line (Fields fields)]
    end.
Proof.
  intros A D S.
  destruct (open P _) eqn:O; try reflexivity;
    rewrite (handled_accepted P cwd line "GET" p v) by exact A;
    unfold method, do_GET, send_head, parsed;
    cbn [String.eqb Ascii.eqb Bool.eqb directory path]; rewrite D;
    unfold send_head_file; rewrite S, O; reflexivity.
Qed.

(** An exception that strikes the handler from outside. *)
Lemma served_struck P cwd request k e :
  served P Server.end_headers cwd (Connection request (Some (k, e)))
  = Accept
    :: map Send (firstn k (response P Server.end_headers cwd request))
    ++ match e with
       | KeyboardInterrupt | TimeoutError => []
       | _ => [Traceback e]
       end
    ++ [Shutdown].
Proof.
  unfold served, _handle_request_noblock, process_request, finish_request,
    response.
  destruct e; reflexivity.
Qed.

(** An exception the handler raises by itself, and none. *)
Lemma served_raised P cwd request :
  served P Server.end_headers cwd (Connection request None)
  = Accept
    :: map Send (response P Server.end_headers cwd request)
    ++ match uncaught P Server.end_headers cwd request with
       | Some e => [Traceback e]
       | None => []
       end
    ++ [Shutdown].
Proof.
  pose proof (uncaught_is_Exception P Server.end_headers cwd
                end_headers_raised request) as I.
  unfold served, _handle_request_noblock, process_request, finish_request,
    response, uncaught, handled in *.
  cbv zeta. destruct (raised _) as [e|]; [|reflexivity].
  now rewrite (I e eq_refl).
Qed.

(* ================================================================== *)
(** ** The claims *)
(* ================================================================== *)

(** C1, as amended. Every header block the server writes, whatever the
    path, the method and the status of the response, ends with the three
    CORS header lines of [server.py] followed by the blank line, added
    after every other header of the block, and no other line of the block
    is an [Access-Control-] header. A response to a request whose version
    is not HTTP/0.9 opens with such a header block, and so carries the
    three headers; a reply sent while the request version is HTTP/0.9 has
    no header block, and carries none of them. *)
Theorem cors_headers_close_every_header_block P cwd request :
  Forall cors_block (response P Server.end_headers cwd request)
  /\ ((request_version (handled P Server.end_headers cwd request)
       =? "HTTP/0.9") = false ->
      response P Server.end_headers cwd request <> [] ->
      exists pre rest,
        response P Server.end_headers cwd request
        = Headers (pre ++ cors_lines ++ [CRLF]) :: rest
        /\ Forall (fun l => is_cors l = false) pre)
  /\ ((request_version (handled P Server.end_headers cwd request)
       =? "HTTP/0.9") = true ->
      bare (response P Server.end_headers cwd request)).
Proof.
  assert (B : Forall cors_block (response P Server.end_headers cwd request)).
  { unfold response.
    apply (Inv_handle P Server.end_headers
             (fun h =>
                Forall cors_block (wfile h)
                /\ Forall (fun l => is_cors l = false) (_headers_buffer h))).
    - intros h h' _ _ _ Eb Ew. now rewrite Eb, Ew.
    - intros line h L [W Bf].
      cbn [buffer_append wfile _headers_buffer set_headers_buffer].
      split; [exact W|]. apply Forall_app; split; [exact Bf|].
      now constructor.
    - intros b h [W Bf]. cbn [wfile_write wfile _headers_buffer set_wfile].
      split; [|exact Bf]. apply Forall_app; split; [exact W|].
      now constructor.
    - intros h [W Bf]. rewrite end_headers_eq.
      destruct (negb _); [|now split].
      cbn [wfile_write wfile _headers_buffer set_wfile set_headers_buffer].
      split; [|constructor].
      apply Forall_app; split; [exact W|]. constructor; [|constructor].
      now exists (_headers_buffer h).
    - intros v h H. exact H.
    - intros e h _ H. exact H.
    - split; constructor. }
  destruct (well_opened_handle P cwd request) as [v [E W]].
  unfold handled. rewrite E.
  fold (response P Server.end_headers cwd request) in W.
  split; [exact B|]. split; intros V; rewrite V in W; [|exact W].
  intros N. destruct W as [W | (lines & rest & W)]; [contradiction|].
  rewrite W in B |- *.
  inversion B as [|? ? C _]. cbn [cors_block] in C.
  destruct C as (pre & -> & Hpre). now exists pre, rest.
Qed.

Lemma cors_headers_close_every_header_block_witness :
  exists pre rest,
    response Example.P Server.end_headers Example.cwd
      (Example.request "GET /missing HTTP/1.1")
    = Headers (pre ++ cors_lines ++ [CRLF]) :: rest
    /\ Forall (fun l => is_cors l = false) pre.
Proof.
  apply (proj1 (proj2 (cors_headers_close_every_header_block
                         Example.P Example.cwd
                         (Example.request "GET /missing HTTP/1.1")))).
  - vm_compute. reflexivity.
  - vm_compute. discriminate.
Defined.

(** C1 as stated fails on a request line whose version is not accepted: the
    400 reply is sent while the request version is still HTTP/0.9, so it is
    the page alone, with no header block and none of the three headers. *)
Lemma bad_version_reply_carries_no_cors :
  response Example.P Server.end_headers Example.cwd
    (Example.request "GET / HTTP1.1")
  = [Body (error_page 400 "Bad request version ('HTTP1.1')")]
  /\ ~ carries_cors
         (response Example.P Server.end_headers Example.cwd
            (Example.request "GET / HTTP1.1")).
Proof.
  assert (E : response Example.P Server.end_headers Example.cwd
                (Example.request "GET / HTTP1.1")
              = [Body (error_page 400 "Bad request version ('HTTP1.1')")])
    by (vm_compute; reflexivity).
  split; [exact E|].
  rewrite E. intros (lines & [I|[]] & _). discriminate I.
Qed.

(** C2, as amended. A GET request for a path that resolves to no
    directory and to a file the operating system refuses to open, as it
    does when there is no such file, is answered with status 404 when the
    request is in a version of HTTP other than 0.9: the header block opens
    with the 404 status line and the error page follows. The same request
    in HTTP/0.9, a request line of two words, is answered with the error
    page alone. A path that cannot be given to the operating system at
    all makes [open] raise an exception the handler does not catch: the
    handler is left and the client gets no response. *)
Theorem get_missing_path_is_404 P cwd line p fields :
  isdir P (translate_path P cwd (request_path p)) = false ->
  (forall v,
     accepted line "GET" p v ->
     open P (translate_path P cwd (request_path p)) = Refused ->
     response P Server.end_headers cwd [Message line (Fields fields)]
     = [ Headers
           (status_line 404 "File not found"
              :: tl (error_headers P 404 "File not found")
              ++ cors_lines ++ [CRLF]);
         Body (error_page 404 "File not found") ])
  /\ ((len line <=? 65536)%Z = true ->
      split (rstrip_crlf line) = ["GET"%string; p] ->
      open P (translate_path P cwd (request_path p)) = Refused ->
      response P Server.end_headers cwd [Message line (Fields fields)]
      = [Body (error_page 404 "File not found")])
  /\ (forall v,
        accepted line "GET" p v ->
        endswith "/" (translate_path P cwd (request_path p)) = false ->
        (open P (translate_path P cwd (request_path p)) = Invalid ->
         response P Server.end_headers cwd [Message line (Fields fields)] = []
         /\ uncaught P Server.end_headers cwd [Message line (Fields fields)]
            = Some ValueError)
        /\ (open P (translate_path P cwd (request_path p)) = Unencodable ->
            response P Server.end_headers cwd [Message line (Fields fields)]
            = []
            /\ uncaught P Server.end_headers cwd
                 [Message line (Fields fields)]
               = Some UnicodeEncodeError)).
Proof.
  intros D. split; [|split].
  - intros v A O. now rewrite (get_unopenable P cwd line p v).
  - intros L W O. rewrite (response_simple P cwd line p) by assumption.
    unfold do_GET, send_head. cbn [directory path]. rewrite D.
    unfold send_head_file. rewrite O.
    destruct (endswith "/" _); now rewrite send_error_0_9.
  - intros v A S.
    pose proof (get_rejected P cwd line p v fields A D S) as R.
    unfold response, uncaught. fold (handled P Server.end_headers cwd
                                       [Message line (Fields fields)]).
    split; intros O; rewrite O in R; rewrite R; now split.
Qed.

Lemma get_missing_path_is_404_witness :
  accepted ("GET /missing HTTP/1.1" ++ CRLF)%string "GET" "/missing" "HTTP/1.1"
  /\ response Example.P Server.end_headers Example.cwd
       (Example.request "GET /missing HTTP/1.1")
     = [ Headers
           (status_line 404 "File not found"
              :: tl (error_headers Example.P 404 "File not found")
              ++ cors_lines ++ [CRLF]);
         Body (error_page 404 "File not found") ].
Proof.
  assert (A : accepted ("GET /missing HTTP/1.1" ++ CRLF)%string
                "GET" "/missing" "HTTP/1.1").
  { repeat split; try reflexivity. exists "1.1"%string, (1, 1)%Z. now split. }
  split; [exact A|].
  apply (proj1 (get_missing_path_is_404 Example.P Example.cwd _ "/missing"
                  [] eq_refl) "HTTP/1.1");
    [exact A | reflexivity].
Defined.

(** C2 as stated fails twice. The path [/missing] resolves to no file and
    no directory, and the GET request for it in HTTP/0.9 is answered with
    the error page alone: no status line, so no status 404. The path
    [/%00] resolves to none either, and the GET request for it gets no
    response at all: [open] raises [ValueError] on the null byte. *)
Lemma get_missing_path_without_status_404 :
  isdir Example.P "/srv/missing" = false
  /\ open Example.P "/srv/missing" = Refused
  /\ response Example.P Server.end_headers Example.cwd
       (Example.request "GET /missing")
     = [Body (error_page 404 "File not found")]
  /\ isdir Example.P (translate_path Example.P Example.cwd "/%00") = false
  /\ isfile Example.P (translate_path Example.P Example.cwd "/%00") = false
  /\ response Example.P Server.end_headers Example.cwd
       (Example.request "GET /%00 HTTP/1.1")
     = []
  /\ uncaught Example.P Server.end_headers Example.cwd
       (Example.request "GET /%00 HTTP/1.1")
     = Some ValueError.
Proof. repeat split; vm_compute; reflexivity. Qed.

(** C3. At startup the server changes the working directory to the
    directory that contains the program, then binds a TCP listener to port
    8000 on the wildcard address and listens, and only then serves. Every
    connection is handled by a handler whose document root is that
    directory, and the path of a request is resolved from there: the file
    a GET request is answered with is the one its path translates to
    under the directory of the program. *)
Theorem startup_binds_port_8000_in_program_directory P w :
  isdir P (dirname (program_file w)) = true ->
  in_use EmptyString PORT (bound w) = false ->
  (forall input,
     main P w input
     = [ Chdir (dirname (program_file w)); Socket; Bind EmptyString 8000;
         Listen 5; Print banner; Print "Press Ctrl+C to stop" ]
       ++ fst (serve_forever P Server.end_headers (dirname (program_file w))
                 input)
       ++ match snd (serve_forever P Server.end_headers
                       (dirname (program_file w)) input) with
          | Some _ => stopped
          | None => []
          end)
  /\ (forall request,
        directory (handled P Server.end_headers (dirname (program_file w))
                     request)
        = dirname (program_file w))
  /\ (forall line p v fields f,
        accepted line "GET" p v ->
        isdir P (translate_path P (dirname (program_file w)) (request_path p))
        = false ->
        endswith "/"
          (translate_path P (dirname (program_file w)) (request_path p))
        = false ->
        open P (translate_path P (dirname (program_file w)) (request_path p))
        = Opened f ->
        not_modified P fields f = false ->
        exists blocks,
          main P w [Connection [Message line (Fields fields)] None]
          = startup (dirname (program_file w))
            ++ Accept
               :: Send (Headers
                          (file_headers P
                             (translate_path P (dirname (program_file w))
                                (request_path p)) f
                           ++ cors_lines ++ [CRLF]))
               :: map Send (map Body blocks)
            ++ [Shutdown]
          /\ String.concat EmptyString blocks = f_data f).
Proof.
  intros D F. split; [|split].
  - intros input. now rewrite (main_started P w D F).
  - intros request. apply handle_keeps_directory.
  - intros line p v fields f A Dp S O N.
    rewrite (main_started P w D F). cbn [serve_forever].
    pose proof (served_raised P (dirname (program_file w))
                  [Message line (Fields fields)]) as E.
    unfold served in E.
    destruct (_handle_request_noblock P Server.end_headers
                (dirname (program_file w)) [Message line (Fields fields)]
                None) as [evs r] eqn:R.
    assert (Q : r = None).
    { change r with (snd (evs, r)). rewrite <- R.
      apply handle_request_quiet; [apply end_headers_raised | exact I]. }
    subst r. cbn [fst snd] in *. rewrite !app_nil_r. subst evs.
    unfold response, uncaught.
    fold (handled P Server.end_headers (dirname (program_file w))
            [Message line (Fields fields)]).
    rewrite (handled_accepted P _ line "GET" p v) by exact A.
    destruct A as (_ & _ & V9 & _).
    unfold method, do_GET, send_head, parsed.
    cbn [String.eqb Ascii.eqb Bool.eqb directory path]. rewrite Dp.
    rewrite (send_head_file_opened P _ _ _ _ _ _ _ _ V9 _ f) by assumption.
    unfold copyfile. rewrite raised_copyfileobj. cbn [raised app].
    match goal with |- context [copyfileobj ?n ?s ?h] =>
      destruct (copyfile_all s h) as (blocks & W & C) end.
    unfold copyfile in W. rewrite W. exists blocks.
    split; [reflexivity | exact C].
Qed.

Lemma startup_binds_port_8000_in_program_directory_witness :
  exists blocks,
    main Example.P Example.w
      [Connection (Example.request "GET /a.txt HTTP/1.1") None]
    = startup "/srv"
      ++ Accept
         :: Send (Headers
                    (file_headers Example.P "/srv/a.txt" (File "hello" 1)
                     ++ cors_lines ++ [CRLF]))
         :: map Send (map Body blocks)
      ++ [Shutdown]
    /\ String.concat EmptyString blocks = "hello"%string.
Proof.
  apply (proj2 (proj2 (startup_binds_port_8000_in_program_directory
                         Example.P Example.w eq_refl eq_refl))
           _ "/a.txt" "HTTP/1.1" [] (File "hello" 1));
    [ repeat split; try reflexivity; exists "1.1"%string, (1, 1)%Z; now split
    | reflexivity .. ].
Defined.

(** C4. If port 8000 cannot be bound because a socket already holds it, as
    when an instance of the server is running, the start fails at once: one
    attempt to bind, the socket closed, a traceback of the error on standard
    error, exit status 1; nothing is served, whatever comes in. *)
Theorem bind_failure_is_fatal P w input :
  isdir P (dirname (program_file w)) = true ->
  in_use EmptyString PORT (bound w) = true ->
  main P w input
  = [ Chdir (dirname (program_file w)); Socket;
      BindError EmptyString 8000 EADDRINUSE; Close;
      Traceback (OSError EADDRINUSE); Exit 1 ].
Proof. intros D U. now rewrite (main_port_in_use P w D). Qed.

Lemma bind_failure_is_fatal_witness :
  main Example.P Example.w_running
    [Connection (Example.request "GET / HTTP/1.1") None]
  = [ Chdir "/srv"; Socket; BindError EmptyString 8000 EADDRINUSE; Close;
      Traceback (OSError EADDRINUSE); Exit 1 ].
Proof.
  exact (bind_failure_is_fatal Example.P Example.w_running _ eq_refl eq_refl).
Defined.

(** C5, as amended. A failure of one request stays within the handling of
    that request: whatever comes in without an interrupt, the process does
    not exit, and each connection is served as if it were alone, so the
    accept loop goes on to the next one. Not every failure reaches the
    client as a status code. A GET request, in a version of HTTP other
    than 0.9, for a file the operating system refuses to open is answered
    with status 404. A request line of one word, or of three words and
    more of which the last is no version of HTTP, is answered with the
    page of error 400 alone, without a status line. An exception raised
    in the handler, by a path that cannot be given to the operating system
    or by the socket or the disk while the request is read or the response
    written, gives the client no status: what was written stays sent, the
    rest is not, a traceback goes to standard error and that connection
    only is closed. *)
Theorem request_failures_are_contained P w :
  isdir P (dirname (program_file w)) = true ->
  in_use EmptyString PORT (bound w) = false ->
  (forall input,
     Forall no_interrupt input ->
     main P w input
     = startup (dirname (program_file w))
       ++ flat_map (served P Server.end_headers (dirname (program_file w)))
            input)
  /\ (forall line p v fields,
        accepted line "GET" p v ->
        isdir P (translate_path P (dirname (program_file w)) (request_path p))
        = false ->
        open P (translate_path P (dirname (program_file w)) (request_path p))
        = Refused ->
        response P Server.end_headers (dirname (program_file w))
          [Message line (Fields fields)]
        = error_reply P 404 "File not found")
  /\ (forall line hl msg,
        bad_request_line P line = Some msg ->
        response P Server.end_headers (dirname (program_file w))
          [Message line hl]
        = [Body (error_page 400 msg)])
  /\ (forall request e,
        uncaught P Server.end_headers (dirname (program_file w)) request
        = Some e ->
        served P Server.end_headers (dirname (program_file w))
          (Connection request None)
        = Accept
          :: map Send (response P Server.end_headers
                         (dirname (program_file w)) request)
          ++ [Traceback e; Shutdown])
  /\ (forall line p v fields,
        accepted line "GET" p v ->
        isdir P (translate_path P (dirname (program_file w)) (request_path p))
        = false ->
        endswith "/"
          (translate_path P (dirname (program_file w)) (request_path p))
        = false ->
        open P (translate_path P (dirname (program_file w)) (request_path p))
        = Invalid ->
        served P Server.end_headers (dirname (program_file w))
          (Connection [Message line (Fields fields)] None)
        = [Accept; Traceback ValueError; Shutdown])
  /\ (forall request k errno,
        served P Server.end_headers (dirname (program_file w))
          (Connection request (Some (k, OSError errno)))
        = Accept
          :: map Send (firstn k (response P Server.end_headers
                                   (dirname (program_file w)) request))
          ++ [Traceback (OSError errno); Shutdown]).
Proof.
  intros D F. split; [|split; [|split; [|split; [|split]]]].
  - intros input Q. rewrite (main_started P w D F).
    rewrite serve_forever_quiet by (exact Q || apply end_headers_raised).
    cbn [fst snd]. now rewrite app_nil_r.
  - intros line p v fields. apply get_unopenable.
  - intros line hl msg. apply bad_request_line_reply.
  - intros request e U. rewrite served_raised, U. reflexivity.
  - intros line p v fields A Dp S O. rewrite served_raised.
    pose proof (get_rejected P _ line p v fields A Dp S) as R.
    rewrite O in R. unfold response, uncaught.
    fold (handled P Server.end_headers (dirname (program_file w))
            [Message line (Fields fields)]).
    rewrite R. reflexivity.
  - intros request k errno. apply served_struck.
Qed.

Lemma request_failures_are_contained_witness :
  main Example.P Example.w
    [ Connection (Example.request "GET /missing HTTP/1.1") None;
      Connection (Example.request "GET") None;
      Connection (Example.request "GET /%00 HTTP/1.1") None;
      Connection (Example.request "GET /a.txt HTTP/1.1")
        (Some (1, OSError 32));
      Connection [] (Some (0, OSError 104));
      Connection (Example.request "GET /a.txt HTTP/1.1") None ]
  = startup "/srv"
    ++ flat_map (served Example.P Server.end_headers "/srv")
         [ Connection (Example.request "GET /missing HTTP/1.1") None;
           Connection (Example.request "GET") None;
           Connection (Example.request "GET /%00 HTTP/1.1") None;
           Connection (Example.request "GET /a.txt HTTP/1.1")
             (Some (1, OSError 32));
           Connection [] (Some (0, OSError 104));
           Connection (Example.request "GET /a.txt HTTP/1.1") None ].
Proof.
  apply (proj1 (request_failures_are_contained Example.P Example.w
                  eq_refl eq_refl)).
  repeat constructor.
Defined.

(** C5 as stated fails on a malformed request line: the request line [GET]
    is answered with the page of error 400 and nothing else; no status
    line, hence no HTTP status code, reaches the client. *)
Lemma malformed_request_line_gets_no_status_line :
  response Example.P Server.end_headers Example.cwd (Example.request "GET")
  = [Body (error_page 400 "Bad request syntax ('GET')")]
  /\ Forall (fun w => is_headers w = false)
       (response Example.P Server.end_headers Example.cwd
          (Example.request "GET")).
Proof. split; vm_compute; repeat constructor. Qed.

(** C6. Once the server has started, an interrupt signal, whether it
    arrives while the server waits for a connection or while it handles a
    request, whatever the handler is doing then, makes the process print
    the stopped message and then exit with status 0. *)
Theorem interrupt_stops_with_status_0 P w input :
  isdir P (dirname (program_file w)) = true ->
  in_use EmptyString PORT (bound w) = false ->
  Exists interrupts input ->
  exists evs,
    main P w input
    = startup (dirname (program_file w)) ++ evs
      ++ [Print (String LF "Server stopped"); Close; Exit 0].
Proof.
  intros D F I. rewrite (main_started P w D F).
  rewrite (serve_forever_interrupted P Server.end_headers _ input I).
  now eexists.
Qed.

Lemma interrupt_stops_with_status_0_witness :
  exists evs,
    main Example.P Example.w
      [Connection (Example.request "GET /a.txt HTTP/1.1") None;
       Connection [] (Some (0, KeyboardInterrupt));
       Connection (Example.request "GET /a.txt HTTP/1.1") None]
    = startup "/srv" ++ evs
      ++ [Print (String LF "Server stopped"); Close; Exit 0].
Proof.
  apply (interrupt_stops_with_status_0 Example.P Example.w _ eq_refl eq_refl).
  apply Exists_cons_tl, Exists_cons_hd. exact I.
Defined.

(** C7, as amended. GET and HEAD are served by the static file handler's
    [do_GET] and [do_HEAD]; a request with any other method, OPTIONS and
    POST among them, is answered with status 501, Unsupported method, in a
    reply that carries the three CORS headers. *)
Theorem other_methods_are_unsupported P cwd line c p v fields :
  accepted line c p v ->
  response P Server.end_headers cwd [Message line (Fields fields)]
  = if c =? "GET"
    then wfile (do_GET P Server.end_headers (parsed cwd line c p v fields))
    else if c =? "HEAD"
    then wfile (do_HEAD P Server.end_headers (parsed cwd line c p v fields))
    else error_reply P 501 ("Unsupported method (" ++ repr P c ++ ")")%string.
Proof.
  intros A. rewrite (response_accepted P cwd line c p v) by exact A.
  destruct A as (_ & _ & V9 & _).
  unfold method.
  destruct (c =? "GET"); [reflexivity|].
  destruct (c =? "HEAD") eqn:H; [reflexivity|].
  unfold parsed.
  rewrite (send_error_on P cwd [] line (rstrip_crlf line) v);
    [reflexivity | exact V9 | reflexivity |].
  unfold not_head; cbn [command]. now rewrite H.
Qed.

Lemma other_methods_are_unsupported_witness :
  accepted ("DELETE /a.txt HTTP/1.1" ++ CRLF)%string
    "DELETE" "/a.txt" "HTTP/1.1"
  /\ response Example.P Server.end_headers Example.cwd
       (Example.request "DELETE /a.txt HTTP/1.1")
     = error_reply Example.P 501 "Unsupported method ('DELETE')".
Proof.
  assert (A : accepted ("DELETE /a.txt HTTP/1.1" ++ CRLF)%string
                "DELETE" "/a.txt" "HTTP/1.1").
  { repeat split; try reflexivity. exists "1.1"%string, (1, 1)%Z. now split. }
  split; [exact A|].
  exact (other_methods_are_unsupported Example.P Example.cwd _ _ _ _ [] A).
Defined.

(** C7 as stated fails: an OPTIONS request, and a POST request, is
    rejected as unsupported, with status 501. *)
Lemma options_and_post_are_rejected :
  response Example.P Server.end_headers Example.cwd
    (Example.request "OPTIONS /a.txt HTTP/1.1")
  = error_reply Example.P 501 "Unsupported method ('OPTIONS')"
  /\ response Example.P Server.end_headers Example.cwd
       (Example.request "POST /a.txt HTTP/1.1")
     = error_reply Example.P 501 "Unsupported method ('POST')".
Proof. split; vm_compute; reflexivity. Qed.

(** C8, as amended. For a directory under the document root that holds no
    index file and whose entries can be read, a GET request, in a version
    of HTTP other than 0.9, for the directory's path written with its
    final slash is answered with status 200 and a generated listing: a
    page with one entry for each immediate child, a link to the child
    under its name, provided the file system encoding has bytes for the
    page. For the path written without the final slash the request is
    answered with status 301, a redirection to the path with the slash. A
    request target that [urlsplit] cannot parse makes it raise
    [ValueError], which leaves the handler: the client gets no
    response. *)
Theorem get_directory_lists_children P cwd line p v fields :
  accepted line "GET" p v ->
  isdir P (translate_path P cwd (request_path p)) = true ->
  (forall u names,
     urlsplit P (request_path p) = Some u ->
     endswith "/" u = true ->
     isfile P (path_join (translate_path P cwd (request_path p)) "index.html")
     = false ->
     isfile P (path_join (translate_path P cwd (request_path p)) "index.htm")
     = false ->
     listdir P (translate_path P cwd (request_path p)) = Some names ->
     (forall sorted,
        Permutation sorted names ->
        encodable P
          (listing_page P (request_path p)
             (map (entry P (translate_path P cwd (request_path p))) sorted))
        = true) ->
     exists sorted blocks,
       Permutation sorted names
       /\ response P Server.end_headers cwd [Message line (Fields fields)]
          = Headers
              (listing_headers P
                 (listing_page P (request_path p)
                    (map (entry P (translate_path P cwd (request_path p)))
                       sorted))
               ++ cors_lines ++ [CRLF])
            :: map Body blocks
       /\ String.concat EmptyString blocks
          = listing_page P (request_path p)
              (map (entry P (translate_path P cwd (request_path p))) sorted))
  /\ (forall u,
        urlsplit P (request_path p) = Some u ->
        endswith "/" u = false ->
        response P Server.end_headers cwd [Message line (Fields fields)]
        = [Headers
             (redirect_headers P (request_path p) ++ cors_lines ++ [CRLF])])
  /\ (urlsplit P (request_path p) = None ->
      response P Server.end_headers cwd [Message line (Fields fields)] = []
      /\ uncaught P Server.end_headers cwd [Message line (Fields fields)]
         = Some ValueError).
Proof.
  intros A D. split; [|split].
  - intros u names U S I1 I2 L C.
    rewrite (response_accepted P cwd line "GET" p v) by exact A.
    pose proof (sort_perm P names) as Pm.
    specialize (C _ Pm). rewrite <- listing_is_page in C.
    rewrite (get_directory_listing P cwd line p v fields names u)
      by assumption.
    rewrite listing_is_page.
    match goal with |- context [copyfile ?s ?h] =>
      destruct (copyfile_all s h) as (blocks & W & E) end.
    exists (sort P names), blocks. split; [exact Pm|].
    split; [exact W | exact E].
  - intros u U S.
    rewrite (response_accepted P cwd line "GET" p v) by exact A.
    now apply (get_directory_redirect P cwd line p v fields u).
  - intros U. unfold response, uncaught.
    fold (handled P Server.end_headers cwd [Message line (Fields fields)]).
    rewrite (handled_accepted P cwd line "GET" p v) by exact A.
    unfold method, do_GET, send_head, parsed.
    cbn [String.eqb Ascii.eqb Bool.eqb directory path]. rewrite D, U.
    now split.
Qed.

Lemma get_directory_lists_children_witness :
  (accepted ("GET /sub/ HTTP/1.1" ++ CRLF)%string "GET" "/sub/" "HTTP/1.1"
   /\ exists sorted blocks,
        Permutation sorted ["b.txt"%string]
        /\ response Example.P Server.end_headers Example.cwd
             (Example.request "GET /sub/ HTTP/1.1")
           = Headers
               (listing_headers Example.P
                  (listing_page Example.P "/sub/"
                     (map (entry Example.P "/srv/sub/") sorted))
                ++ cors_lines ++ [CRLF])
             :: map Body blocks
        /\ String.concat EmptyString blocks
           = listing_page Example.P "/sub/"
               (map (entry Example.P "/srv/sub/") sorted))
  /\ (isdir Example.P
        (translate_path Example.P Example.cwd "http://[x/../..") = true
      /\ response Example.P Server.end_headers Example.cwd
           (Example.request "GET http://[x/../.. HTTP/1.1") = []
      /\ uncaught Example.P Server.end_headers Example.cwd
           (Example.request "GET http://[x/../.. HTTP/1.1")
         = Some ValueError).
Proof.
  assert (A : accepted ("GET /sub/ HTTP/1.1" ++ CRLF)%string
                "GET" "/sub/" "HTTP/1.1").
  { repeat split; try reflexivity. exists "1.1"%string, (1, 1)%Z. now split. }
  assert (B : accepted ("GET http://[x/../.. HTTP/1.1" ++ CRLF)%string
                "GET" "http://[x/../.." "HTTP/1.1").
  { repeat split; try reflexivity. exists "1.1"%string, (1, 1)%Z. now split. }
  split; [split; [exact A|] | split; [reflexivity|]].
  - apply (proj1 (get_directory_lists_children Example.P Example.cwd _
                    "/sub/" "HTTP/1.1" [] A eq_refl)
             "/sub/" ["b.txt"%string]);
      reflexivity.
  - apply (proj2 (proj2 (get_directory_lists_children Example.P Example.cwd
                           _ "http://[x/../.." "HTTP/1.1" [] B eq_refl))).
    reflexivity.
Defined.

(** C8 as stated fails on a directory's path written without the final
    slash: [/srv/sub] is a directory without an index file, and the GET for
    [/sub] is answered with status 301 and no listing. *)
Lemma get_directory_without_slash_redirects :
  isdir Example.P "/srv/sub" = true
  /\ isfile Example.P "/srv/sub/index.html" = false
  /\ isfile Example.P "/srv/sub/index.htm" = false
  /\ response Example.P Server.end_headers Example.cwd
       (Example.request "GET /sub HTTP/1.1")
     = [Headers (status_line 301 "Moved Permanently"
                   :: tl (redirect_headers Example.P "/sub")
                   ++ cors_lines ++ [CRLF])].
Proof. repeat split; vm_compute; reflexivity. Qed.

(** C9, as amended. When the interrupt arrives while a request is in
    flight, the handling of that request is abandoned where it stands:
    what it had written is sent, the rest of the response is not, and the
    connection is shut down; the server accepts nothing that comes in
    later, prints the shutdown notice and exits with status 0. *)
Theorem interrupt_in_flight_abandons_request P w pre request k post :
  isdir P (dirname (program_file w)) = true ->
  in_use EmptyString PORT (bound w) = false ->
  Forall no_interrupt pre ->
  main P w (pre ++ Connection request (Some (k, KeyboardInterrupt)) :: post)
  = startup (dirname (program_file w))
    ++ flat_map (served P Server.end_headers (dirname (program_file w))) pre
    ++ Accept
       :: map Send
            (firstn k (response P Server.end_headers
                         (dirname (program_file w)) request))
    ++ Shutdown :: stopped.
Proof.
  intros D F Q. rewrite (main_started P w D F).
  rewrite serve_forever_app by (exact Q || apply end_headers_raised).
  cbn [serve_forever fst snd].
  rewrite handle_request_in_flight.
  cbn [fst snd]. rewrite <- !app_assoc. cbn [app]. now rewrite <- app_assoc.
Qed.

Lemma interrupt_in_flight_abandons_request_witness :
  main Example.P Example.w
    [Connection (Example.request "GET /a.txt HTTP/1.1")
       (Some (1, KeyboardInterrupt));
     Connection (Example.request "GET /a.txt HTTP/1.1") None]
  = startup "/srv"
    ++ Accept
       :: map Send
            (firstn 1 (response Example.P Server.end_headers "/srv"
                         (Example.request "GET /a.txt HTTP/1.1")))
    ++ Shutdown :: stopped.
Proof.
  apply (interrupt_in_flight_abandons_request Example.P Example.w []
           (Example.request "GET /a.txt HTTP/1.1") 1 _ eq_refl eq_refl).
  constructor.
Defined.

(** C9 as stated fails: the interrupt arrives when the handler has written
    the header block of the response to [GET /a.txt]; the body, which the
    complete response has, is never sent, and the process stops. *)
Lemma interrupt_in_flight_cuts_the_response :
  In (Body "hello")
     (response Example.P Server.end_headers "/srv"
        (Example.request "GET /a.txt HTTP/1.1"))
  /\ ~ In (Send (Body "hello"))
         (main Example.P Example.w
            [Connection (Example.request "GET /a.txt HTTP/1.1")
               (Some (1, KeyboardInterrupt))])
  /\ last (main Example.P Example.w
              [Connection (Example.request "GET /a.txt HTTP/1.1")
                 (Some (1, KeyboardInterrupt))]) Accept
     = Exit 0.
Proof.
  split; [vm_compute; auto|]. split.
  - vm_compute. intros H.
    repeat (destruct H as [H|H]; [discriminate H|]). exact H.
  - vm_compute. reflexivity.
Qed.

(** C10. For every request, the response of the handler of [server.py] is
    the response of the default handler, [SimpleHTTPRequestHandler], with
    the three CORS header lines added to each header block: status lines,
    bodies and every other header are the same. *)
Theorem response_is_default_response_with_cors_added P cwd request :
  response P Server.end_headers cwd request
  = with_cors_added
      (response P BaseHTTPRequestHandler_end_headers cwd request).
Proof.
  unfold response.
  change (setup cwd request) with (decorate (setup cwd request)) at 1.
  now rewrite (dec_handle P _ _ dec_end_headers).
Qed.

(* ================================================================== *)
(** ** Further properties: the replies to GET and HEAD *)
(* ================================================================== *)


Lemma rev_string_app a : forall b acc,
  rev_string (a ++ b)%string acc = rev_string b (rev_string a acc).
Proof.
  induction a as [|c a IH]; intros b acc; cbn; [reflexivity | apply IH].
Qed.

Lemma endswith_app p a b :
  endswith p (a ++ b)%string
  = String.prefix (rev_string p EmptyString)
      (rev_string b (rev_string a EmptyString)).
Proof. unfold endswith. now rewrite rev_string_app. Qed.

(** The path of an index file does not end with a slash. *)
Lemma index_no_slash d index :
  index = "index.html"%string \/ index = "index.htm"%string ->
  endswith "/" (path_join d index) = false.
Proof.
  intros [-> | ->]; unfold path_join;
    match goal with |- context [startswith ?a ?b] =>
      replace (startswith a b) with false by reflexivity end;
    destruct (_ || _)%bool; rewrite ?endswith_app; reflexivity.
Qed.

Lemma filter_bodies blocks : filter is_headers (map Body blocks) = [].
Proof. induction blocks; [reflexivity | assumption]. Qed.

(** What [do_HEAD] writes to a HEAD request and what [do_GET] writes to the
    GET request for the same path, in the same version and with the same
    header fields. *)
Section HeadAndGet.

Variable P : platform.
Variables (cwd lineH lineG v p : string) (fields : list (string * string)).
Hypothesis V9 : (v =? "HTTP/0.9") = false.

#[local] Abbreviation on_head :=
  (Handler cwd [] lineH (rstrip_crlf lineH) v (Some "HEAD"%string)
     (request_path p) fields None true [] []).
#[local] Abbreviation on_get :=
  (Handler cwd [] lineG (rstrip_crlf lineG) v (Some "GET"%string)
     (request_path p) fields None true [] []).

Lemma head_error code message :
  has_body code = true ->
  wfile (send_error P Server.end_headers code (Some message) None on_head)
  = filter is_headers
      (wfile (send_error P Server.end_headers code (Some message) None
                on_get)).
Proof.
  intros B.
  rewrite send_error_head_on, send_error_on
    by first [exact V9 | assumption | reflexivity].
  reflexivity.
Qed.

Lemma head_file path_ :
  wfile (snd (send_head_file P Server.end_headers path_ on_head))
  = filter is_headers
      (wfile (match send_head_file P Server.end_headers path_ on_get with
              | (Some f, h) => copyfile f h
              | (None, h) => h
              end)).
Proof.
  destruct (endswith "/" path_) eqn:S;
    [unfold send_head_file; rewrite S; cbn [snd]; now apply head_error|].
  destruct (open P path_) as [f| | |] eqn:O;
    [ | unfold send_head_file; rewrite S, O; cbn [snd]; now apply head_error
      | unfold send_head_file; rewrite S, O; reflexivity
      | unfold send_head_file; rewrite S, O; reflexivity ].
  destruct (not_modified P fields f) eqn:N.
  - now rewrite !(send_head_file_not_modified P _ _ _ _ _ _ _ _ V9 path_ f)
      by assumption.
  - rewrite !(send_head_file_opened P _ _ _ _ _ _ _ _ V9 path_ f)
      by assumption.
    match goal with |- context [copyfile ?s ?h] =>
      destruct (copyfile_all s h) as (blocks & W & _) end.
    rewrite W. cbn [snd wfile app filter is_headers].
    now rewrite filter_bodies.
Qed.

Lemma head_listing path_ :
  wfile (snd (list_directory P Server.end_headers path_ on_head))
  = filter is_headers
      (wfile (match list_directory P Server.end_headers path_ on_get with
              | (Some f, h) => copyfile f h
              | (None, h) => h
              end)).
Proof.
  unfold list_directory.
  destruct (listdir P path_) as [names|]; [|cbn [snd]; now apply head_error].
  cbn [path]. destruct (negb (encodable P _)); [reflexivity|].
  rewrite !send_response_default_on by exact V9.
  rewrite !send_header_on by first [exact V9 | reflexivity].
  rewrite !end_headers_on by exact V9.
  match goal with |- context [copyfile ?s ?h] =>
    destruct (copyfile_all s h) as (blocks & W & _) end.
  rewrite W. cbn [snd wfile app filter is_headers].
  now rewrite filter_bodies.
Qed.

Lemma head_is_get_headers :
  wfile (do_HEAD P Server.end_headers on_head)
  = filter is_headers (wfile (do_GET P Server.end_headers on_get)).
Proof.
  unfold do_HEAD, do_GET, send_head. cbn [directory path].
  set (d := translate_path P cwd (request_path p)).
  destruct (isdir P d); [|apply head_file].
  destruct (urlsplit P (request_path p)) as [parts_path|]; [|reflexivity].
  destruct (negb (endswith "/" parts_path)).
  - rewrite !send_response_default_on by exact V9.
    rewrite !send_header_on by first [exact V9 | reflexivity].
    rewrite !end_headers_on by exact V9.
    reflexivity.
  - destruct (isfile P (path_join d "index.html")); [apply head_file|].
    destruct (isfile P (path_join d "index.htm")); [apply head_file|].
    apply head_listing.
Qed.

(** Every reply of [do_GET] is framed, unless the handler raises before
    it has written anything. *)
#[local] Abbreviation replied h :=
  ((raised h <> None /\ wfile h = [])
   \/ (raised h = None /\ framed (wfile h))).

Lemma error_framed code message :
  has_body code = true ->
  replied (send_error P Server.end_headers code (Some message) None on_get).
Proof.
  intros B.
  rewrite send_error_on by first [exact V9 | assumption | reflexivity].
  right. split; [reflexivity|].
  eexists _, [error_page code message]. split; [reflexivity|].
  left. cbn [String.concat]. unfold error_headers. cbn. auto 10.
Qed.

Lemma file_framed path_ :
  replied (match send_head_file P Server.end_headers path_ on_get with
           | (Some f, h) => copyfile f h
           | (None, h) => h
           end).
Proof.
  destruct (endswith "/" path_) eqn:S;
    [unfold send_head_file; rewrite S; now apply error_framed|].
  destruct (open P path_) as [f| | |] eqn:O;
    [ | unfold send_head_file; rewrite S, O; now apply error_framed
      | left; unfold send_head_file; rewrite S, O; now split
      | left; unfold send_head_file; rewrite S, O; now split ].
  right. destruct (not_modified P fields f) eqn:N.
  - rewrite !(send_head_file_not_modified P _ _ _ _ _ _ _ _ V9 path_ f)
      by assumption.
    split; [reflexivity|].
    eexists _, []. split; [reflexivity|]. right. now split.
  - rewrite !(send_head_file_opened P _ _ _ _ _ _ _ _ V9 path_ f)
      by assumption.
    split; [unfold copyfile; now rewrite raised_copyfileobj|].
    match goal with |- context [copyfile ?s ?h] =>
      destruct (copyfile_all s h) as (blocks & W & C) end.
    rewrite W. eexists _, blocks. split; [reflexivity|].
    left. rewrite C. unfold file_headers. cbn. auto 10.
Qed.

Lemma listing_framed path_ :
  replied (match list_directory P Server.end_headers path_ on_get with
           | (Some f, h) => copyfile f h
           | (None, h) => h
           end).
Proof.
  unfold list_directory.
  destruct (listdir P path_) as [names|]; [|now apply error_framed].
  cbn [path]. destruct (negb (encodable P _)); [left; now split|].
  rewrite !send_response_default_on by exact V9.
  rewrite !send_header_on by first [exact V9 | reflexivity].
  rewrite !end_headers_on by exact V9.
  right. split; [unfold copyfile; now rewrite raised_copyfileobj|].
  match goal with |- context [copyfile ?s ?h] =>
    destruct (copyfile_all s h) as (blocks & W & C) end.
  rewrite W. eexists _, blocks. split; [reflexivity|].
  left. rewrite C. cbn. auto 10.
Qed.

Lemma get_framed : replied (do_GET P Server.end_headers on_get).
Proof.
  unfold do_GET, send_head. cbn [directory path].
  set (d := translate_path P cwd (request_path p)).
  destruct (isdir P d); [|apply file_framed].
  destruct (urlsplit P (request_path p)) as [parts_path|];
    [|left; now split].
  destruct (negb (endswith "/" parts_path)).
  - rewrite !send_response_default_on by exact V9.
    rewrite !send_header_on by first [exact V9 | reflexivity].
    rewrite !end_headers_on by exact V9.
    right. split; [reflexivity|].
    eexists _, []. split; [reflexivity|]. left. cbn. auto 10.
  - destruct (isfile P (path_join d "index.html")); [apply file_framed|].
    destruct (isfile P (path_join d "index.htm")); [apply file_framed|].
    apply listing_framed.
Qed.

End HeadAndGet.

(** The request lines of the examples. *)
Ltac version_1_1 :=
  repeat split; try reflexivity;
  exists "1.1"%string, (1, 1)%Z; now split.

(** X1. A GET request, in a version of HTTP other than 0.9, for a path that
    resolves to a file that can be opened, and that is not answered from
    the client's cache, is answered with status 200: one header block with
    the type, the length and the modification date of the file, closed by
    the three CORS lines, and then the bytes of the file, all of them, in
    order. *)
Theorem get_file_is_served P cwd line p v fields f :
  accepted line "GET" p v ->
  isdir P (translate_path P cwd (request_path p)) = false ->
  endswith "/" (translate_path P cwd (request_path p)) = false ->
  open_rb P (translate_path P cwd (request_path p)) = Some f ->
  not_modified P fields f = false ->
  exists blocks,
    response P Server.end_headers cwd [Message line (Fields fields)]
    = Headers (file_headers P (translate_path P cwd (request_path p)) f
               ++ cors_lines ++ [CRLF])
      :: map Body blocks
    /\ String.concat EmptyString blocks = f_data f.
Proof.
  intros A D S O N. apply open_rb_Some in O.
  rewrite (response_accepted P cwd line "GET" p v) by exact A.
  destruct A as (_ & _ & V9 & _).
  unfold method, do_GET, send_head, parsed.
  cbn [String.eqb Ascii.eqb Bool.eqb directory path]. rewrite D.
  rewrite (send_head_file_opened P _ _ _ _ _ _ _ _ V9 _ f) by assumption.
  match goal with |- context [copyfile ?s ?h] =>
    destruct (copyfile_all s h) as (blocks & W & C) end.
  exists blocks. split; [exact W | exact C].
Qed.

Lemma get_file_is_served_witness :
  exists blocks,
    response Example.P Server.end_headers Example.cwd
      (Example.request "GET /a.txt HTTP/1.1")
    = Headers (file_headers Example.P "/srv/a.txt" (File "hello" 1)
               ++ cors_lines ++ [CRLF])
      :: map Body blocks
    /\ String.concat EmptyString blocks = "hello"%string.
Proof.
  apply (get_file_is_served Example.P Example.cwd _ "/a.txt" "HTTP/1.1" []
           (File "hello" 1));
    [version_1_1 | reflexivity ..].
Defined.

(** X2. A GET request for such a file that carries [If-Modified-Since]
    with a date not before the modification time of the file, and no
    [If-None-Match], is answered with status 304 and no body; the header
    block is closed by the three CORS lines. *)
Theorem get_fresh_file_is_not_modified P cwd line p v fields f :
  accepted line "GET" p v ->
  isdir P (translate_path P cwd (request_path p)) = false ->
  endswith "/" (translate_path P cwd (request_path p)) = false ->
  open_rb P (translate_path P cwd (request_path p)) = Some f ->
  not_modified P fields f = true ->
  response P Server.end_headers cwd [Message line (Fields fields)]
  = [Headers (not_modified_headers P ++ cors_lines ++ [CRLF])].
Proof.
  intros A D S O N. apply open_rb_Some in O.
  rewrite (response_accepted P cwd line "GET" p v) by exact A.
  destruct A as (_ & _ & V9 & _).
  unfold method, do_GET, send_head, parsed.
  cbn [String.eqb Ascii.eqb Bool.eqb directory path]. rewrite D.
  now rewrite (send_head_file_not_modified P _ _ _ _ _ _ _ _ V9 _ f)
    by assumption.
Qed.

Lemma get_fresh_file_is_not_modified_witness :
  response Example.site Server.end_headers Example.cwd
    (Example.request_with "GET /a.txt HTTP/1.1"
       [("If-Modified-Since"%string, "Wed, 04 Nov 2026 09:00:00 GMT"%string)])
  = [Headers (not_modified_headers Example.site ++ cors_lines ++ [CRLF])].
Proof.
  apply (get_fresh_file_is_not_modified Example.site Example.cwd _ "/a.txt"
           "HTTP/1.1" _ (File "hello" 1));
    [version_1_1 | reflexivity ..].
Defined.

(** X3. A GET request for a directory, written with its final slash, that
    holds a file [index.html], or else [index.htm], is answered with that
    file, as a request for the file itself is: status 200, its headers and
    the three CORS lines, then its bytes. No listing is made. *)
Theorem get_directory_serves_index P cwd line p v fields f :
  let d := translate_path P cwd (request_path p) in
  let index :=
    path_join d (if isfile P (path_join d "index.html")
                 then "index.html" else "index.htm") in
  accepted line "GET" p v ->
  isdir P d = true ->
  endswith "/" (urlsplit_path P (request_path p)) = true ->
  isfile P index = true ->
  open_rb P index = Some f ->
  not_modified P fields f = false ->
  exists blocks,
    response P Server.end_headers cwd [Message line (Fields fields)]
    = Headers (file_headers P index f ++ cors_lines ++ [CRLF])
      :: map Body blocks
    /\ String.concat EmptyString blocks = f_data f.
Proof.
  intros d index A D S I O N. apply open_rb_Some in O.
  apply urlsplit_path_slash in S. destruct S as (u & U & S).
  rewrite (response_accepted P cwd line "GET" p v) by exact A.
  destruct A as (_ & _ & V9 & _).
  unfold method, do_GET, send_head, parsed.
  cbn [String.eqb Ascii.eqb Bool.eqb directory path]. fold d.
  rewrite D, U, S. cbn [negb].
  assert (Es : endswith "/" index = false).
  { apply index_no_slash.
    destruct (isfile P (path_join d "index.html")); auto. }
  match goal with
  | |- context [if _ then ?a else if _ then ?b else ?c] =>
      assert (R : (if isfile P (path_join d "index.html") then a
                   else if isfile P (path_join d "index.htm") then b else c)
                  = send_head_file P Server.end_headers index
                      (Handler cwd [] line (rstrip_crlf line) v
                         (Some "GET"%string) (request_path p) fields None true
                         [] []))
  end.
  { subst index.
    destruct (isfile P (path_join d "index.html")); [reflexivity|].
    now rewrite I. }
  rewrite R.
  rewrite (send_head_file_opened P _ _ _ _ _ _ _ _ V9 _ f) by assumption.
  match goal with |- context [copyfile ?s ?h] =>
    destruct (copyfile_all s h) as (blocks & W & C) end.
  exists blocks. split; [exact W | exact C].
Qed.

Lemma get_directory_serves_index_witness :
  exists blocks,
    response Example.site Server.end_headers Example.cwd
      (Example.request "GET / HTTP/1.1")
    = Headers (file_headers Example.site "/srv/index.html"
                 (File "<h1>screamer</h1>" 4)
               ++ cors_lines ++ [CRLF])
      :: map Body blocks
    /\ String.concat EmptyString blocks = "<h1>screamer</h1>"%string.
Proof.
  apply (get_directory_serves_index Example.site Example.cwd _ "/"
           "HTTP/1.1" [] (File "<h1>screamer</h1>" 4));
    [version_1_1 | reflexivity ..].
Defined.

(** X4. A GET request for the path, written with its final slash, of a
    directory without an index file whose entries cannot be read is
    answered with status 404, No permission to list directory, in the
    reply of an error: header block with the three CORS lines, then the
    page. *)
Theorem get_unlistable_directory_is_404 P cwd line p v fields :
  let d := translate_path P cwd (request_path p) in
  accepted line "GET" p v ->
  isdir P d = true ->
  endswith "/" (urlsplit_path P (request_path p)) = true ->
  isfile P (path_join d "index.html") = false ->
  isfile P (path_join d "index.htm") = false ->
  listdir P d = None ->
  response P Server.end_headers cwd [Message line (Fields fields)]
  = error_reply P 404 "No permission to list directory".
Proof.
  intros d A D S I1 I2 L.
  apply urlsplit_path_slash in S. destruct S as (u & U & S).
  rewrite (response_accepted P cwd line "GET" p v) by exact A.
  destruct A as (_ & _ & V9 & _).
  unfold method, do_GET, send_head, parsed.
  cbn [String.eqb Ascii.eqb Bool.eqb directory path]. fold d.
  rewrite D, U, S, I1, I2. cbn [negb]. unfold list_directory. rewrite L.
  now rewrite (send_error_on P cwd [] line (rstrip_crlf line) v).
Qed.

Lemma get_unlistable_directory_is_404_witness :
  response Example.site Server.end_headers Example.cwd
    (Example.request "GET /sub/ HTTP/1.1")
  = error_reply Example.site 404 "No permission to list directory".
Proof.
  apply (get_unlistable_directory_is_404 Example.site Example.cwd _ "/sub/"
           "HTTP/1.1" []);
    [version_1_1 | reflexivity ..].
Defined.

(** X5. The response to a HEAD request is the response to the GET request
    for the same path, in the same version of HTTP (other than 0.9) and with
    the same header fields, without its body: the same header blocks, the
    three CORS lines included, and nothing else. This holds for files,
    directories, redirections and errors alike. *)
Theorem head_is_get_without_body P cwd line line' p v fields :
  accepted line "HEAD" p v ->
  accepted line' "GET" p v ->
  response P Server.end_headers cwd [Message line (Fields fields)]
  = filter is_headers
      (response P Server.end_headers cwd [Message line' (Fields fields)]).
Proof.
  intros AH AG.
  rewrite (response_accepted P cwd line "HEAD" p v) by exact AH.
  rewrite (response_accepted P cwd line' "GET" p v) by exact AG.
  destruct AH as (_ & _ & V9 & _).
  unfold method, parsed. cbn [String.eqb Ascii.eqb Bool.eqb].
  now apply head_is_get_headers.
Qed.

Lemma head_is_get_without_body_witness :
  response Example.P Server.end_headers Example.cwd
    (Example.request "HEAD /a.txt HTTP/1.1")
  = filter is_headers
      (response Example.P Server.end_headers Example.cwd
         (Example.request "GET /a.txt HTTP/1.1")).
Proof.
  apply (head_is_get_without_body Example.P Example.cwd _ _ "/a.txt"
           "HTTP/1.1" []); version_1_1.
Defined.

(** X6. The response to a GET request, in a version of HTTP other than
    0.9, is one header block followed by the pieces of the body, if any,
    and the [Content-Length] header of the block is the number of bytes of
    the body; only the 304 reply, which has no body, has no such header.
    The one other outcome is that the handler raises an exception, and
    then it has sent nothing. *)
Theorem content_length_is_body_length P cwd line p v fields :
  accepted line "GET" p v ->
  (uncaught P Server.end_headers cwd [Message line (Fields fields)] <> None
   /\ response P Server.end_headers cwd [Message line (Fields fields)] = [])
  \/ (uncaught P Server.end_headers cwd [Message line (Fields fields)] = None
      /\ exists lines blocks,
           response P Server.end_headers cwd [Message line (Fields fields)]
           = Headers lines :: map Body blocks
           /\ (In (header_line "Content-Length"
                     (str (len (String.concat EmptyString blocks)))) lines
               \/ (blocks = []
                   /\ hd EmptyString lines
                      = status_line 304 "Not Modified"))).
Proof.
  intros A. unfold uncaught, response.
  fold (handled P Server.end_headers cwd [Message line (Fields fields)]).
  rewrite (handled_accepted P cwd line "GET" p v) by exact A.
  destruct A as (_ & _ & V9 & _).
  unfold method, parsed. cbn [String.eqb Ascii.eqb Bool.eqb].
  now apply get_framed.
Qed.

Lemma content_length_is_body_length_witness :
  (uncaught Example.P Server.end_headers Example.cwd
     (Example.request "GET /missing HTTP/1.1") <> None
   /\ response Example.P Server.end_headers Example.cwd
        (Example.request "GET /missing HTTP/1.1") = [])
  \/ (uncaught Example.P Server.end_headers Example.cwd
        (Example.request "GET /missing HTTP/1.1") = None
      /\ exists lines blocks,
           response Example.P Server.end_headers Example.cwd
             (Example.request "GET /missing HTTP/1.1")
           = Headers lines :: map Body blocks
           /\ (In (header_line "Content-Length"
                     (str (len (String.concat EmptyString blocks)))) lines
               \/ (blocks = []
                   /\ hd EmptyString lines
                      = status_line 304 "Not Modified"))).
Proof.
  apply (content_length_is_body_length Example.P Example.cwd _ "/missing"
           "HTTP/1.1" []); version_1_1.
Defined.

(* ================================================================== *)
(** ** Further properties: the header fields of the request *)
(* ================================================================== *)

(** No method but [send_head] looks at the header fields of the request:
    each one does to a handler with other fields what it does to the
    handler. *)
Section Ignored.

Variable P : platform.
Variable fs : list (string * string).

Lemma ignored_send_response_only code message h :
  send_response_only code message (set_headers fs h)
  = set_headers fs (send_response_only code message h).
Proof.
  unfold send_response_only. cbn [request_version set_headers].
  now destruct (negb (request_version h =? "HTTP/0.9")).
Qed.

Lemma ignored_send_header keyword value h :
  send_header keyword value (set_headers fs h)
  = set_headers fs (send_header keyword value h).
Proof.
  unfold send_header. cbn [request_version set_headers].
  destruct (negb (request_version h =? "HTTP/0.9"));
    destruct (lower keyword =? "connection");
    destruct (lower value =? "close");
    destruct (lower value =? "keep-alive"); reflexivity.
Qed.

Lemma ignored_end_headers h :
  Server.end_headers (set_headers fs h)
  = set_headers fs (Server.end_headers h).
Proof.
  rewrite !end_headers_eq. cbn [request_version set_headers].
  now destruct (negb (request_version h =? "HTTP/0.9")).
Qed.

Lemma ignored_write w h :
  wfile_write w (set_headers fs h) = set_headers fs (wfile_write w h).
Proof. reflexivity. Qed.

Lemma ignored_send_response code message h :
  send_response P code message (set_headers fs h)
  = set_headers fs (send_response P code message h).
Proof.
  unfold send_response.
  now rewrite ignored_send_response_only, !ignored_send_header.
Qed.

Lemma ignored_send_error code message explain h :
  send_error P Server.end_headers code message explain (set_headers fs h)
  = set_headers fs (send_error P Server.end_headers code message explain h).
Proof.
  unfold send_error.
  destruct (match responses code with Some r => r | None => _ end)
    as [shortmsg longmsg].
  destruct (_ && _)%bool;
    [match goal with |- context [encode_utf8 ?x] =>
       generalize (encode_utf8 x); intros b end|];
    rewrite ignored_send_response, ?ignored_send_header, ignored_end_headers;
    [|reflexivity].
  cbn [command set_headers].
  match goal with |- context [if ?c then _ else _] => destruct c end;
    [apply ignored_write | reflexivity].
Qed.

Lemma ignored_list_directory path_ h :
  list_directory P Server.end_headers path_ (set_headers fs h)
  = (fst (list_directory P Server.end_headers path_ h),
     set_headers fs (snd (list_directory P Server.end_headers path_ h))).
Proof.
  unfold list_directory.
  destruct (listdir P path_); cbn [fst snd path set_headers];
    [|now rewrite ignored_send_error].
  destruct (negb (encodable P _)); cbn [fst snd]; [reflexivity|].
  now rewrite ignored_send_response, !ignored_send_header,
    ignored_end_headers.
Qed.

(** [send_head] tests the fields when it has opened a file. *)
Lemma ignored_send_head_file path_ h :
  (forall f, not_modified P fs f = not_modified P (headers h) f) ->
  send_head_file P Server.end_headers path_ (set_headers fs h)
  = (fst (send_head_file P Server.end_headers path_ h),
     set_headers fs (snd (send_head_file P Server.end_headers path_ h))).
Proof.
  intros N. unfold send_head_file.
  destruct (endswith "/" path_); cbn [fst snd];
    [now rewrite ignored_send_error|].
  destruct (open P path_) as [f| | |]; cbn [fst snd];
    [|now rewrite ignored_send_error | reflexivity | reflexivity].
  cbn [headers set_headers].
  fold (not_modified P fs f). fold (not_modified P (headers h) f).
  rewrite N.
  destruct (not_modified P (headers h) f); cbn [fst snd];
    now rewrite ignored_send_response, ?ignored_send_header,
      ignored_end_headers.
Qed.

Lemma ignored_send_head h :
  (forall f, not_modified P fs f = not_modified P (headers h) f) ->
  send_head P Server.end_headers (set_headers fs h)
  = (fst (send_head P Server.end_headers h),
     set_headers fs (snd (send_head P Server.end_headers h))).
Proof.
  intros N. unfold send_head. cbn [directory path set_headers].
  destruct (isdir P _); [|now apply ignored_send_head_file].
  destruct (urlsplit P _) as [parts_path|]; cbn [fst snd]; [|reflexivity].
  destruct (negb _); cbn [fst snd].
  - now rewrite ignored_send_response, !ignored_send_header,
      ignored_end_headers.
  - destruct (isfile P _); [now apply ignored_send_head_file|].
    destruct (isfile P _); [now apply ignored_send_head_file|].
    apply ignored_list_directory.
Qed.

Lemma ignored_copyfileobj n : forall source h,
  copyfileobj n source (set_headers fs h)
  = set_headers fs (copyfileobj n source h).
Proof.
  induction n as [|n IH]; intros source h; cbn [copyfileobj]; [reflexivity|].
  destruct (split_at COPY_BUFSIZE source) as [buf rest].
  destruct (buf =? EmptyString); [reflexivity|].
  now rewrite ignored_write, IH.
Qed.

Lemma ignored_method c h :
  (forall f, not_modified P fs f = not_modified P (headers h) f) ->
  method P Server.end_headers c (set_headers fs h)
  = set_headers fs (method P Server.end_headers c h).
Proof.
  intros N. unfold method, do_GET, do_HEAD, copyfile.
  rewrite ignored_send_head, ignored_send_error by exact N.
  destruct (c =? "GET").
  - destruct (send_head P Server.end_headers h) as [[f|] h']; cbn [fst snd];
      [apply ignored_copyfileobj | reflexivity].
  - destruct (c =? "HEAD"); [|reflexivity].
    now destruct (send_head P Server.end_headers h) as [f h'].
Qed.

End Ignored.

(** X7. The response depends on the header fields of the request only
    through the test [send_head] makes of [If-Modified-Since] and
    [If-None-Match]: two requests with the same accepted request line whose
    fields give that test the same result get the same response. [Origin],
    [Connection], [Expect], [Range] and every other field are ignored; the
    three CORS lines are sent whatever origin the request names. *)
Theorem other_header_fields_are_ignored P cwd line c p v fields fields' :
  accepted line c p v ->
  (forall f, not_modified P fields' f = not_modified P fields f) ->
  response P Server.end_headers cwd [Message line (Fields fields')]
  = response P Server.end_headers cwd [Message line (Fields fields)].
Proof.
  intros A N.
  rewrite !(response_accepted P cwd line c p v) by exact A.
  change (parsed cwd line c p v fields')
    with (set_headers fields' (parsed cwd line c p v fields)).
  now rewrite ignored_method by exact N.
Qed.

Lemma other_header_fields_are_ignored_witness :
  response Example.P Server.end_headers Example.cwd
    (Example.request_with "GET /a.txt HTTP/1.1"
       [("Origin"%string, "http://example.org"%string);
        ("Connection"%string, "keep-alive"%string);
        ("Expect"%string, "100-continue"%string);
        ("Range"%string, "bytes=0-1"%string)])
  = response Example.P Server.end_headers Example.cwd
      (Example.request_with "GET /a.txt HTTP/1.1" []).
Proof.
  apply (other_header_fields_are_ignored Example.P Example.cwd _ "GET"
           "/a.txt" "HTTP/1.1");
    [version_1_1 | intros f; reflexivity].
Defined.

(* ================================================================== *)
(** ** Further properties: one request for each connection *)
(* ================================================================== *)


(** No method but [handle_one_request] looks at [rfile]: each one does to
    a handler with another [rfile] what it does to the handler. *)
Section Unread.

Variable P : platform.
Variable r : list message.

Lemma unread_send_response_only code message h :
  send_response_only code message (set_rfile r h)
  = set_rfile r (send_response_only code message h).
Proof.
  unfold send_response_only. cbn [request_version set_rfile].
  now destruct (negb (request_version h =? "HTTP/0.9")).
Qed.

Lemma unread_send_header keyword value h :
  send_header keyword value (set_rfile r h)
  = set_rfile r (send_header keyword value h).
Proof.
  unfold send_header. cbn [request_version set_rfile].
  destruct (negb (request_version h =? "HTTP/0.9"));
    destruct (lower keyword =? "connection");
    destruct (lower value =? "close");
    destruct (lower value =? "keep-alive"); reflexivity.
Qed.

Lemma unread_end_headers h :
  Server.end_headers (set_rfile r h) = set_rfile r (Server.end_headers h).
Proof.
  rewrite !end_headers_eq. cbn [request_version set_rfile].
  now destruct (negb (request_version h =? "HTTP/0.9")).
Qed.

Lemma unread_write w h :
  wfile_write w (set_rfile r h) = set_rfile r (wfile_write w h).
Proof. reflexivity. Qed.

Lemma unread_send_response code message h :
  send_response P code message (set_rfile r h)
  = set_rfile r (send_response P code message h).
Proof.
  unfold send_response.
  now rewrite unread_send_response_only, !unread_send_header.
Qed.

Lemma unread_send_error code message explain h :
  send_error P Server.end_headers code message explain (set_rfile r h)
  = set_rfile r (send_error P Server.end_headers code message explain h).
Proof.
  unfold send_error.
  destruct (match responses code with Some r => r | None => _ end)
    as [shortmsg longmsg].
  destruct (_ && _)%bool;
    [match goal with |- context [encode_utf8 ?x] =>
       generalize (encode_utf8 x); intros b end|];
    rewrite unread_send_response, ?unread_send_header, unread_end_headers;
    [|reflexivity].
  cbn [command set_rfile].
  match goal with |- context [if ?c then _ else _] => destruct c end;
    [apply unread_write | reflexivity].
Qed.

Lemma unread_set_raw_requestline v h :
  set_raw_requestline v (set_rfile r h) = set_rfile r (set_raw_requestline v h).
Proof. reflexivity. Qed.
Lemma unread_set_requestline v h :
  set_requestline v (set_rfile r h) = set_rfile r (set_requestline v h).
Proof. reflexivity. Qed.
Lemma unread_set_request_version v h :
  set_request_version v (set_rfile r h)
  = set_rfile r (set_request_version v h).
Proof. reflexivity. Qed.
Lemma unread_set_command v h :
  set_command v (set_rfile r h) = set_rfile r (set_command v h).
Proof. reflexivity. Qed.
Lemma unread_set_path v h :
  set_path v (set_rfile r h) = set_rfile r (set_path v h).
Proof. reflexivity. Qed.
Lemma unread_set_headers v h :
  set_headers v (set_rfile r h) = set_rfile r (set_headers v h).
Proof. reflexivity. Qed.
Lemma unread_set_close_connection v h :
  set_close_connection v (set_rfile r h)
  = set_rfile r (set_close_connection v h).
Proof. reflexivity. Qed.
Lemma unread_raw_requestline h :
  raw_requestline (set_rfile r h) = raw_requestline h.
Proof. reflexivity. Qed.
Lemma unread_requestline h : requestline (set_rfile r h) = requestline h.
Proof. reflexivity. Qed.
Lemma unread_request_version h :
  request_version (set_rfile r h) = request_version h.
Proof. reflexivity. Qed.
Lemma unread_command h : command (set_rfile r h) = command h.
Proof. reflexivity. Qed.
Lemma unread_path h : path (set_rfile r h) = path h.
Proof. reflexivity. Qed.
Lemma unread_headers h : headers (set_rfile r h) = headers h.
Proof. reflexivity. Qed.
Lemma unread_directory h : directory (set_rfile r h) = directory h.
Proof. reflexivity. Qed.

Create Rewrite HintDb unread.
#[local] Hint Rewrite unread_set_raw_requestline unread_set_requestline
  unread_set_request_version unread_set_command unread_set_path
  unread_set_headers unread_set_close_connection
  unread_raw_requestline unread_requestline unread_request_version
  unread_command unread_path unread_headers unread_directory
  unread_send_header unread_send_response unread_send_error
  unread_end_headers : unread.

Lemma unread_parse_request_headers hl h :
  parse_request_headers P Server.end_headers hl (set_rfile r h)
  = (fst (parse_request_headers P Server.end_headers hl h),
     set_rfile r (snd (parse_request_headers P Server.end_headers hl h))).
Proof.
  unfold parse_request_headers.
  destruct hl; cbn [fst snd]; autorewrite with unread; try reflexivity.
  rewrite protocol_is_1_0, !andb_false_r. cbn [andb fst snd].
  match goal with |- context [if ?b then _ else _] => destruct b end;
    reflexivity.
Qed.

Lemma unread_parse_request_words words hl h :
  parse_request_words P Server.end_headers words hl (set_rfile r h)
  = (fst (parse_request_words P Server.end_headers words hl h),
     set_rfile r (snd (parse_request_words P Server.end_headers words hl h))).
Proof.
  unfold parse_request_words.
  destruct words as [|command_ [|path_ rest]]; cbn [fst snd];
    autorewrite with unread; try reflexivity.
  destruct (negb _); cbn [fst snd]; [reflexivity|].
  destruct rest; autorewrite with unread.
  - destruct (negb (command_ =? "GET")); cbn [fst snd];
      autorewrite with unread; [reflexivity|].
    destruct (startswith _ _); autorewrite with unread;
      apply unread_parse_request_headers.
  - destruct (startswith _ _); autorewrite with unread;
      apply unread_parse_request_headers.
Qed.

Lemma unread_parse_request hl h :
  parse_request P Server.end_headers hl (set_rfile r h)
  = (fst (parse_request P Server.end_headers hl h),
     set_rfile r (snd (parse_request P Server.end_headers hl h))).
Proof.
  unfold parse_request. cbv zeta. autorewrite with unread.
  destruct (Nat.eqb _ 0); [reflexivity|].
  destruct (Nat.leb 3 _); [|apply unread_parse_request_words].
  destruct (version_number _) as [[b vn]|]; cbn [fst snd];
    autorewrite with unread; [|reflexivity].
  rewrite protocol_is_1_0, andb_false_r.
  destruct (pair_ge vn (2, 0)%Z); cbn [fst snd];
    autorewrite with unread; [reflexivity|].
  apply unread_parse_request_words.
Qed.

Lemma unread_list_directory path_ h :
  list_directory P Server.end_headers path_ (set_rfile r h)
  = (fst (list_directory P Server.end_headers path_ h),
     set_rfile r (snd (list_directory P Server.end_headers path_ h))).
Proof.
  unfold list_directory.
  destruct (listdir P path_); cbn [fst snd];
    [|now rewrite unread_send_error].
  cbn [path set_rfile].
  destruct (negb (encodable P _)); cbn [fst snd]; [reflexivity|].
  now rewrite unread_send_response, !unread_send_header, unread_end_headers.
Qed.

Lemma unread_send_head_file path_ h :
  send_head_file P Server.end_headers path_ (set_rfile r h)
  = (fst (send_head_file P Server.end_headers path_ h),
     set_rfile r (snd (send_head_file P Server.end_headers path_ h))).
Proof.
  unfold send_head_file.
  destruct (endswith "/" path_); cbn [fst snd];
    [now rewrite unread_send_error|].
  destruct (open P path_); cbn [fst snd];
    [|now rewrite unread_send_error | reflexivity | reflexivity].
  cbn [headers set_rfile].
  destruct (_ && _)%bool; cbn [fst snd];
    now rewrite unread_send_response, ?unread_send_header, unread_end_headers.
Qed.

Lemma unread_send_head h :
  send_head P Server.end_headers (set_rfile r h)
  = (fst (send_head P Server.end_headers h),
     set_rfile r (snd (send_head P Server.end_headers h))).
Proof.
  unfold send_head. cbn [directory path set_rfile].
  destruct (isdir P _); [|apply unread_send_head_file].
  destruct (urlsplit P _) as [parts_path|]; cbn [fst snd]; [|reflexivity].
  destruct (negb _); cbn [fst snd].
  - now rewrite unread_send_response, !unread_send_header, unread_end_headers.
  - destruct (isfile P _); [apply unread_send_head_file|].
    destruct (isfile P _); [apply unread_send_head_file|].
    apply unread_list_directory.
Qed.

Lemma unread_copyfileobj n : forall source h,
  copyfileobj n source (set_rfile r h) = set_rfile r (copyfileobj n source h).
Proof.
  induction n as [|n IH]; intros source h; cbn [copyfileobj]; [reflexivity|].
  destruct (split_at COPY_BUFSIZE source) as [buf rest].
  destruct (buf =? EmptyString); [reflexivity|].
  now rewrite unread_write, IH.
Qed.

Lemma unread_method c h :
  method P Server.end_headers c (set_rfile r h)
  = set_rfile r (method P Server.end_headers c h).
Proof.
  unfold method, do_GET, do_HEAD, copyfile.
  rewrite unread_send_head, unread_send_error.
  destruct (c =? "GET").
  - destruct (send_head P Server.end_headers h) as [[f|] h']; cbn [fst snd];
      [apply unread_copyfileobj | reflexivity].
  - destruct (c =? "HEAD"); [|reflexivity].
    now destruct (send_head P Server.end_headers h) as [f h'].
Qed.

End Unread.

(** What a turn of the loop writes depends on the message it takes off
    [rfile], not on those behind it. *)
Lemma handle_one_request_first P m rest h :
  handle_one_request P Server.end_headers (set_rfile (m :: rest) h)
  = set_rfile rest
      (handle_one_request P Server.end_headers (set_rfile [m] h)).
Proof.
  unfold handle_one_request. cbn [rfile set_rfile].
  change (set_raw_requestline (m_line m)
            (set_rfile rest (set_rfile (m :: rest) h)))
    with (set_rfile rest
            (set_raw_requestline (m_line m)
               (set_rfile [] (set_rfile [m] h)))).
  set (h0 := set_raw_requestline (m_line m) (set_rfile [] (set_rfile [m] h))).
  cbn [raw_requestline set_rfile].
  destruct (_ <? _)%Z.
  - rewrite <- unread_send_error. reflexivity.
  - destruct (_ =? _); [reflexivity|].
    rewrite unread_parse_request.
    destruct (parse_request P Server.end_headers (m_headers m) h0)
      as [[|] h']; cbn [fst snd]; [|reflexivity].
    cbn [command set_rfile].
    destruct (command h'); [apply unread_method | reflexivity].
Qed.

(** X8. The handler answers one request for each connection: the response
    to the messages a client sends on a connection is the response to the
    first of them, and the messages behind it are left unread when the
    handler returns, whatever the version of HTTP and the [Connection]
    header of the request. *)
Theorem one_request_per_connection P cwd m rest :
  response P Server.end_headers cwd (m :: rest)
  = response P Server.end_headers cwd [m]
  /\ rfile (handle P Server.end_headers (setup cwd (m :: rest))) = rest.
Proof.
  unfold response. rewrite !handle_one_turn. split.
  - change (set_close_connection true (setup cwd (m :: rest)))
      with (set_rfile (m :: rest) (set_close_connection true (setup cwd []))).
    now rewrite handle_one_request_first.
  - now rewrite rfile_handle_one_request by apply end_headers_rfile.
Qed.

(* ================================================================== *)
(** ** Further properties: request lines *)
(* ================================================================== *)

(** [send_error(code)] sends the phrase of the code as its message. *)
Lemma send_error_default P code shortmsg longmsg h :
  responses code = Some (shortmsg, longmsg) ->
  send_error P Server.end_headers code None None h
  = send_error P Server.end_headers code (Some shortmsg) None h.
Proof. intros R. unfold send_error. now rewrite R. Qed.

(** X9. A request line of more than 65536 bytes is answered with status
    414, Request-URI Too Long, without being parsed: the header block of
    an error, with the three CORS lines, and the page. *)
Theorem request_line_too_long_is_414 P cwd line hl :
  (65536 < len line)%Z ->
  response P Server.end_headers cwd [Message line hl]
  = error_reply P 414 "Request-URI Too Long".
Proof.
  intros L. rewrite response_single by apply end_headers_rfile.
  unfold handle_one_request, setup; attrs. cbn [m_line m_headers].
  apply Z.ltb_lt in L. rewrite L. assign.
  rewrite (send_error_default P 414 "Request-URI Too Long" _ _ eq_refl).
  now rewrite send_error_on by reflexivity.
Qed.

Lemma request_line_too_long_is_414_witness :
  response Example.P Server.end_headers Example.cwd
    (Example.request ("GET " ++ Example.long_path ++ " HTTP/1.1"))
  = error_reply Example.P 414 "Request-URI Too Long".
Proof.
  apply request_line_too_long_is_414. vm_compute. reflexivity.
Defined.

(** X10. A request line of three words or more whose last word is a
    version of HTTP from 2.0 on is refused with the page of error 505,
    Invalid HTTP version. The version is refused before it is accepted as
    the version of the request, so the reply is the page alone: no status
    line, no header, none of the three CORS lines. *)
Theorem version_2_is_refused_bare P cwd line hl b vn :
  (len line <=? 65536)%Z = true ->
  3 <= List.length (split (rstrip_crlf line)) ->
  version_number (last (split (rstrip_crlf line)) EmptyString)
  = Some (b, vn) ->
  pair_ge vn (2, 0)%Z = true ->
  response P Server.end_headers cwd [Message line hl]
  = [Body (error_page 505 ("Invalid HTTP version (" ++ b ++ ")"))].
Proof.
  intros L W V G. rewrite response_single by apply end_headers_rfile.
  unfold handle_one_request, setup; attrs. cbn [m_line m_headers].
  replace (65536 <? len line)%Z with false by lia.
  destruct (line =? EmptyString) eqn:El.
  { apply String.eqb_eq in El; subst line. cbn in W. lia. }
  unfold parse_request; attrs.
  remember (split (rstrip_crlf line)) as words eqn:Ew.
  assert (L0 : Nat.eqb (List.length words) 0 = false)
    by (apply Nat.eqb_neq; lia).
  assert (L3 : Nat.leb 3 (List.length words) = true)
    by (apply Nat.leb_le; lia).
  rewrite L0, L3, V, protocol_is_1_0, andb_false_r, G. assign.
  rewrite send_error_0_9 by reflexivity. reflexivity.
Qed.

Lemma version_2_is_refused_bare_witness :
  response Example.P Server.end_headers Example.cwd
    (Example.request "GET / HTTP/2.0")
  = [Body (error_page 505 "Invalid HTTP version (2.0)")].
Proof.
  apply (version_2_is_refused_bare Example.P Example.cwd _ _ "2.0" (2, 0)%Z);
    vm_compute; first [reflexivity | lia].
Defined.

(** X11. A request line without a word (nothing at all, a line end, white
    space) gets no reply: the handler writes nothing and closes. *)
Theorem blank_request_line_gets_no_reply P cwd line hl :
  (len line <=? 65536)%Z = true ->
  split (rstrip_crlf line) = [] ->
  response P Server.end_headers cwd [Message line hl] = [].
Proof.
  intros L W. rewrite response_single by apply end_headers_rfile.
  unfold handle_one_request, setup; attrs. cbn [m_line m_headers].
  replace (65536 <? len line)%Z with false by lia.
  destruct (line =? EmptyString); [reflexivity|].
  unfold parse_request; attrs. rewrite W. reflexivity.
Qed.

Lemma blank_request_line_gets_no_reply_witness :
  response Example.P Server.end_headers Example.cwd (Example.request " ")
  = [].
Proof.
  apply blank_request_line_gets_no_reply; reflexivity.
Defined.

(** *** Requests of two words: HTTP/0.9 *)

(** X12. A request line of two words, a request of HTTP/0.9, is answered
    without a header block, whatever the command and the path: no status
    line and no header, so none of the three CORS lines either; what is
    sent, if anything, is a body. *)
Theorem simple_request_gets_no_header_block P cwd line c p fields :
  (len line <=? 65536)%Z = true ->
  split (rstrip_crlf line) = [c; p] ->
  bare (response P Server.end_headers cwd [Message line (Fields fields)]).
Proof.
  intros L W. destruct (c =? "GET") eqn:C.
  - apply String.eqb_eq in C; subst c.
    rewrite (response_simple P cwd line p) by assumption. apply simple_get.
  - rewrite response_single by apply end_headers_rfile.
    unfold handle_one_request, setup; attrs. cbn [m_line m_headers].
    replace (65536 <? len line)%Z with false by lia.
    destruct (line =? EmptyString) eqn:El.
    { apply String.eqb_eq in El; subst line; discriminate W. }
    unfold set_raw_requestline, set_rfile, set_close_connection; attrs.
    unfold parse_request; attrs. rewrite W.
    cbn [List.length Nat.eqb Nat.leb].
    unfold parse_request_words; attrs. cbn [List.length Nat.leb negb].
    rewrite C. cbn [negb]. assign.
    rewrite send_error_0_9 by reflexivity. repeat constructor.
Qed.

Lemma simple_request_gets_no_header_block_witness :
  bare (response Example.P Server.end_headers Example.cwd
          (Example.request "POST /a.txt")).
Proof.
  apply (simple_request_gets_no_header_block Example.P Example.cwd _
           "POST" "/a.txt"); reflexivity.
Defined.

(** X13. The request line [GET path] of HTTP/0.9, for a path that
    resolves to a file that can be opened and is not answered from the
    client's cache, is answered with the bytes of the file and nothing
    else, before or after. *)
Theorem simple_get_sends_the_file_alone P cwd line p fields f :
  (len line <=? 65536)%Z = true ->
  split (rstrip_crlf line) = ["GET"%string; p] ->
  isdir P (translate_path P cwd (request_path p)) = false ->
  endswith "/" (translate_path P cwd (request_path p)) = false ->
  open_rb P (translate_path P cwd (request_path p)) = Some f ->
  not_modified P fields f = false ->
  exists blocks,
    response P Server.end_headers cwd [Message line (Fields fields)]
    = map Body blocks
    /\ String.concat EmptyString blocks = f_data f.
Proof.
  intros L W D S O N. apply open_rb_Some in O.
  rewrite (response_simple P cwd line p) by assumption.
  unfold do_GET, send_head. cbn [directory path]. rewrite D.
  unfold send_head_file. rewrite S, O. cbn [headers].
  fold (not_modified P fields f). rewrite N.
  rewrite !send_response_0_9, !send_header_0_9, !end_headers_0_9
    by reflexivity.
  match goal with |- context [copyfile ?s ?h] =>
    destruct (copyfile_all s h) as (blocks & W' & C) end.
  exists blocks. split; [exact W' | exact C].
Qed.

Lemma simple_get_sends_the_file_alone_witness :
  exists blocks,
    response Example.P Server.end_headers Example.cwd
      (Example.request "GET /a.txt")
    = map Body blocks
    /\ String.concat EmptyString blocks = "hello"%string.
Proof.
  apply (simple_get_sends_the_file_alone Example.P Example.cwd _ "/a.txt" []
           (File "hello" 1)); reflexivity.
Defined.

(** *** The words of a request line *)

Lemma rev_string_rev w : forall a b,
  rev_string (rev_string w a) b = rev_string a (w ++ b)%string.
Proof.
  induction w as [|c w IH]; intros a b; cbn [rev_string append];
    [reflexivity|].
  rewrite IH. reflexivity.
Qed.

Lemma rev_string_involutive w :
  rev_string (rev_string w EmptyString) EmptyString = w.
Proof. rewrite rev_string_rev. cbn [rev_string]. apply append_empty_r. Qed.

(** [split] reads a word to its end. *)
Lemma split_ws_word w : forall s cur,
  is_word w = true ->
  split_ws (w ++ s) cur
  = split_ws s
      (Some (rev_string w
               (match cur with Some x => x | None => EmptyString end))).
Proof.
  unfold is_word.
  induction w as [|c w IH]; intros s cur; [discriminate|].
  cbn [String.eqb negb andb list_ascii_of_string forallb].
  intros [C W]%andb_true_iff. apply negb_true_iff in C.
  cbn [append split_ws rev_string]. rewrite C.
  destruct w as [|c' w]; [reflexivity|].
  rewrite IH; [reflexivity|]. exact W.
Qed.

Lemma split_ws_space s w :
  split_ws (String " " s) (Some w)
  = rev_string w EmptyString :: split_ws s None.
Proof. reflexivity. Qed.

Lemma split_three c p v :
  is_word c = true -> is_word p = true -> is_word v = true ->
  split (c ++ " " ++ p ++ " " ++ v) = [c; p; v].
Proof.
  intros C Q V. unfold split.
  rewrite split_ws_word by exact C.
  change (" " ++ p ++ " " ++ v)%string with (String " " (p ++ " " ++ v)).
  rewrite split_ws_space, split_ws_word by exact Q.
  change (" " ++ v)%string with (String " " v).
  rewrite split_ws_space.
  rewrite <- (append_empty_r v) at 1.
  rewrite split_ws_word by exact V.
  cbn [split_ws]. now rewrite !rev_string_involutive.
Qed.

Lemma rstrip_crlf_crlf s : rstrip_crlf (s ++ CRLF) = rstrip_crlf s.
Proof.
  induction s as [|c s IH]; [reflexivity|].
  cbn [append rstrip_crlf]. now rewrite IH.
Qed.

Lemma rstrip_crlf_app a b :
  rstrip_crlf b <> EmptyString ->
  rstrip_crlf (a ++ b) = (a ++ rstrip_crlf b)%string.
Proof.
  intros B. induction a as [|c a IH]; [reflexivity|].
  cbn [append rstrip_crlf]. rewrite IH.
  destruct (a ++ rstrip_crlf b)%string eqn:E; [|reflexivity].
  destruct a; [contradiction | discriminate].
Qed.

Lemma append_assoc a b c : ((a ++ b) ++ c)%string = (a ++ (b ++ c))%string.
Proof. induction a as [|x a IH]; cbn; [reflexivity | now rewrite IH]. Qed.

Lemma string_length_app a b :
  String.length (a ++ b) = String.length a + String.length b.
Proof. induction a as [|c a IH]; cbn; [reflexivity | now rewrite IH]. Qed.

(** The words of such a request line. *)
Lemma three_words_accepted c p v :
  is_word c = true ->
  is_word p = true ->
  v = "HTTP/1.0"%string \/ v = "HTTP/1.1"%string ->
  (len c + len p <= 65524)%Z ->
  accepted (c ++ " " ++ p ++ " " ++ v ++ CRLF) c p v
  /\ rstrip_crlf (c ++ " " ++ p ++ " " ++ v ++ CRLF)
     = (c ++ " " ++ p ++ " " ++ v)%string.
Proof.
  intros C Q V L.
  assert (Wv : is_word v = true) by (destruct V as [-> | ->]; reflexivity).
  assert (Rv : rstrip_crlf v = v) by (destruct V as [-> | ->]; reflexivity).
  assert (Nv : v <> EmptyString) by (destruct V as [-> | ->]; discriminate).
  assert (Lv : String.length v = 8) by (destruct V as [-> | ->]; reflexivity).
  assert (R : rstrip_crlf (c ++ " " ++ p ++ " " ++ v ++ CRLF)
              = (c ++ " " ++ p ++ " " ++ v)%string).
  { replace (c ++ " " ++ p ++ " " ++ v ++ CRLF)%string
      with ((c ++ " " ++ p ++ " " ++ v) ++ CRLF)%string
      by now rewrite !append_assoc.
    rewrite rstrip_crlf_crlf.
    replace (c ++ " " ++ p ++ " " ++ v)%string
      with ((c ++ " " ++ p ++ " ") ++ v)%string
      by now rewrite !append_assoc.
    rewrite rstrip_crlf_app by now rewrite Rv.
    now rewrite Rv. }
  split; [|exact R]. repeat split.
  - rewrite R. now apply split_three.
  - destruct V as [-> | ->].
    + exists "1.0"%string, (1, 0)%Z. now split.
    + exists "1.1"%string, (1, 1)%Z. now split.
  - destruct V as [-> | ->]; reflexivity.
  - apply Z.leb_le. unfold len in *.
    rewrite !string_length_app, Lv. unfold CRLF. cbn [String.length]. lia.
Qed.

(** X14. A request line made of a method, a path and the version HTTP/1.0
    or HTTP/1.1, the method and the path any words without white space,
    separated by single spaces and ended by CR LF, and not longer than
    65536 bytes, is accepted by [parse_request]: it returns true, and
    leaves in the handler that method as the command, that version, the
    header fields sent, and the path, with one slash for several leading
    ones; nothing is written. *)
Theorem request_line_of_three_words_is_accepted P eh cwd c p v fields :
  is_word c = true ->
  is_word p = true ->
  v = "HTTP/1.0"%string \/ v = "HTTP/1.1"%string ->
  (len c + len p <= 65524)%Z ->
  parse_request P eh (Fields fields)
    (set_raw_requestline (c ++ " " ++ p ++ " " ++ v ++ CRLF) (setup cwd []))
  = (true,
     Handler cwd [] (c ++ " " ++ p ++ " " ++ v ++ CRLF)
       (c ++ " " ++ p ++ " " ++ v) v (Some c)
       (if startswith "//" p then "/" ++ lstrip "/" p else p)
       fields None true [] []).
Proof.
  intros C Q V L.
  destruct (three_words_accepted c p v C Q V L) as [A R].
  unfold setup, set_raw_requestline; attrs.
  rewrite (parse_request_accepted P eh _ c p v) by exact A.
  now rewrite R.
Qed.

Lemma request_line_of_three_words_is_accepted_witness :
  parse_request Example.P Server.end_headers (Fields [])
    (set_raw_requestline
       ("OPTIONS" ++ " " ++ "//example.org/a.txt" ++ " " ++ "HTTP/1.1" ++ CRLF)
       (setup Example.cwd []))
  = (true,
     Handler Example.cwd []
       ("OPTIONS" ++ " " ++ "//example.org/a.txt" ++ " " ++ "HTTP/1.1" ++ CRLF)
       ("OPTIONS" ++ " " ++ "//example.org/a.txt" ++ " " ++ "HTTP/1.1")
       "HTTP/1.1" (Some "OPTIONS"%string) "/example.org/a.txt" [] None true
       [] []).
Proof.
  apply (request_line_of_three_words_is_accepted Example.P Server.end_headers
           Example.cwd "OPTIONS" "//example.org/a.txt" "HTTP/1.1" []);
    [reflexivity | reflexivity | now right | vm_compute; discriminate].
Defined.

Lemma lstrip_slash p : startswith "/" (lstrip "/" p) = false.
Proof.
  induction p as [|c p IH]; [reflexivity|].
  cbn [lstrip]. destruct (Ascii.eqb "/" c) eqn:E; [exact IH|].
  unfold startswith. cbn [String.prefix].
  destruct (ascii_dec "/" c) as [<-|]; [|reflexivity].
  now rewrite Ascii.eqb_refl in E.
Qed.

(** X15. The path [parse_request] leaves in the handler for an accepted
    request line never starts with two slashes: a path sent with several
    leading slashes is kept with one. *)
Theorem path_never_starts_with_two_slashes P eh cwd line c p v fields :
  accepted line c p v ->
  startswith "//"
    (path (snd (parse_request P eh (Fields fields)
                  (set_raw_requestline line (setup cwd [])))))
  = false.
Proof.
  intros A. unfold setup, set_raw_requestline; attrs.
  rewrite (parse_request_accepted P eh line c p v) by exact A.
  cbn [snd path]. unfold request_path.
  destruct (startswith "//" p) eqn:E; [|exact E].
  pose proof (lstrip_slash p) as L.
  unfold startswith in *. cbn [append String.prefix].
  destruct (lstrip "/" p) as [|x s]; [reflexivity|].
  cbn [String.prefix] in *.
  destruct (ascii_dec "/" "/"); [|reflexivity].
  destruct (ascii_dec "/" x); [|reflexivity].
  destruct s; discriminate L.
Qed.

Lemma path_never_starts_with_two_slashes_witness :
  startswith "//"
    (path (snd (parse_request Example.P Server.end_headers (Fields [])
                  (set_raw_requestline
                     ("GET //example.org/ HTTP/1.1" ++ CRLF)%string
                     (setup Example.cwd [])))))
  = false.
Proof.
  apply (path_never_starts_with_two_slashes Example.P Server.end_headers
           Example.cwd _ "GET" "//example.org/" "HTTP/1.1" []).
  version_1_1.
Defined.

(* ================================================================== *)
(** ** Further properties: listings, connections and the script *)
(* ================================================================== *)

(** X17. Every connection the server accepts is shut down, once, whatever
    happens in its handler. With nothing in the way the client is sent the
    response; if the handler raised an exception by itself, a traceback of
    it follows. An exception that strikes the handler from outside after
    [k] writes leaves the client with those [k] writes, or with all of
    them if they are fewer; it is reported by a traceback unless it is the
    interrupt, which goes on to stop the server, or a timeout, which the
    handler catches. *)
Theorem every_connection_is_shut_down P cwd request raises :
  served P Server.end_headers cwd (Connection request raises)
  = Accept
    :: match raises with
       | Some (k, e) =>
           map Send (firstn k (response P Server.end_headers cwd request))
           ++ match e with
              | KeyboardInterrupt | TimeoutError => []
              | _ => [Traceback e]
              end
       | None =>
           map Send (response P Server.end_headers cwd request)
           ++ match uncaught P Server.end_headers cwd request with
              | Some e => [Traceback e]
              | None => []
              end
       end
    ++ [Shutdown].
Proof.
  destruct raises as [[k e]|].
  - rewrite served_struck. now rewrite <- app_assoc.
  - rewrite served_raised. now rewrite <- app_assoc.
Qed.

(** X18. An interrupt that arrives while the server waits for a
    connection stops it at once: the connections that came in before are
    served in full, nothing that comes in after is accepted, and the
    process prints the stopped message, closes its socket and exits with
    status 0. *)
Theorem interrupt_while_idle_stops_at_once P w pre post :
  isdir P (dirname (program_file w)) = true ->
  in_use EmptyString PORT (bound w) = false ->
  Forall no_interrupt pre ->
  main P w (pre ++ Interrupt :: post)
  = startup (dirname (program_file w))
    ++ flat_map (served P Server.end_headers (dirname (program_file w))) pre
    ++ stopped.
Proof.
  intros D F Q. rewrite (main_started P w D F).
  rewrite serve_forever_app by (exact Q || apply end_headers_raised).
  cbn [serve_forever fst snd]. now rewrite app_nil_r.
Qed.

Lemma interrupt_while_idle_stops_at_once_witness :
  main Example.P Example.w
    [Connection (Example.request "GET /a.txt HTTP/1.1") None; Interrupt;
     Connection (Example.request "GET /a.txt HTTP/1.1") None]
  = startup "/srv"
    ++ flat_map (served Example.P Server.end_headers "/srv")
         [Connection (Example.request "GET /a.txt HTTP/1.1") None]
    ++ stopped.
Proof.
  apply (interrupt_while_idle_stops_at_once Example.P Example.w
           [Connection (Example.request "GET /a.txt HTTP/1.1") None]
           [Connection (Example.request "GET /a.txt HTTP/1.1") None]
           eq_refl eq_refl).
  repeat constructor.
Defined.

(** *** The directory of the program *)

Lemma through_last_slash_name name :
  no_slash name = true -> through_last_slash name = EmptyString.
Proof.
  induction name as [|c name IH]; [reflexivity|].
  unfold no_slash. cbn [list_ascii_of_string forallb through_last_slash].
  intros [C N]%andb_true_iff. rewrite (IH N).
  now destruct (Ascii.eqb c "/").
Qed.

Lemma through_last_slash_app a name :
  no_slash name = true ->
  through_last_slash (a ++ String "/" name) = (a ++ "/")%string.
Proof.
  intros N. induction a as [|c a IH]; cbn [append through_last_slash].
  - now rewrite (through_last_slash_name name N).
  - rewrite IH. destruct (a ++ "/")%string eqn:E; [|reflexivity].
    now destruct a.
Qed.

Lemma rstrip_slash_slash s :
  rstrip_slash (s ++ "/") = rstrip_slash s.
Proof.
  induction s as [|c s IH]; [reflexivity|].
  cbn [append rstrip_slash]. now rewrite IH.
Qed.

Lemma rstrip_slash_other a c :
  Ascii.eqb c "/" = false ->
  rstrip_slash (a ++ String c EmptyString)
  = (a ++ String c EmptyString)%string.
Proof.
  intros C. induction a as [|x a IH]; cbn [append rstrip_slash].
  - now rewrite C.
  - rewrite IH. destruct (a ++ String c EmptyString)%string eqn:E;
      [now destruct a | reflexivity].
Qed.

Lemma string_last s :
  s = EmptyString \/ exists a c, s = (a ++ String c EmptyString)%string.
Proof.
  induction s as [|x s [->|(a & c & ->)]]; [now left | right ..].
  - now exists EmptyString, x.
  - now exists (String x a), c.
Qed.

Lemma endswith_last a c :
  endswith "/" (a ++ String c EmptyString) = Ascii.eqb "/" c.
Proof.
  rewrite endswith_app. cbn [rev_string String.prefix].
  destruct (ascii_dec "/" c) as [<-|N].
  - now destruct (rev_string a EmptyString).
  - symmetry. now apply Ascii.eqb_neq.
Qed.

Lemma no_slash_startswith name :
  no_slash name = true -> startswith "/" name = false.
Proof.
  destruct name as [|c name]; [reflexivity|].
  unfold no_slash, startswith.
  cbn [list_ascii_of_string forallb String.prefix].
  intros [C _]%andb_true_iff.
  destruct (ascii_dec "/" c) as [<-|]; [discriminate C | reflexivity].
Qed.

(** X20. [dirname] undoes [path_join]: the directory of the path of an
    entry [name] of a directory [d] is [d], for a directory written
    without a final slash, or the root. The working directory the script
    changes to is thus the directory that holds [server.py]. *)
Theorem dirname_of_join d name :
  d = "/"%string \/ endswith "/" d = false ->
  no_slash name = true ->
  dirname (path_join d name) = d.
Proof.
  intros D N. unfold path_join. rewrite (no_slash_startswith name N).
  destruct D as [->|D].
  - cbn [String.eqb orb]. replace (endswith "/" "/") with true by reflexivity.
    unfold dirname.
    change ("/" ++ name)%string with (EmptyString ++ String "/" name)%string.
    rewrite through_last_slash_app by exact N. reflexivity.
  - rewrite D, orb_false_r.
    destruct (string_last d) as [->|(a & c & ->)].
    + cbn [String.eqb append]. unfold dirname.
      now rewrite through_last_slash_name.
    + rewrite endswith_last in D.
      assert (C : Ascii.eqb c "/" = false) by now rewrite Ascii.eqb_sym.
      destruct (_ =? EmptyString) eqn:E.
      { apply String.eqb_eq in E. now destruct a. }
      unfold dirname.
      change ("/" ++ name)%string with (String "/" name).
      rewrite through_last_slash_app by exact N.
      rewrite rstrip_slash_slash, rstrip_slash_other by exact C.
      destruct ((a ++ String c EmptyString) ++ "/" =? EmptyString)%string
        eqn:E1.
      { apply String.eqb_eq in E1. now destruct a. }
      now rewrite E.
Qed.

Lemma dirname_of_join_witness :
  dirname (path_join "/srv" "server.py") = "/srv"%string
  /\ dirname (program_file Example.w) = Example.cwd.
Proof.
  split; [|reflexivity].
  apply dirname_of_join; [right|]; reflexivity.
Defined.

(** *** The end of the process *)

Lemma no_exit_sends ws : Forall (fun e => is_exit e = false) (map Send ws).
Proof. induction ws; constructor; [reflexivity | assumption]. Qed.

Lemma handle_request_no_exit P eh cwd request raises :
  Forall (fun e => is_exit e = false)
    (fst (_handle_request_noblock P eh cwd request raises)).
Proof.
  unfold _handle_request_noblock, process_request, finish_request.
  set (ws := wfile (handle P eh (setup cwd request))).
  assert (S : forall k, Forall (fun e => is_exit e = false)
                          (map Send (firstn k ws)))
    by (intros k; apply no_exit_sends).
  pose proof (no_exit_sends ws) as S'.
  cbv zeta.
  destruct raises as [[k e]|];
    [ destruct e
    | destruct (raised _) as [e|]; [destruct (is_Exception e)|] ];
    cbn [fst is_Exception]; constructor; try reflexivity;
    rewrite ?Forall_app; repeat split; auto; repeat constructor.
Qed.

Lemma serve_forever_no_exit P eh cwd input :
  Forall (fun e => is_exit e = false) (fst (serve_forever P eh cwd input)).
Proof.
  induction input as [|i input IH]; [constructor|].
  destruct i as [request raises| |]; cbn [serve_forever];
    [|exact IH | constructor].
  pose proof (handle_request_no_exit P eh cwd request raises) as H.
  destruct (_handle_request_noblock P eh cwd request raises) as [evs [e|]];
    cbn [fst] in *; [exact H|].
  destruct (serve_forever P eh cwd input) as [evs' r]; cbn [fst] in *.
  apply Forall_app; now split.
Qed.

Lemma exit_is_behind l : forall tail pre s post,
  Forall (fun e => is_exit e = false) l ->
  l ++ tail = pre ++ Exit s :: post ->
  exists pre', pre = l ++ pre' /\ tail = pre' ++ Exit s :: post.
Proof.
  induction l as [|a l IH]; intros tail pre s post F E; cbn [app] in *.
  - now exists pre.
  - inversion F as [|? ? Fa Fl]; subst.
    destruct pre as [|b pre]; cbn [app] in E.
    + injection E as -> _. discriminate Fa.
    + injection E as <- E.
      destruct (IH _ _ _ _ Fl E) as (pre' & -> & T).
      now exists pre'.
Qed.

Lemma exit_is_last l s0 pre s post :
  Forall (fun e => is_exit e = false) l ->
  l ++ [Exit s0] = pre ++ Exit s :: post ->
  pre = l /\ post = [].
Proof.
  intros F E. destruct (exit_is_behind _ _ _ _ _ F E) as (pre' & -> & T).
  destruct pre' as [|b pre']; cbn [app] in T.
  - injection T as _ <-. now rewrite app_nil_r.
  - injection T as _ T. now destruct pre'.
Qed.

(** X21. Whenever the process exits, the exit is the last thing it does,
    and if it had created its listening socket it has closed it before:
    when binding fails, when an interrupt stops the server, and when the
    working directory cannot be changed, in which case no socket was
    created. *)
Theorem socket_is_closed_before_exit P w input pre s post :
  main P w input = pre ++ Exit s :: post ->
  post = [] /\ (In Socket pre -> In Close pre).
Proof.
  destruct (isdir P (dirname (program_file w))) eqn:D.
  - destruct (in_use EmptyString PORT (bound w)) eqn:U.
    + rewrite (main_port_in_use P w D input U).
      intros E.
      apply (exit_is_last
               [Chdir (dirname (program_file w)); Socket;
                BindError EmptyString PORT EADDRINUSE; Close;
                Traceback (OSError EADDRINUSE)]) in E;
        [|repeat constructor].
      destruct E as [-> ->]. split; [reflexivity|]. cbn. tauto.
    + rewrite (main_started P w D U input). intros E.
      assert (F : Forall (fun e => is_exit e = false)
                    (startup (dirname (program_file w))
                     ++ fst (serve_forever P Server.end_headers
                               (dirname (program_file w)) input))).
      { apply Forall_app; split;
          [repeat constructor | apply serve_forever_no_exit]. }
      destruct (snd (serve_forever _ _ _ _)).
      * unfold stopped in E.
        change [Print (String LF "Server stopped"); Close; Exit 0]
          with ([Print (String LF "Server stopped"); Close] ++ [Exit 0]) in E.
        rewrite !app_assoc in E.
        apply exit_is_last in E.
        -- destruct E as [-> ->]. split; [reflexivity|]. intros _.
           rewrite !in_app_iff. cbn. tauto.
        -- apply Forall_app; split; [exact F | repeat constructor].
      * rewrite app_nil_r in E.
        rewrite <- (app_nil_r (_ ++ _)) in E.
        destruct (exit_is_behind _ _ _ _ _ F E) as (pre' & _ & T).
        now destruct pre'.
  - unfold main. rewrite D. cbn [negb]. intros E.
    apply (exit_is_last [Traceback (OSError ENOENT)]) in E;
      [|repeat constructor].
    destruct E as [-> ->]. split; [reflexivity|].
    intros [H|[]]. discriminate H.
Qed.

Lemma socket_is_closed_before_exit_witness :
  @nil event = []
  /\ (In Socket (startup "/srv" ++ [Print (String LF "Server stopped"); Close])
      -> In Close
           (startup "/srv" ++ [Print (String LF "Server stopped"); Close])).
Proof.
  apply (socket_is_closed_before_exit Example.P Example.w [Interrupt] _ 0 []).
  reflexivity.
Defined.

(* ================================================================== *)
(** ** Further properties: the server and the default server *)
(* ================================================================== *)

Section Loops.

Variable P : platform.
Variable cwd : string.

#[local] Abbreviation base := BaseHTTPRequestHandler_end_headers.

Lemma sends_with_cors ws :
  map Send (map add_cors ws) = map cors_event (map Send ws).
Proof. now rewrite !map_map. Qed.

Lemma finish_request_cors request raises :
  finish_request P Server.end_headers cwd request raises
  = (map cors_event (fst (finish_request P base cwd request raises)),
     snd (finish_request P base cwd request raises)).
Proof.
  assert (D : handle P Server.end_headers (setup cwd request)
              = decorate (handle P base (setup cwd request))).
  { change (setup cwd request) with (decorate (setup cwd request)) at 1.
    now rewrite (dec_handle P _ _ dec_end_headers). }
  assert (E : wfile (handle P Server.end_headers (setup cwd request))
              = map add_cors (wfile (handle P base (setup cwd request))))
    by now rewrite D.
  assert (R : raised (handle P Server.end_headers (setup cwd request))
              = raised (handle P base (setup cwd request)))
    by now rewrite D.
  unfold finish_request. cbv zeta. rewrite E, R.
  set (ws := wfile (handle P base (setup cwd request))).
  destruct raises as [[k e]|]; cbn [fst snd]; [|now rewrite sends_with_cors].
  now rewrite firstn_map, sends_with_cors.
Qed.

Lemma handle_request_cors request raises :
  _handle_request_noblock P Server.end_headers cwd request raises
  = (map cors_event
       (fst (_handle_request_noblock P base cwd request raises)),
     snd (_handle_request_noblock P base cwd request raises)).
Proof.
  unfold _handle_request_noblock, process_request.
  rewrite finish_request_cors.
  destruct (finish_request P base cwd request raises) as [evs [e|]];
    cbn [fst snd].
  - destruct (is_Exception e); cbn [fst snd map];
      now rewrite map_app.
  - cbn [map]. now rewrite map_app.
Qed.

End Loops.

(** X22. The server of [server.py] does what the server with the default
    handler does, event for event, with the three CORS lines added to each
    header block it sends: the same connections accepted and shut down,
    the same responses cut at the same write by the same exceptions, the
    same tracebacks, and the loop left at the same point. *)
Theorem server_is_default_server_with_cors_added P cwd input :
  serve_forever P Server.end_headers cwd input
  = (map cors_event
       (fst (serve_forever P BaseHTTPRequestHandler_end_headers cwd input)),
     snd (serve_forever P BaseHTTPRequestHandler_end_headers cwd input)).
Proof.
  induction input as [|i input IH]; [reflexivity|].
  destruct i as [request raises| |]; cbn [serve_forever];
    [|exact IH | reflexivity].
  rewrite handle_request_cors.
  destruct (_handle_request_noblock P BaseHTTPRequestHandler_end_headers cwd
              request raises) as [evs [e|]]; cbn [fst snd]; [reflexivity|].
  rewrite IH.
  destruct (serve_forever P BaseHTTPRequestHandler_end_headers cwd input)
    as [evs' r]; cbn [fst snd].
  now rewrite map_app.
Qed.

(** *** Request lines of four words and more *)

(** X23. A request line of four words or more whose last word is a
    version of HTTP below 2.0, other than HTTP/0.9, is answered with status
    400, Bad request syntax: the version is accepted before the words are
    counted, so this reply has its status line and its header block, with
    the three CORS lines, and then the page. *)
Theorem request_line_of_four_words_is_400 P cwd line hl b vn :
  (len line <=? 65536)%Z = true ->
  4 <= List.length (split (rstrip_crlf line)) ->
  version_number (last (split (rstrip_crlf line)) EmptyString)
  = Some (b, vn) ->
  pair_ge vn (2, 0)%Z = false ->
  (last (split (rstrip_crlf line)) EmptyString =? "HTTP/0.9") = false ->
  response P Server.end_headers cwd [Message line hl]
  = error_reply P 400
      ("Bad request syntax (" ++ repr P (rstrip_crlf line) ++ ")").
Proof.
  intros L W V G V9. rewrite response_single by apply end_headers_rfile.
  unfold handle_one_request, setup; attrs. cbn [m_line m_headers].
  replace (65536 <? len line)%Z with false by lia.
  destruct (line =? EmptyString) eqn:El.
  { apply String.eqb_eq in El; subst line. cbn in W. lia. }
  unfold parse_request; attrs.
  remember (split (rstrip_crlf line)) as words eqn:Ew.
  assert (L0 : Nat.eqb (List.length words) 0 = false)
    by (apply Nat.eqb_neq; lia).
  assert (L3 : Nat.leb 3 (List.length words) = true)
    by (apply Nat.leb_le; lia).
  assert (L4 : Nat.leb (List.length words) 3 = false)
    by (apply Nat.leb_gt; lia).
  rewrite L0, L3, V, protocol_is_1_0, andb_false_r, G.
  unfold parse_request_words. rewrite L4. cbn [negb].
  destruct words as [|w1 [|w2 ws]]; [cbn in W; lia | cbn in W; lia |].
  assign.
  now rewrite send_error_on by first [exact V9 | reflexivity].
Qed.

Lemma request_line_of_four_words_is_400_witness :
  response Example.P Server.end_headers Example.cwd
    (Example.request "GET /a b.txt HTTP/1.1")
  = error_reply Example.P 400
      "Bad request syntax ('GET /a b.txt HTTP/1.1')".
Proof.
  apply (request_line_of_four_words_is_400 Example.P Example.cwd
           ("GET /a b.txt HTTP/1.1" ++ CRLF)%string (Fields [])
           "1.1" (1, 1)%Z);
    vm_compute; first [reflexivity | lia].
Defined.
